(** * ClickHouse exporter: telemetry-to-row mapping and transactional insert

    A shallow embedding of the Go sources of the ClickHouse exporter
    (package [clickhouseexporter] and its [internal] package): the SQL
    templates, the identifier codec, the row builders of the seven signal
    kinds, the metric accumulators and the transaction wrapper [doWithTx],
    followed by the properties established about them. *)

From Stdlib Require Import ZArith List String Ascii Bool Lia Arith.
From Stdlib Require Import DecimalString.
Import ListNotations.

Local Open Scope string_scope.
Local Open Scope list_scope.
Local Open Scope Z_scope.

Notation "s1 +++ s2" := (String.append s1 s2) (at level 60, right associativity).

(** ** Text helpers *)

Module Text.

Definition tab : ascii := ascii_of_nat 9.
Definition lf : ascii := ascii_of_nat 10.
Definition cr : ascii := ascii_of_nat 13.

Definition is_space (c : ascii) : bool :=
  Ascii.eqb c " " || Ascii.eqb c tab || Ascii.eqb c lf || Ascii.eqb c cr.

Fixpoint drop_spaces (l : list ascii) : list ascii :=
  match l with
  | c :: r => if is_space c then drop_spaces r else l
  | [] => []
  end.

Definition trim (s : string) : string :=
  string_of_list_ascii
    (rev (drop_spaces (rev (drop_spaces (list_ascii_of_string s))))).

(** The text that follows the first opening parenthesis. *)
Fixpoint after_open (s : string) : string :=
  match s with
  | EmptyString => EmptyString
  | String c r => if Ascii.eqb c "(" then r else after_open r
  end.

(** The prefix of [s] up to the parenthesis that closes nesting level
    [depth], and what follows it. *)
Fixpoint balanced (depth : nat) (s : string) : string * string :=
  match s with
  | EmptyString => (EmptyString, EmptyString)
  | String c r =>
      if Ascii.eqb c ")" then
        match depth with
        | O => (EmptyString, r)
        | S d => let (b, t) := balanced d r in (String c b, t)
        end
      else
        let (b, t) := balanced (if Ascii.eqb c "(" then S depth else depth) r in
        (String c b, t)
  end.

(** Body of the first parenthesised group of [s]. *)
Definition group_body (s : string) : string := fst (balanced 0 (after_open s)).

(** What follows the first parenthesised group of [s]. *)
Definition group_rest (s : string) : string := snd (balanced 0 (after_open s)).

Definition next_depth (depth : nat) (c : ascii) : nat :=
  if Ascii.eqb c "(" then S depth
  else if Ascii.eqb c ")" then Nat.pred depth
  else depth.

Definition push_char (c : ascii) (parts : list string) : list string :=
  match parts with
  | [] => [String c EmptyString]
  | p :: ps => String c p :: ps
  end.

(** Split at the commas that are outside every parenthesis. *)
Fixpoint split_commas (depth : nat) (s : string) : list string :=
  match s with
  | EmptyString => [EmptyString]
  | String c r =>
      if Ascii.eqb c "," && Nat.eqb depth 0 then EmptyString :: split_commas 0 r
      else push_char c (split_commas (next_depth depth c) r)
  end.

(** Split at the white space that is outside every parenthesis; the
    pieces may be empty. *)
Fixpoint split_spaces (depth : nat) (s : string) : list string :=
  match s with
  | EmptyString => [EmptyString]
  | String c r =>
      if is_space c && Nat.eqb depth 0 then EmptyString :: split_spaces 0 r
      else push_char c (split_spaces (next_depth depth c) r)
  end.

Definition nonempty (s : string) : bool := negb (String.eqb s EmptyString).

Definition words (s : string) : list string := filter nonempty (split_spaces 0 s).

Fixpoint replace_char (old new : ascii) (s : string) : string :=
  match s with
  | EmptyString => EmptyString
  | String c r => String (if Ascii.eqb c old then new else c) (replace_char old new r)
  end.

End Text.

(** ** [fmt.Sprintf] restricted to the [%s] verb

    The templates below use no other verb.  A verb without an operand
    prints [%!s(MISSING)], operands left over are reported at the end, as
    the Go library does. *)

Fixpoint extra_operands (args : list string) : string :=
  match args with
  | [] => ""
  | [a] => "string=" +++ a
  | a :: r => "string=" +++ a +++ ", " +++ extra_operands r
  end.

Fixpoint Sprintf (format : string) (args : list string) : string :=
  match format with
  | EmptyString =>
      match args with
      | [] => ""
      | _ :: _ => "%!(EXTRA " +++ extra_operands args +++ ")"
      end
  | String c r =>
      match r with
      | String d r' =>
          if Ascii.eqb c "%" && Ascii.eqb d "s" then
            match args with
            | a :: args' => a +++ Sprintf r' args'
            | [] => "%!s(MISSING)" +++ Sprintf r' []
            end
          else String c (Sprintf r args)
      | EmptyString => String c (Sprintf r args)
      end
  end.

(** [strings.ReplaceAll] for one-character patterns. *)
Definition ReplaceAll (s : string) (old new : ascii) : string :=
  Text.replace_char old new s.

(** ** The SQL templates (constants of the Go sources, verbatim) *)

Definition createSumTableSQL : string :=
"
	CREATE TABLE IF NOT EXISTS %s %s (
		ResourceAttributes JSON,
		ResourceSchemaUrl String CODEC(ZSTD(1)),
		ScopeName String CODEC(ZSTD(1)),
		ScopeVersion String CODEC(ZSTD(1)),
		ScopeAttributes JSON,
		ScopeDroppedAttrCount UInt32 CODEC(ZSTD(1)),
		ScopeSchemaUrl String CODEC(ZSTD(1)),
		ServiceName LowCardinality(String) CODEC(ZSTD(1)),
		MetricName String CODEC(ZSTD(1)),
		MetricDescription String CODEC(ZSTD(1)),
		MetricUnit String CODEC(ZSTD(1)),
		Attributes JSON,
		StartTimeUnix DateTime64(9) CODEC(Delta, ZSTD(1)),
		TimeUnix DateTime64(9) CODEC(Delta, ZSTD(1)),
		Value Float64 CODEC(ZSTD(1)),
		Flags UInt32  CODEC(ZSTD(1)),
		Exemplars Nested (
			FilteredAttributes JSON,
			TimeUnix DateTime64(9),
			Value Float64,
			SpanId String,
			TraceId String
		) CODEC(ZSTD(1)),
		AggregationTemporality Int32 CODEC(ZSTD(1)),
		IsMonotonic Boolean CODEC(Delta, ZSTD(1)),
) ENGINE = %s
%s
PARTITION BY toDate(TimeUnix)
ORDER BY (ServiceName, MetricName, Attributes, toUnixTimestamp64Nano(TimeUnix))
SETTINGS index_granularity=8192, ttl_only_drop_parts = 1;
".

Definition insertSumTableSQL : string :=
"INSERT INTO %s (
    ResourceAttributes,
    ResourceSchemaUrl,
    ScopeName,
    ScopeVersion,
    ScopeAttributes,
	ScopeDroppedAttrCount,
    ScopeSchemaUrl,
    ServiceName,
    MetricName,
    MetricDescription,
    MetricUnit,
    Attributes,
    StartTimeUnix,
    TimeUnix,
    Value,
    Flags,
    Exemplars.FilteredAttributes,
	Exemplars.TimeUnix,
    Exemplars.Value,
    Exemplars.SpanId,
    Exemplars.TraceId,
	AggregationTemporality,
	IsMonotonic) VALUES (?,?,?,?,?,?,?,?,?,?,?,?,?,?,?,?,?,?,?,?,?,?,?)".

Definition createExpHistogramTableSQL : string :=
"
CREATE TABLE IF NOT EXISTS %s %s (
	ResourceAttributes JSON,
	ResourceSchemaUrl String CODEC(ZSTD(1)),
	ScopeName String CODEC(ZSTD(1)),
	ScopeVersion String CODEC(ZSTD(1)),
	ScopeAttributes JSON,
	ScopeDroppedAttrCount UInt32 CODEC(ZSTD(1)),
	ScopeSchemaUrl String CODEC(ZSTD(1)),
	ServiceName LowCardinality(String) CODEC(ZSTD(1)),
	MetricName String CODEC(ZSTD(1)),
	MetricDescription String CODEC(ZSTD(1)),
	MetricUnit String CODEC(ZSTD(1)),
	Attributes JSON,
	StartTimeUnix DateTime64(9) CODEC(Delta, ZSTD(1)),
	TimeUnix DateTime64(9) CODEC(Delta, ZSTD(1)),
	Count UInt64 CODEC(Delta, ZSTD(1)),
	Sum Float64 CODEC(ZSTD(1)),
	Scale Int32 CODEC(ZSTD(1)),
	ZeroCount UInt64 CODEC(ZSTD(1)),
	PositiveOffset Int32 CODEC(ZSTD(1)),
	PositiveBucketCounts Array(UInt64) CODEC(ZSTD(1)),
	NegativeOffset Int32 CODEC(ZSTD(1)),
	NegativeBucketCounts Array(UInt64) CODEC(ZSTD(1)),
	Exemplars Nested (
		FilteredAttributes JSON,
		TimeUnix DateTime64(9),
		Value Float64,
		SpanId String,
		TraceId String
	) CODEC(ZSTD(1)),
	Flags UInt32  CODEC(ZSTD(1)),
	Min Float64 CODEC(ZSTD(1)),
	Max Float64 CODEC(ZSTD(1)),
	AggregationTemporality Int32 CODEC(ZSTD(1)),
) ENGINE = %s
%s
PARTITION BY toDate(TimeUnix)
ORDER BY (ServiceName, MetricName, Attributes, toUnixTimestamp64Nano(TimeUnix))
SETTINGS index_granularity=8192, ttl_only_drop_parts = 1;
".

Definition insertExpHistogramTableSQL : string :=
"INSERT INTO %s (
	ResourceAttributes,
    ResourceSchemaUrl,
    ScopeName,
    ScopeVersion,
    ScopeAttributes,
    ScopeDroppedAttrCount,
    ScopeSchemaUrl,
    ServiceName,
    MetricName,
    MetricDescription,
    MetricUnit,
    Attributes,
		StartTimeUnix,
		TimeUnix,
		Count,
		Sum,
    Scale,
    ZeroCount,
		PositiveOffset,
		PositiveBucketCounts,
		NegativeOffset,
		NegativeBucketCounts,
  	Exemplars.FilteredAttributes,
		Exemplars.TimeUnix,
    Exemplars.Value,
    Exemplars.SpanId,
    Exemplars.TraceId,
		Flags,
		Min,
		Max,
		AggregationTemporality) VALUES (?,?,?,?,?,?,?,?,?,?,?,?,?,?,?,?,?,?,?,?,?,?,?,?,?,?,?,?,?,?,?)".

Definition createTracesTableSQL : string :=
"
CREATE TABLE IF NOT EXISTS %s %s (
	Timestamp DateTime64(9) CODEC(Delta, ZSTD(1)),
	TraceId String CODEC(ZSTD(1)),
	SpanId String CODEC(ZSTD(1)),
	ParentSpanId String CODEC(ZSTD(1)),
	TraceState String CODEC(ZSTD(1)),
	SpanName LowCardinality(String) CODEC(ZSTD(1)),
	SpanKind LowCardinality(String) CODEC(ZSTD(1)),
	ServiceName LowCardinality(String) CODEC(ZSTD(1)),
	ResourceAttributes JSON,
	ScopeName String CODEC(ZSTD(1)),
	ScopeVersion String CODEC(ZSTD(1)),
	SpanAttributes JSON,
	Duration UInt64 CODEC(ZSTD(1)),
	StatusCode LowCardinality(String) CODEC(ZSTD(1)),
	StatusMessage String CODEC(ZSTD(1)),
	Events Nested (
		Timestamp DateTime64(9),
		Name LowCardinality(String),
		Attributes JSON
	) CODEC(ZSTD(1)),
	Links Nested (
		TraceId String,
		SpanId String,
		TraceState String,
		Attributes JSON
	) CODEC(ZSTD(1)),
	INDEX idx_trace_id TraceId TYPE bloom_filter(0.001) GRANULARITY 1,
	INDEX idx_duration Duration TYPE minmax GRANULARITY 1
) ENGINE = %s
PARTITION BY toDate(Timestamp)
ORDER BY (ServiceName, SpanName, toDateTime(Timestamp))
%s
SETTINGS index_granularity=8192, ttl_only_drop_parts = 1;
".

Definition insertTracesSQLTemplate : string :=
"INSERT INTO %s (
                        Timestamp,
                        TraceId,
                        SpanId,
                        ParentSpanId,
                        TraceState,
                        SpanName,
                        SpanKind,
                        ServiceName,
					    ResourceAttributes,
						ScopeName,
						ScopeVersion,
                        SpanAttributes,
                        Duration,
                        StatusCode,
                        StatusMessage,
                        Events.Timestamp,
                        Events.Name,
                        Events.Attributes,
                        Links.TraceId,
                        Links.SpanId,
                        Links.TraceState,
                        Links.Attributes
                        ) VALUES (
                                  ?,
                                  ?,
                                  ?,
                                  ?,
                                  ?,
                                  ?,
                                  ?,
                                  ?,
                                  ?,
                                  ?,
                                  ?,
                                  ?,
                                  ?,
                                  ?,
                                  ?,
                                  ?,
                                  ?,
                                  ?,
                                  ?,
                                  ?,
                                  ?,
                                  ?
                                  )".

Definition createTraceIDTsTableSQL : string :=
"
CREATE TABLE IF NOT EXISTS %s_trace_id_ts %s (
     TraceId String CODEC(ZSTD(1)),
     Start DateTime CODEC(Delta, ZSTD(1)),
     End DateTime CODEC(Delta, ZSTD(1)),
     INDEX idx_trace_id TraceId TYPE bloom_filter(0.01) GRANULARITY 1
) ENGINE = %s
PARTITION BY toDate(Start)
ORDER BY (TraceId, Start)
%s
SETTINGS index_granularity=8192, ttl_only_drop_parts = 1;
".

Definition createTraceIDTsMaterializedViewSQL : string :=
"
CREATE MATERIALIZED VIEW IF NOT EXISTS %s_trace_id_ts_mv %s
TO %s.%s_trace_id_ts
AS SELECT
	TraceId,
	min(Timestamp) as Start,
	max(Timestamp) as End
FROM
%s.%s
WHERE TraceId != ''
GROUP BY TraceId;
".

Definition createLogsTableSQL : string :=
"
CREATE TABLE IF NOT EXISTS %s %s (
	Timestamp DateTime64(9) CODEC(Delta(8), ZSTD(1)),
	TimestampTime DateTime DEFAULT toDateTime(Timestamp),
	TraceId String CODEC(ZSTD(1)),
	SpanId String CODEC(ZSTD(1)),
	TraceFlags UInt8,
	SeverityText LowCardinality(String) CODEC(ZSTD(1)),
	SeverityNumber UInt8,
	ServiceName LowCardinality(String) CODEC(ZSTD(1)),
	Body String CODEC(ZSTD(1)),
	ResourceSchemaUrl LowCardinality(String) CODEC(ZSTD(1)),
	ResourceAttributes JSON,
	ScopeSchemaUrl LowCardinality(String) CODEC(ZSTD(1)),
	ScopeName String CODEC(ZSTD(1)),
	ScopeVersion LowCardinality(String) CODEC(ZSTD(1)),
	ScopeAttributes JSON,
	LogAttributes JSON,

	INDEX idx_trace_id TraceId TYPE bloom_filter(0.001) GRANULARITY 1,



	INDEX idx_body Body TYPE tokenbf_v1(32768, 3, 0) GRANULARITY 8
) ENGINE = %s
PARTITION BY toDate(TimestampTime)
PRIMARY KEY (ServiceName, TimestampTime)
ORDER BY (ServiceName, TimestampTime, Timestamp)
%s
SETTINGS index_granularity = 8192, ttl_only_drop_parts = 1;
".

Definition insertLogsSQLTemplate : string :=
"INSERT INTO %s (
                        Timestamp,
                        TraceId,
                        SpanId,
                        TraceFlags,
                        SeverityText,
                        SeverityNumber,
                        ServiceName,
                        Body,
                        ResourceSchemaUrl,
                        ResourceAttributes,
                        ScopeSchemaUrl,
                        ScopeName,
                        ScopeVersion,
                        ScopeAttributes,
                        LogAttributes
                        ) VALUES (
                                  ?,
                                  ?,
                                  ?,
                                  ?,
                                  ?,
                                  ?,
                                  ?,
                                  ?,
                                  ?,
                                  ?,
                                  ?,
                                  ?,
                                  ?,
                                  ?,
                                  ?
                                  )".

Definition createGaugeTableSQL : string :=
"
CREATE TABLE IF NOT EXISTS %s %s (
	ResourceAttributes JSON,
	ResourceSchemaUrl String CODEC(ZSTD(1)),
	ScopeName String CODEC(ZSTD(1)),
	ScopeVersion String CODEC(ZSTD(1)),
	ScopeAttributes JSON,
	ScopeDroppedAttrCount UInt32 CODEC(ZSTD(1)),
	ScopeSchemaUrl String CODEC(ZSTD(1)),
	ServiceName LowCardinality(String) CODEC(ZSTD(1)),
	MetricName String CODEC(ZSTD(1)),
	MetricDescription String CODEC(ZSTD(1)),
	MetricUnit String CODEC(ZSTD(1)),
	Attributes JSON,
	StartTimeUnix DateTime64(9) CODEC(Delta, ZSTD(1)),
	TimeUnix DateTime64(9) CODEC(Delta, ZSTD(1)),
	Value Float64 CODEC(ZSTD(1)),
	Flags UInt32 CODEC(ZSTD(1)),
	Exemplars Nested (
		FilteredAttributes JSON,
		TimeUnix DateTime64(9),
		Value Float64,
		SpanId String,
		TraceId String
	) CODEC(ZSTD(1)),
) ENGINE = %s
%s
PARTITION BY toDate(TimeUnix)
ORDER BY (ServiceName, MetricName, Attributes, toUnixTimestamp64Nano(TimeUnix))
SETTINGS index_granularity=8192, ttl_only_drop_parts = 1;
".

Definition insertGaugeTableSQL : string :=
"INSERT INTO %s (
    ResourceAttributes,
    ResourceSchemaUrl,
    ScopeName,
    ScopeVersion,
    ScopeAttributes,
    ScopeDroppedAttrCount,
    ScopeSchemaUrl,
    ServiceName,
    MetricName,
    MetricDescription,
    MetricUnit,
    Attributes,
    StartTimeUnix,
    TimeUnix,
    Value,
    Flags,
    Exemplars.FilteredAttributes,
		Exemplars.TimeUnix,
    Exemplars.Value,
    Exemplars.SpanId,
    Exemplars.TraceId) VALUES (?,?,?,?,?,?,?,?,?,?,?,?,?,?,?,?,?,?,?,?,?)".

Definition createHistogramTableSQL : string :=
"
CREATE TABLE IF NOT EXISTS %s %s (
		ResourceAttributes JSON,
		ResourceSchemaUrl String CODEC(ZSTD(1)),
		ScopeName String CODEC(ZSTD(1)),
		ScopeVersion String CODEC(ZSTD(1)),
		ScopeAttributes JSON,
		ScopeDroppedAttrCount UInt32 CODEC(ZSTD(1)),
		ScopeSchemaUrl String CODEC(ZSTD(1)),
		ServiceName LowCardinality(String) CODEC(ZSTD(1)),
		MetricName String CODEC(ZSTD(1)),
		MetricDescription String CODEC(ZSTD(1)),
		MetricUnit String CODEC(ZSTD(1)),
		Attributes JSON,
		StartTimeUnix DateTime64(9) CODEC(Delta, ZSTD(1)),
		TimeUnix DateTime64(9) CODEC(Delta, ZSTD(1)),
		Count UInt64 CODEC(Delta, ZSTD(1)),
		Sum Float64 CODEC(ZSTD(1)),
		BucketCounts Array(UInt64) CODEC(ZSTD(1)),
		ExplicitBounds Array(Float64) CODEC(ZSTD(1)),
		Exemplars Nested (
			FilteredAttributes JSON,
			TimeUnix DateTime64(9),
			Value Float64,
			SpanId String,
			TraceId String
		) CODEC(ZSTD(1)),
		Flags UInt32 CODEC(ZSTD(1)),
		Min Float64 CODEC(ZSTD(1)),
		Max Float64 CODEC(ZSTD(1)),
		AggregationTemporality Int32 CODEC(ZSTD(1)),
) ENGINE = %s
%s
PARTITION BY toDate(TimeUnix)
ORDER BY (ServiceName, MetricName, Attributes, toUnixTimestamp64Nano(TimeUnix))
SETTINGS index_granularity=8192, ttl_only_drop_parts = 1;
".

Definition insertHistogramTableSQL : string :=
"INSERT INTO %s (
	ResourceAttributes,
    ResourceSchemaUrl,
    ScopeName,
    ScopeVersion,
    ScopeAttributes,
    ScopeDroppedAttrCount,
    ScopeSchemaUrl,
    ServiceName,
    MetricName,
    MetricDescription,
    MetricUnit,
    Attributes,
	StartTimeUnix,
	TimeUnix,
	Count,
	Sum,
	BucketCounts,
	ExplicitBounds,
  	Exemplars.FilteredAttributes,
	Exemplars.TimeUnix,
    Exemplars.Value,
    Exemplars.SpanId,
    Exemplars.TraceId,
	Flags,
	Min,
	Max,
	AggregationTemporality) VALUES (?,?,?,?,?,?,?,?,?,?,?,?,?,?,?,?,?,?,?,?,?,?,?,?,?,?,?)".

Definition createSummaryTableSQL : string :=
"
CREATE TABLE IF NOT EXISTS %s %s (
	ResourceAttributes JSON,
	ResourceSchemaUrl String CODEC(ZSTD(1)),
	ScopeName String CODEC(ZSTD(1)),
	ScopeVersion String CODEC(ZSTD(1)),
	ScopeAttributes JSON,
	ScopeDroppedAttrCount UInt32 CODEC(ZSTD(1)),
	ScopeSchemaUrl String CODEC(ZSTD(1)),
	ServiceName LowCardinality(String) CODEC(ZSTD(1)),
	MetricName String CODEC(ZSTD(1)),
	MetricDescription String CODEC(ZSTD(1)),
	MetricUnit String CODEC(ZSTD(1)),
	Attributes JSON,
	StartTimeUnix DateTime64(9) CODEC(Delta, ZSTD(1)),
	TimeUnix DateTime64(9) CODEC(Delta, ZSTD(1)),
	Count UInt64 CODEC(Delta, ZSTD(1)),
	Sum Float64 CODEC(ZSTD(1)),
	ValueAtQuantiles Nested(
		Quantile Float64,
		Value Float64
	) CODEC(ZSTD(1)),
	Flags UInt32  CODEC(ZSTD(1)),
) ENGINE = %s
%s
PARTITION BY toDate(TimeUnix)
ORDER BY (ServiceName, MetricName, Attributes, toUnixTimestamp64Nano(TimeUnix))
SETTINGS index_granularity=8192, ttl_only_drop_parts = 1;
".

Definition insertSummaryTableSQL : string :=
"INSERT INTO %s (
	ResourceAttributes,
    ResourceSchemaUrl,
    ScopeName,
    ScopeVersion,
    ScopeAttributes,
    ScopeDroppedAttrCount,
    ScopeSchemaUrl,
    ServiceName,
    MetricName,
    MetricDescription,
    MetricUnit,
    Attributes,
	StartTimeUnix,
	TimeUnix,
    Count,
    Sum,
    ValueAtQuantiles.Quantile,
	ValueAtQuantiles.Value,
    Flags) VALUES (?,?,?,?,?,?,?,?,?,?,?,?,?,?,?,?,?,?,?)".

(** ** Column lists read off the SQL text *)

Module Sql.

(** A column declared by a [CREATE TABLE] statement: its name (nested
    columns are named [Outer.Inner], as the store flattens them) and whether
    the declaration carries a [DEFAULT] expression. *)
Record column := mkColumn { col_name : string; col_default : bool }.

Definition first_word (s : string) : string := hd "" (Text.words s).

Definition item_columns (item : string) : list column :=
  match Text.words item with
  | [] => []
  | name :: def =>
      if String.eqb name "INDEX" then []
      else if String.prefix "Nested" (hd "" def) then
        map (fun sub => mkColumn (name +++ "." +++ first_word sub) false)
            (Text.split_commas 0 (Text.group_body item))
      else [mkColumn name (existsb (String.eqb "DEFAULT") def)]
  end.

(** The columns of a [CREATE TABLE] template, in declaration order. *)
Definition create_columns (sql : string) : list column :=
  flat_map item_columns (Text.split_commas 0 (Text.group_body sql)).

(** The columns a row must supply: those without a [DEFAULT]. *)
Definition supplied_columns (sql : string) : list string :=
  map col_name (filter (fun c => negb (col_default c)) (create_columns sql)).

(** The column list of an [INSERT] template. *)
Definition insert_columns (sql : string) : list string :=
  map Text.trim (Text.split_commas 0 (Text.group_body sql)).

(** The entries of the [VALUES] list of an [INSERT] template. *)
Definition insert_placeholders (sql : string) : list string :=
  map Text.trim (Text.split_commas 0 (Text.group_body (Text.group_rest sql))).

End Sql.

(** ** Errors

    Go [error] values: those the database driver returns, those made by
    [errors.New], and those wrapped by [fmt.Errorf] with a prefix and [%w]. *)

Inductive error : Type :=
| DriverError (msg : string)
| ErrorsNew (msg : string)
| Errorf (prefix : string) (wrapped : error).

(** [sql.ErrTxDone]: the transaction was already committed or rolled back. *)
Definition ErrTxDone : error := ErrorsNew "sql: transaction has already been committed or rolled back".

(** [errors.Is err target] along the [%w] chain. *)
Fixpoint wraps (err target : error) : Prop :=
  err = target \/
  match err with
  | Errorf _ inner => wraps inner target
  | _ => False
  end.

(** ** The telemetry data model (packages pcommon, pmetric, ptrace, plog)

    Scalars have the width Go gives them and are carried as [Z]:
    [Timestamp] is a [uint64] of nanoseconds since the Unix epoch, flags and
    dropped counts are [uint32], enumerations are [int32]. *)

(** A [float64] is passed through to the store and never computed with: it
    is either a given double, carried by its IEEE-754 bit pattern
    ([math.Float64bits]), or the conversion [float64(i)] of an [int64]. *)
Inductive float64 : Type :=
| F64bits (bits : Z)
| F64ofInt (i : Z).

Definition float64_zero : float64 := F64bits 0.

(** [pcommon.Value]: the variants whose text is needed are explicit; a
    double, map, slice or bytes value is carried with its [AsString]
    rendering. *)
Inductive Value : Type :=
| ValueEmpty
| ValueStr (s : string)
| ValueInt (i : Z)
| ValueBool (b : bool)
| ValueOther (rendering : string).

Definition Value_AsString (v : Value) : string :=
  match v with
  | ValueEmpty => ""
  | ValueStr s => s
  | ValueInt i => NilEmpty.string_of_int (Z.to_int i)
  | ValueBool true => "true"
  | ValueBool false => "false"
  | ValueOther rendering => rendering
  end.

(** [pcommon.Map]: key/value entries in insertion order. *)
Definition Map : Type := list (string * Value).

(** [Map.Get]: the first entry with the key. *)
Fixpoint Map_Get (m : Map) (key : string) : option Value :=
  match m with
  | [] => None
  | (k, v) :: r => if String.eqb k key then Some v else Map_Get r key
  end.

(** [pcommon.TraceID] is [[16]byte], [pcommon.SpanID] is [[8]byte]. *)
Definition TraceID : Type := list Byte.byte.
Definition SpanID : Type := list Byte.byte.

Definition wf_TraceID (id : TraceID) : Prop := List.length id = 16%nat.
Definition wf_SpanID (id : SpanID) : Prop := List.length id = 8%nat.

Definition Timestamp : Type := Z.

Definition int64_min : Z := - 2 ^ 63.
Definition int64_max : Z := 2 ^ 63 - 1.

(** The conversion [int64(x)] of a [uint64]: two's complement. *)
Definition to_int64 (x : Z) : Z := (x + 2 ^ 63) mod 2 ^ 64 - 2 ^ 63.

(** [time.Time] as the nanoseconds since the Unix epoch.
    [Timestamp.AsTime] is [time.Unix(0, int64(ts)).UTC()]. *)
Definition Time : Type := Z.
Definition AsTime (ts : Timestamp) : Time := to_int64 ts.

(** [Time.Sub] returns a [Duration] (an [int64] of nanoseconds); a
    difference out of range is replaced by the largest or smallest
    [Duration]. *)
Definition Time_Sub (t u : Time) : Z :=
  let d := t - u in
  if d <? int64_min then int64_min
  else if int64_max <? d then int64_max
  else d.

(** [Duration.Nanoseconds] is [int64(d)]. *)
Definition Nanoseconds (d : Z) : Z := d.

Record InstrumentationScope : Type := mkScope {
  scope_Name : string;
  scope_Version : string;
  scope_Attributes : Map;
  scope_DroppedAttributesCount : Z
}.

Inductive ValueType : Type := ValueTypeEmpty | ValueTypeInt | ValueTypeDouble.

Record Exemplar : Type := mkExemplar {
  ex_FilteredAttributes : Map;
  ex_Timestamp : Timestamp;
  ex_ValueType : ValueType;
  ex_IntValue : Z;
  ex_DoubleValue : float64;
  ex_SpanID : SpanID;
  ex_TraceID : TraceID
}.

Record NumberDataPoint : Type := mkNumberDataPoint {
  ndp_Attributes : Map;
  ndp_StartTimestamp : Timestamp;
  ndp_Timestamp : Timestamp;
  ndp_ValueType : ValueType;
  ndp_IntValue : Z;
  ndp_DoubleValue : float64;
  ndp_Flags : Z;
  ndp_Exemplars : list Exemplar
}.

(** [pmetric.AggregationTemporality] is an [int32]. *)
Definition AggregationTemporalityUnspecified : Z := 0.
Definition AggregationTemporalityDelta : Z := 1.
Definition AggregationTemporalityCumulative : Z := 2.

Record Sum : Type := mkSum {
  sum_DataPoints : list NumberDataPoint;
  sum_AggregationTemporality : Z;
  sum_IsMonotonic : bool
}.

Record Gauge : Type := mkGauge {
  gauge_DataPoints : list NumberDataPoint
}.

Record HistogramDataPoint : Type := mkHistogramDataPoint {
  hdp_Attributes : Map;
  hdp_StartTimestamp : Timestamp;
  hdp_Timestamp : Timestamp;
  hdp_Count : Z;
  hdp_Sum : float64;
  hdp_BucketCounts : list Z;
  hdp_ExplicitBounds : list float64;
  hdp_Exemplars : list Exemplar;
  hdp_Flags : Z;
  hdp_Min : float64;
  hdp_Max : float64
}.

Record Histogram : Type := mkHistogram {
  histogram_DataPoints : list HistogramDataPoint;
  histogram_AggregationTemporality : Z
}.

Record Buckets : Type := mkBuckets {
  buckets_Offset : Z;
  buckets_BucketCounts : list Z
}.

Record ExponentialHistogramDataPoint : Type := mkExponentialHistogramDataPoint {
  ehdp_Attributes : Map;
  ehdp_StartTimestamp : Timestamp;
  ehdp_Timestamp : Timestamp;
  ehdp_Count : Z;
  ehdp_Sum : float64;
  ehdp_Scale : Z;
  ehdp_ZeroCount : Z;
  ehdp_Positive : Buckets;
  ehdp_Negative : Buckets;
  ehdp_Exemplars : list Exemplar;
  ehdp_Flags : Z;
  ehdp_Min : float64;
  ehdp_Max : float64
}.

Record ExponentialHistogram : Type := mkExponentialHistogram {
  exphistogram_DataPoints : list ExponentialHistogramDataPoint;
  exphistogram_AggregationTemporality : Z
}.

Record ValueAtQuantile : Type := mkValueAtQuantile {
  vq_Quantile : float64;
  vq_Value : float64
}.

Record SummaryDataPoint : Type := mkSummaryDataPoint {
  sdp_Attributes : Map;
  sdp_StartTimestamp : Timestamp;
  sdp_Timestamp : Timestamp;
  sdp_Count : Z;
  sdp_Sum : float64;
  sdp_QuantileValues : list ValueAtQuantile;
  sdp_Flags : Z
}.

Record Summary : Type := mkSummary {
  summary_DataPoints : list SummaryDataPoint
}.

(** The dynamic type of the [metrics any] argument of the [Add] methods:
    one of the five metric payloads, or a value of any other type. *)
Inductive any : Type :=
| AnySum (m : Sum)
| AnyGauge (m : Gauge)
| AnyHistogram (m : Histogram)
| AnyExponentialHistogram (m : ExponentialHistogram)
| AnySummary (m : Summary)
| AnyOther (typeName : string).

(** Traces. *)

Record SpanEvent : Type := mkSpanEvent {
  event_Timestamp : Timestamp;
  event_Name : string;
  event_Attributes : Map
}.

Record SpanLink : Type := mkSpanLink {
  link_TraceID : TraceID;
  link_SpanID : SpanID;
  link_TraceState : string;
  link_Attributes : Map
}.

Record Status : Type := mkStatus {
  status_Code : Z;
  status_Message : string
}.

Record Span : Type := mkSpan {
  span_TraceID : TraceID;
  span_SpanID : SpanID;
  span_ParentSpanID : SpanID;
  span_TraceState : string;
  span_Name : string;
  span_Kind : Z;
  span_StartTimestamp : Timestamp;
  span_EndTimestamp : Timestamp;
  span_Attributes : Map;
  span_Status : Status;
  span_Events : list SpanEvent;
  span_Links : list SpanLink
}.

Record ScopeSpans : Type := mkScopeSpans {
  ss_Scope : InstrumentationScope;
  ss_Spans : list Span
}.

Record ResourceSpans : Type := mkResourceSpans {
  rs_ResourceAttributes : Map;
  rs_ScopeSpans : list ScopeSpans
}.

Definition Traces : Type := list ResourceSpans.

(** [ptrace.SpanKind.String] and [ptrace.StatusCode.String]. *)
Definition SpanKind_String (k : Z) : string :=
  if k =? 0 then "Unspecified"
  else if k =? 1 then "Internal"
  else if k =? 2 then "Server"
  else if k =? 3 then "Client"
  else if k =? 4 then "Producer"
  else if k =? 5 then "Consumer"
  else "".

Definition StatusCode_String (c : Z) : string :=
  if c =? 0 then "Unset"
  else if c =? 1 then "Ok"
  else if c =? 2 then "Error"
  else "".

(** Logs. *)

Record LogRecord : Type := mkLogRecord {
  log_Timestamp : Timestamp;
  log_ObservedTimestamp : Timestamp;
  log_TraceID : TraceID;
  log_SpanID : SpanID;
  log_Flags : Z;
  log_SeverityText : string;
  log_SeverityNumber : Z;
  log_Body : Value;
  log_Attributes : Map
}.

Record ScopeLogs : Type := mkScopeLogs {
  sl_Scope : InstrumentationScope;
  sl_SchemaUrl : string;
  sl_LogRecords : list LogRecord
}.

Record ResourceLogs : Type := mkResourceLogs {
  rl_ResourceAttributes : Map;
  rl_SchemaUrl : string;
  rl_ScopeLogs : list ScopeLogs
}.

Definition Logs : Type := list ResourceLogs.

(** ** IdentifierCodec (internal package) *)

Definition hextable : string := "0123456789abcdef".

(** [hextable[i]]; the index is below 16 at both uses. *)
Definition hexdigit (i : N) : ascii :=
  match String.get (N.to_nat i) hextable with
  | Some c => c
  | None => "0"%char
  end.

(** [hex.EncodeToString]: two digits per byte, high nibble first. *)
Fixpoint EncodeToString (src : list Byte.byte) : string :=
  match src with
  | [] => ""
  | v :: r =>
      String (hexdigit (N.shiftr (Byte.to_N v) 4))
        (String (hexdigit (N.land (Byte.to_N v) 15)) (EncodeToString r))
  end.

Definition is_zero_byte (b : Byte.byte) : bool := N.eqb (Byte.to_N b) 0.

(** [TraceID.IsEmpty] and [SpanID.IsEmpty]: every byte is zero. *)
Definition IsEmpty (id : list Byte.byte) : bool := forallb is_zero_byte id.

Definition SpanIDToHexOrEmptyString (id : SpanID) : string :=
  if IsEmpty id then "" else EncodeToString id.

Definition TraceIDToHexOrEmptyString (id : TraceID) : string :=
  if IsEmpty id then "" else EncodeToString id.

(** Reading hexadecimal text back, used to state what the codec writes. *)
Definition hexvalue (c : ascii) : option N :=
  let n := N_of_ascii c in
  if (48 <=? n)%N && (n <=? 57)%N then Some (n - 48)%N
  else if (97 <=? n)%N && (n <=? 102)%N then Some (n - 87)%N
  else None.

Fixpoint DecodeString (s : string) : option (list Byte.byte) :=
  match s with
  | EmptyString => Some []
  | String hi (String lo r) =>
      match hexvalue hi, hexvalue lo, DecodeString r with
      | Some h, Some l, Some bs =>
          match Byte.of_N (h * 16 + l) with
          | Some b => Some (b :: bs)
          | None => None
          end
      | _, _, _ => None
      end
  | String _ EmptyString => None
  end.

(** ** Arguments handed to the database driver *)

#[local] Set Warnings "-register-all".

Inductive SqlVal : Type :=
| VString (s : string)
| VTime (t : Time)
| VFloat64 (f : float64)
| VUint64 (n : Z)
| VUint32 (n : Z)
| VInt64 (n : Z)
| VInt32 (n : Z)
| VBool (b : bool)
| VArray (elems : list SqlVal).

(** ** Helpers of the internal package that the row builders call *)

(** The attribute encoder [AttributesToJSON] is not among the sources.
    Every row builder stores its result as it is, so it is a parameter of
    the development. *)
Class AttributeEncoder : Type := { AttributesToJSON : Map -> string }.

(** The key of the OpenTelemetry semantic conventions for the service name. *)
Definition ServiceNameKey : string := "service.name".

(** The fields of [Config] that the renderers read. *)
Record Config : Type := mkConfig {
  Database : string;
  TracesTableName : string;
  LogsTableName : string
}.

(** The method [Config.clusterString], which yields the optional cluster
    clause, is not among the sources; it is a parameter. *)
Class ConfigClauses : Type := { clusterString : Config -> string }.

(** The fixed constant that [GetServiceName] falls back to. *)
Class ServiceNameFallback : Type := { unknownServiceName : string }.

(** Modelled from the spec: the service name resolver [GetServiceName],
    which is not among the sources.  It looks the well-known key up in the
    resource attributes and returns the value's text, or a fixed fallback
    constant when the key is absent. *)
Definition GetServiceName {fallback : ServiceNameFallback} (resAttr : Map) : string :=
  match Map_Get resAttr ServiceNameKey with
  | Some v => Value_AsString v
  | None => unknownServiceName
  end.

(** Modelled from the spec: the numeric coercion [getValue], which is not
    among the sources.  It reads the field named by the declared value type
    and always yields a double; for an unset value type it yields zero. *)
Definition getValue (intValue : Z) (floatValue : float64) (dataType : ValueType) : float64 :=
  match dataType with
  | ValueTypeDouble => floatValue
  | ValueTypeInt => F64ofInt intValue
  | ValueTypeEmpty => float64_zero
  end.

Section Helpers.

Context {encoder : AttributeEncoder}.

(** Modelled from the spec: the exemplar flattener [convertExemplars], which
    is not among the sources.  It yields five index-aligned arrays, in input
    order, empty for no exemplar.  The results are returned in the order in
    which every call site names them: attributes, times, values, trace ids,
    span ids. *)
Definition convertExemplars (exemplars : list Exemplar)
  : list SqlVal * list SqlVal * list SqlVal * list SqlVal * list SqlVal :=
  fold_left
    (fun '(attrs, times, values, traceIDs, spanIDs) exemplar =>
       (attrs ++ [VString (AttributesToJSON (ex_FilteredAttributes exemplar))],
        times ++ [VTime (AsTime (ex_Timestamp exemplar))],
        values ++ [VFloat64 (getValue (ex_IntValue exemplar) (ex_DoubleValue exemplar)
                                      (ex_ValueType exemplar))],
        traceIDs ++ [VString (TraceIDToHexOrEmptyString (ex_TraceID exemplar))],
        spanIDs ++ [VString (SpanIDToHexOrEmptyString (ex_SpanID exemplar))]))
    exemplars ([], [], [], [], []).

(** Modelled from the spec: [convertValueAtQuantile], which is not among the
    sources: two parallel arrays of equal length. *)
Definition convertValueAtQuantile (vs : list ValueAtQuantile) : list SqlVal * list SqlVal :=
  fold_left
    (fun '(quantiles, values) v =>
       (quantiles ++ [VFloat64 (vq_Quantile v)], values ++ [VFloat64 (vq_Value v)]))
    vs ([], []).

(** [convertEvents] of exporter_traces.go. *)
Definition convertEvents (events : list SpanEvent) : list Time * list string * list string :=
  fold_left
    (fun '(times, names, attrs) event =>
       (times ++ [AsTime (event_Timestamp event)],
        names ++ [event_Name event],
        attrs ++ [AttributesToJSON (event_Attributes event)]))
    events ([], [], []).

(** [convertLinks] of exporter_traces.go. *)
Definition convertLinks (links : list SpanLink)
  : list string * list string * list string * list string :=
  fold_left
    (fun '(traceIDs, spanIDs, states, attrs) link =>
       (traceIDs ++ [TraceIDToHexOrEmptyString (link_TraceID link)],
        spanIDs ++ [SpanIDToHexOrEmptyString (link_SpanID link)],
        states ++ [link_TraceState link],
        attrs ++ [AttributesToJSON (link_Attributes link)]))
    links ([], [], [], []).

End Helpers.

(** Modelled from the spec: [convertSliceToArraySet], which is not among the
    sources: the slice as an array argument, element by element. *)
Definition convertSliceToArraySet {A : Type} (wrap : A -> SqlVal) (slice : list A) : list SqlVal :=
  map wrap slice.

(** ** The store behind [database/sql]

    Every call that reaches the driver is recorded with its outcome.  The
    driver decides the outcome of a call from the calls made so far.  Rows
    executed in a transaction are pending until it commits; a transaction
    is done once [Commit] or [Rollback] was called on it. *)

Definition Row : Type := (string * list SqlVal)%type.

Inductive dbOp : Type :=
| OpBegin
| OpPrepare (query : string)
| OpExec (query : string) (args : list SqlVal)
| OpStmtClose (query : string)
| OpCommit
| OpRollback.

Definition event : Type := (dbOp * option error)%type.

Record DB : Type := mkDB {
  driver : list event -> dbOp -> option error;
  committed : list Row;
  txRows : list Row;
  txDone : bool;
  oplog : list event
}.

Definition call (op : dbOp) (db : DB) : option error * DB :=
  let r := driver db (oplog db) op in
  (r, mkDB (driver db) (committed db) (txRows db) (txDone db) (oplog db ++ [(op, r)])).

Definition set_tx (rows : list Row) (done : bool) (db : DB) : DB :=
  mkDB (driver db) (committed db) rows done (oplog db).

Definition set_committed (rows : list Row) (db : DB) : DB :=
  mkDB (driver db) rows (txRows db) (txDone db) (oplog db).

(** [db.Begin]: a fresh transaction. *)
Definition Begin (db : DB) : option error * DB :=
  match call OpBegin db with
  | (Some err, db1) => (Some err, db1)
  | (None, db1) => (None, set_tx [] false db1)
  end.

(** [tx.PrepareContext]: the statement is identified by its query text. *)
Definition PrepareContext (query : string) (db : DB) : option error * DB :=
  call (OpPrepare query) db.

(** [statement.ExecContext]: on success the row is pending. *)
Definition ExecContext (query : string) (args : list SqlVal) (db : DB) : option error * DB :=
  match call (OpExec query args) db with
  | (Some err, db1) => (Some err, db1)
  | (None, db1) => (None, set_tx (txRows db1 ++ [(query, args)]) (txDone db1) db1)
  end.

(** [statement.Close], whose error the callers drop. *)
Definition StmtClose (query : string) (db : DB) : DB :=
  snd (call (OpStmtClose query) db).

(** [tx.Commit]: the pending rows become visible when the driver succeeds;
    the transaction is done either way. *)
Definition Commit (db : DB) : option error * DB :=
  if txDone db then (Some ErrTxDone, db)
  else
    match call OpCommit db with
    | (Some err, db1) => (Some err, set_tx [] true db1)
    | (None, db1) => (None, set_tx [] true (set_committed (committed db1 ++ txRows db1) db1))
    end.

(** [tx.Rollback]: the pending rows are dropped; on a transaction that is
    done it fails without reaching the driver. *)
Definition Rollback (db : DB) : option error * DB :=
  if txDone db then (Some ErrTxDone, db)
  else
    let (r, db1) := call OpRollback db in
    (r, set_tx [] true db1).

(** [doWithTx]: the deferred [tx.Rollback] runs on every exit after a
    successful [Begin]. *)
Definition doWithTx (fn : DB -> option error * DB) (db : DB) : option error * DB :=
  match Begin db with
  | (Some err, db1) => (Some (Errorf "db.Begin: " err), db1)
  | (None, db1) =>
      let (r, db2) :=
        match fn db1 with
        | (Some err, db2) => (Some err, db2)
        | (None, db2) => Commit db2
        end in
      (r, snd (Rollback db2))
  end.

(** A [for ... range] loop whose body may return an error from the
    enclosing function. *)
Fixpoint forRange {A : Type} (body : A -> DB -> option error * DB) (l : list A) (db : DB)
  : option error * DB :=
  match l with
  | [] => (None, db)
  | x :: r =>
      match body x db with
      | (Some err, db1) => (Some err, db1)
      | (None, db1) => forRange body r db1
      end
  end.

(** The statement of a row, executed; a failure is wrapped as the loops of
    all seven insert routines do. *)
Definition execRow (statement : string) (args : list SqlVal) (db : DB) : option error * DB :=
  match ExecContext statement args db with
  | (Some err, db1) => (Some (Errorf "ExecContext:" err), db1)
  | (None, db1) => (None, db1)
  end.

(** ** Metric accumulators (internal package)

    The five model structs ([sumModel], [gaugeModel], [histogramModel],
    [expHistogramModel], [summaryModel]) have the same fields and differ in
    the type of the metric they hold, here the field [payload]; likewise the
    five accumulator structs hold their slice of models, here [models], the
    rendered insert statement and the number of data points added.  [count]
    is a Go [int]; it counts data points held in memory and is not wrapped. *)

Record MetricsMetaData : Type := mkMetricsMetaData {
  ResAttr : Map;
  ResURL : string;
  ScopeURL : string;
  ScopeInstr : InstrumentationScope
}.

Record model (P : Type) : Type := mkModel {
  metricName : string;
  metricDescription : string;
  metricUnit : string;
  metadata : MetricsMetaData;
  payload : P
}.

Arguments mkModel {P}.
Arguments metricName {P}.
Arguments metricDescription {P}.
Arguments metricUnit {P}.
Arguments metadata {P}.
Arguments payload {P}.

Record metrics (P : Type) : Type := mkMetrics {
  models : list (model P);
  insertSQL : string;
  count : Z
}.

Arguments mkMetrics {P}.
Arguments models {P}.
Arguments insertSQL {P}.
Arguments count {P}.

Definition sumModel : Type := model Sum.
Definition gaugeModel : Type := model Gauge.
Definition histogramModel : Type := model Histogram.
Definition expHistogramModel : Type := model ExponentialHistogram.
Definition summaryModel : Type := model Summary.

Definition sumMetrics : Type := metrics Sum.
Definition gaugeMetrics : Type := metrics Gauge.
Definition histogramMetrics : Type := metrics Histogram.
Definition expHistogramMetrics : Type := metrics ExponentialHistogram.
Definition summaryMetrics : Type := metrics Summary.

(** What every [Add] does once the type assertion succeeded. *)
Definition appendModel {P : Type} (s : metrics P) (points : nat) (m : model P) : metrics P :=
  mkMetrics (models s ++ [m]) (insertSQL s) (count s + Z.of_nat points).

Definition newModel {P : Type} (resAttr : Map) (resURL : string)
  (scopeInstr : InstrumentationScope) (scopeURL : string) (p : P)
  (name description unit : string) : model P :=
  mkModel name description unit (mkMetricsMetaData resAttr resURL scopeURL scopeInstr) p.

Definition sumMetrics_Add (s : sumMetrics) (resAttr : Map) (resURL : string)
  (scopeInstr : InstrumentationScope) (scopeURL : string) (metrics : any)
  (name description unit : string) : option error * sumMetrics :=
  match metrics with
  | AnySum sum =>
      (None, appendModel s (List.length (sum_DataPoints sum))
               (newModel resAttr resURL scopeInstr scopeURL sum name description unit))
  | _ => (Some (ErrorsNew "metrics param is not type of Sum"), s)
  end.

Definition gaugeMetrics_Add (g : gaugeMetrics) (resAttr : Map) (resURL : string)
  (scopeInstr : InstrumentationScope) (scopeURL : string) (metrics : any)
  (name description unit : string) : option error * gaugeMetrics :=
  match metrics with
  | AnyGauge gauge =>
      (None, appendModel g (List.length (gauge_DataPoints gauge))
               (newModel resAttr resURL scopeInstr scopeURL gauge name description unit))
  | _ => (Some (ErrorsNew "metrics param is not type of Gauge"), g)
  end.

Definition histogramMetrics_Add (h : histogramMetrics) (resAttr : Map) (resURL : string)
  (scopeInstr : InstrumentationScope) (scopeURL : string) (metrics : any)
  (name description unit : string) : option error * histogramMetrics :=
  match metrics with
  | AnyHistogram histogram =>
      (None, appendModel h (List.length (histogram_DataPoints histogram))
               (newModel resAttr resURL scopeInstr scopeURL histogram name description unit))
  | _ => (Some (ErrorsNew "metrics param is not type of Histogram"), h)
  end.

Definition expHistogramMetrics_Add (e : expHistogramMetrics) (resAttr : Map) (resURL : string)
  (scopeInstr : InstrumentationScope) (scopeURL : string) (metrics : any)
  (name description unit : string) : option error * expHistogramMetrics :=
  match metrics with
  | AnyExponentialHistogram expHistogram =>
      (None, appendModel e (List.length (exphistogram_DataPoints expHistogram))
               (newModel resAttr resURL scopeInstr scopeURL expHistogram name description unit))
  | _ => (Some (ErrorsNew "metrics param is not type of ExponentialHistogram"), e)
  end.

Definition summaryMetrics_Add (s : summaryMetrics) (resAttr : Map) (resURL : string)
  (scopeInstr : InstrumentationScope) (scopeURL : string) (metrics : any)
  (name description unit : string) : option error * summaryMetrics :=
  match metrics with
  | AnySummary summary =>
      (None, appendModel s (List.length (summary_DataPoints summary))
               (newModel resAttr resURL scopeInstr scopeURL summary name description unit))
  | _ => (Some (ErrorsNew "metrics param is not type of Summary"), s)
  end.

(** ** Row builders and insert routines *)

Section Inserts.

Context {encoder : AttributeEncoder} {fallback : ServiceNameFallback}.

(** The columns every metric row starts with: the first eleven arguments
    of each [ExecContext] call of the metric insert routines. *)
Definition metricPrefix {P : Type} (resAttr scopeAttr serviceName : string) (model : model P)
  : list SqlVal :=
  [ VString resAttr;
    VString (ResURL (metadata model));
    VString (scope_Name (ScopeInstr (metadata model)));
    VString (scope_Version (ScopeInstr (metadata model)));
    VString scopeAttr;
    VUint32 (scope_DroppedAttributesCount (ScopeInstr (metadata model)));
    VString (ScopeURL (metadata model));
    VString serviceName;
    VString (metricName model);
    VString (metricDescription model);
    VString (metricUnit model) ].

(** The arguments of the [ExecContext] call of [sumMetrics.insert]. *)
Definition sumArgs (resAttr scopeAttr serviceName : string) (model : sumModel)
  (dp : NumberDataPoint) : list SqlVal :=
  let '(attrs, times, values, traceIDs, spanIDs) := convertExemplars (ndp_Exemplars dp) in
  metricPrefix resAttr scopeAttr serviceName model ++
  [ VString (AttributesToJSON (ndp_Attributes dp));
    VTime (AsTime (ndp_StartTimestamp dp));
    VTime (AsTime (ndp_Timestamp dp));
    VFloat64 (getValue (ndp_IntValue dp) (ndp_DoubleValue dp) (ndp_ValueType dp));
    VUint32 (ndp_Flags dp);
    VArray attrs;
    VArray times;
    VArray values;
    VArray spanIDs;
    VArray traceIDs;
    VInt32 (sum_AggregationTemporality (payload model));
    VBool (sum_IsMonotonic (payload model)) ].

(** The arguments of the [ExecContext] call of [gaugeMetrics.insert]. *)
Definition gaugeArgs (resAttr scopeAttr serviceName : string) (model : gaugeModel)
  (dp : NumberDataPoint) : list SqlVal :=
  let '(attrs, times, values, traceIDs, spanIDs) := convertExemplars (ndp_Exemplars dp) in
  metricPrefix resAttr scopeAttr serviceName model ++
  [ VString (AttributesToJSON (ndp_Attributes dp));
    VTime (AsTime (ndp_StartTimestamp dp));
    VTime (AsTime (ndp_Timestamp dp));
    VFloat64 (getValue (ndp_IntValue dp) (ndp_DoubleValue dp) (ndp_ValueType dp));
    VUint32 (ndp_Flags dp);
    VArray attrs;
    VArray times;
    VArray values;
    VArray spanIDs;
    VArray traceIDs ].

(** The arguments of the [ExecContext] call of [histogramMetrics.insert]. *)
Definition histogramArgs (resAttr scopeAttr serviceName : string) (model : histogramModel)
  (dp : HistogramDataPoint) : list SqlVal :=
  let '(attrs, times, values, traceIDs, spanIDs) := convertExemplars (hdp_Exemplars dp) in
  metricPrefix resAttr scopeAttr serviceName model ++
  [ VString (AttributesToJSON (hdp_Attributes dp));
    VTime (AsTime (hdp_StartTimestamp dp));
    VTime (AsTime (hdp_Timestamp dp));
    VUint64 (hdp_Count dp);
    VFloat64 (hdp_Sum dp);
    VArray (convertSliceToArraySet VUint64 (hdp_BucketCounts dp));
    VArray (convertSliceToArraySet VFloat64 (hdp_ExplicitBounds dp));
    VArray attrs;
    VArray times;
    VArray values;
    VArray spanIDs;
    VArray traceIDs;
    VUint32 (hdp_Flags dp);
    VFloat64 (hdp_Min dp);
    VFloat64 (hdp_Max dp);
    VInt32 (histogram_AggregationTemporality (payload model)) ].

(** The arguments of the [ExecContext] call of [expHistogramMetrics.insert]. *)
Definition expHistogramArgs (resAttr scopeAttr serviceName : string)
  (model : expHistogramModel) (dp : ExponentialHistogramDataPoint) : list SqlVal :=
  let '(attrs, times, values, traceIDs, spanIDs) := convertExemplars (ehdp_Exemplars dp) in
  metricPrefix resAttr scopeAttr serviceName model ++
  [ VString (AttributesToJSON (ehdp_Attributes dp));
    VTime (AsTime (ehdp_StartTimestamp dp));
    VTime (AsTime (ehdp_Timestamp dp));
    VUint64 (ehdp_Count dp);
    VFloat64 (ehdp_Sum dp);
    VInt32 (ehdp_Scale dp);
    VUint64 (ehdp_ZeroCount dp);
    VInt32 (buckets_Offset (ehdp_Positive dp));
    VArray (convertSliceToArraySet VUint64 (buckets_BucketCounts (ehdp_Positive dp)));
    VInt32 (buckets_Offset (ehdp_Negative dp));
    VArray (convertSliceToArraySet VUint64 (buckets_BucketCounts (ehdp_Negative dp)));
    VArray attrs;
    VArray times;
    VArray values;
    VArray spanIDs;
    VArray traceIDs;
    VUint32 (ehdp_Flags dp);
    VFloat64 (ehdp_Min dp);
    VFloat64 (ehdp_Max dp);
    VInt32 (exphistogram_AggregationTemporality (payload model)) ].

(** The arguments of the [ExecContext] call of [summaryMetrics.insert]. *)
Definition summaryArgs (resAttr scopeAttr serviceName : string) (model : summaryModel)
  (dp : SummaryDataPoint) : list SqlVal :=
  let '(quantiles, values) := convertValueAtQuantile (sdp_QuantileValues dp) in
  metricPrefix resAttr scopeAttr serviceName model ++
  [ VString (AttributesToJSON (sdp_Attributes dp));
    VTime (AsTime (sdp_StartTimestamp dp));
    VTime (AsTime (sdp_Timestamp dp));
    VUint64 (sdp_Count dp);
    VFloat64 (sdp_Sum dp);
    VArray quantiles;
    VArray values;
    VUint32 (sdp_Flags dp) ].

(** The transaction body shared by the five metric insert routines:
    prepare, run the model loop, close the statement on the way out. *)
Definition metricTxBody {P D : Type} (statement : string) (s : metrics P)
  (points : P -> list D) (args : string -> string -> string -> model P -> D -> list SqlVal)
  (tx : DB) : option error * DB :=
  match PrepareContext statement tx with
  | (Some err, tx1) => (Some err, tx1)
  | (None, tx1) =>
      let (err, tx2) :=
        forRange
          (fun model =>
             let resAttr := AttributesToJSON (ResAttr (metadata model)) in
             let scopeAttr := AttributesToJSON (scope_Attributes (ScopeInstr (metadata model))) in
             let serviceName := GetServiceName (ResAttr (metadata model)) in
             forRange
               (fun dp => execRow statement (args resAttr scopeAttr serviceName model dp))
               (points (payload model)))
          (models s) tx1 in
      (err, StmtClose statement tx2)
  end.

(** The tail of the metric insert routines: a failure is wrapped with the
    kind's message. *)
Definition wrapFail (message : string) (r : option error * DB) : option error * DB :=
  match r with
  | (Some err, db) => (Some (Errorf message err), db)
  | (None, db) => (None, db)
  end.

Definition sumMetrics_insert (s : sumMetrics) (db : DB) : option error * DB :=
  if count s =? 0 then (None, db)
  else wrapFail "insert sum metrics fail:"
         (doWithTx (metricTxBody (insertSQL s) s sum_DataPoints sumArgs) db).

Definition gaugeMetrics_insert (g : gaugeMetrics) (db : DB) : option error * DB :=
  if count g =? 0 then (None, db)
  else wrapFail "insert gauge metrics fail:"
         (doWithTx (metricTxBody (insertSQL g) g gauge_DataPoints gaugeArgs) db).

Definition histogramMetrics_insert (h : histogramMetrics) (db : DB) : option error * DB :=
  if count h =? 0 then (None, db)
  else wrapFail "insert histogram metrics fail:"
         (doWithTx (metricTxBody (insertSQL h) h histogram_DataPoints histogramArgs) db).

Definition expHistogramMetrics_insert (e : expHistogramMetrics) (db : DB) : option error * DB :=
  if count e =? 0 then (None, db)
  else wrapFail "insert exponential histogram metrics fail:"
         (doWithTx (metricTxBody (insertSQL e) e exphistogram_DataPoints expHistogramArgs) db).

Definition summaryMetrics_insert (s : summaryMetrics) (db : DB) : option error * DB :=
  if count s =? 0 then (None, db)
  else wrapFail "insert summary metrics fail:"
         (doWithTx (metricTxBody (insertSQL s) s summary_DataPoints summaryArgs) db).

End Inserts.

(** ** Traces and logs exporters (package clickhouseexporter) *)

Definition backquote : ascii := ascii_of_nat 96.

Definition renderInsertTracesSQL (cfg : Config) : string :=
  Sprintf (ReplaceAll insertTracesSQLTemplate "'" backquote) [TracesTableName cfg].

Definition renderInsertLogsSQL (cfg : Config) : string :=
  Sprintf insertLogsSQLTemplate [LogsTableName cfg].

Definition renderTraceIDTsMaterializedViewSQL {clauses : ConfigClauses} (cfg : Config) : string :=
  Sprintf createTraceIDTsMaterializedViewSQL
    [TracesTableName cfg; clusterString cfg; Database cfg; TracesTableName cfg;
     Database cfg; TracesTableName cfg].

Record tracesExporter : Type := mkTracesExporter {
  traces_insertSQL : string;
  traces_cfg : Config
}.

Record logsExporter : Type := mkLogsExporter {
  logs_insertSQL : string;
  logs_cfg : Config
}.

(** [newTracesExporter] and [newLogsExporter], without the client, which is
    the store the push routines are run on. *)
Definition newTracesExporter (cfg : Config) : tracesExporter :=
  mkTracesExporter (renderInsertTracesSQL cfg) cfg.

Definition newLogsExporter (cfg : Config) : logsExporter :=
  mkLogsExporter (renderInsertLogsSQL cfg) cfg.

Section Exporters.

Context {encoder : AttributeEncoder} {fallback : ServiceNameFallback}.

(** The arguments of the [ExecContext] call of [pushTraceData]. *)
Definition spanArgs (serviceName resAttr scopeName scopeVersion : string) (r : Span)
  : list SqlVal :=
  let spanAttr := AttributesToJSON (span_Attributes r) in
  let status := span_Status r in
  let '(eventTimes, eventNames, eventAttrs) := convertEvents (span_Events r) in
  let '(linksTraceIDs, linksSpanIDs, linksTraceStates, linksAttrs) :=
    convertLinks (span_Links r) in
  [ VTime (AsTime (span_StartTimestamp r));
    VString (TraceIDToHexOrEmptyString (span_TraceID r));
    VString (SpanIDToHexOrEmptyString (span_SpanID r));
    VString (SpanIDToHexOrEmptyString (span_ParentSpanID r));
    VString (span_TraceState r);
    VString (span_Name r);
    VString (SpanKind_String (span_Kind r));
    VString serviceName;
    VString resAttr;
    VString scopeName;
    VString scopeVersion;
    VString spanAttr;
    VInt64 (Nanoseconds (Time_Sub (AsTime (span_EndTimestamp r))
                                  (AsTime (span_StartTimestamp r))));
    VString (StatusCode_String (status_Code status));
    VString (status_Message status);
    VArray (map VTime eventTimes);
    VArray (map VString eventNames);
    VArray (map VString eventAttrs);
    VArray (map VString linksTraceIDs);
    VArray (map VString linksSpanIDs);
    VArray (map VString linksTraceStates);
    VArray (map VString linksAttrs) ].

Definition pushTraceData (e : tracesExporter) (td : Traces) (db : DB) : option error * DB :=
  doWithTx
    (fun tx =>
       match PrepareContext (traces_insertSQL e) tx with
       | (Some err, tx1) => (Some (Errorf "PrepareContext:" err), tx1)
       | (None, tx1) =>
           let statement := traces_insertSQL e in
           let (err, tx2) :=
             forRange
               (fun spans =>
                  let resAttr := AttributesToJSON (rs_ResourceAttributes spans) in
                  let serviceName := GetServiceName (rs_ResourceAttributes spans) in
                  forRange
                    (fun scopeSpans =>
                       let rs := ss_Spans scopeSpans in
                       let scopeName := scope_Name (ss_Scope scopeSpans) in
                       let scopeVersion := scope_Version (ss_Scope scopeSpans) in
                       forRange
                         (fun r =>
                            execRow statement
                              (spanArgs serviceName resAttr scopeName scopeVersion r))
                         rs)
                    (rs_ScopeSpans spans))
               td tx1 in
           (err, StmtClose statement tx2)
       end)
    db.

(** The timestamp of a log row. *)
Definition logTimestamp (r : LogRecord) : Timestamp :=
  let timestamp := log_Timestamp r in
  if timestamp =? 0 then log_ObservedTimestamp r else timestamp.

(** The arguments of the [ExecContext] call of [pushLogsData]. *)
Definition logArgs (serviceName resURL resAttr scopeURL scopeName scopeVersion scopeAttr : string)
  (r : LogRecord) : list SqlVal :=
  let timestamp := logTimestamp r in
  let logAttr := AttributesToJSON (log_Attributes r) in
  [ VTime (AsTime timestamp);
    VString (TraceIDToHexOrEmptyString (log_TraceID r));
    VString (SpanIDToHexOrEmptyString (log_SpanID r));
    VUint32 (log_Flags r);
    VString (log_SeverityText r);
    VInt32 (log_SeverityNumber r);
    VString serviceName;
    VString (Value_AsString (log_Body r));
    VString resURL;
    VString resAttr;
    VString scopeURL;
    VString scopeName;
    VString scopeVersion;
    VString scopeAttr;
    VString logAttr ].

Definition pushLogsData (e : logsExporter) (ld : Logs) (db : DB) : option error * DB :=
  doWithTx
    (fun tx =>
       match PrepareContext (logs_insertSQL e) tx with
       | (Some err, tx1) => (Some (Errorf "PrepareContext:" err), tx1)
       | (None, tx1) =>
           let statement := logs_insertSQL e in
           let (err, tx2) :=
             forRange
               (fun logs =>
                  let resURL := rl_SchemaUrl logs in
                  let resAttr := AttributesToJSON (rl_ResourceAttributes logs) in
                  let serviceName := GetServiceName (rl_ResourceAttributes logs) in
                  forRange
                    (fun scopeLogs =>
                       let rs := sl_LogRecords scopeLogs in
                       let scopeURL := sl_SchemaUrl scopeLogs in
                       let scopeName := scope_Name (sl_Scope scopeLogs) in
                       let scopeVersion := scope_Version (sl_Scope scopeLogs) in
                       let scopeAttr := AttributesToJSON (scope_Attributes (sl_Scope scopeLogs)) in
                       forRange
                         (fun r =>
                            execRow statement
                              (logArgs serviceName resURL resAttr scopeURL scopeName
                                 scopeVersion scopeAttr r))
                         rs)
                    (rl_ScopeLogs logs))
               ld tx1 in
           (err, StmtClose statement tx2)
       end)
    db.

End Exporters.

(** ** Signal kinds, their templates and their pushes *)

Inductive signal : Type :=
| SpansSignal
| LogsSignal
| SumSignal
| GaugeSignal
| HistogramSignal
| ExpHistogramSignal
| SummarySignal.

Definition createTemplate (k : signal) : string :=
  match k with
  | SpansSignal => createTracesTableSQL
  | LogsSignal => createLogsTableSQL
  | SumSignal => createSumTableSQL
  | GaugeSignal => createGaugeTableSQL
  | HistogramSignal => createHistogramTableSQL
  | ExpHistogramSignal => createExpHistogramTableSQL
  | SummarySignal => createSummaryTableSQL
  end.

Definition insertTemplate (k : signal) : string :=
  match k with
  | SpansSignal => insertTracesSQLTemplate
  | LogsSignal => insertLogsSQLTemplate
  | SumSignal => insertSumTableSQL
  | GaugeSignal => insertGaugeTableSQL
  | HistogramSignal => insertHistogramTableSQL
  | ExpHistogramSignal => insertExpHistogramTableSQL
  | SummarySignal => insertSummaryTableSQL
  end.

(** What an [INSERT] with the column list of [template] stores for the
    arguments [args]: the i-th argument in the i-th listed column. *)
Definition named (template : string) (args : list SqlVal) : list (string * SqlVal) :=
  combine (Sql.insert_columns template) args.

Fixpoint column (name : string) (row : list (string * SqlVal)) : option SqlVal :=
  match row with
  | [] => None
  | (c, v) :: r => if String.eqb c name then Some v else column name r
  end.

(** The calls a run added to the log, read back. *)
Definition execArgs (log : list event) : list (list SqlVal) :=
  flat_map (fun ev => match fst ev with OpExec _ args => [args] | _ => [] end) log.

Definition isBegin (ev : event) : bool :=
  match fst ev with OpBegin => true | _ => false end.

Definition isCommit (ev : event) : bool :=
  match fst ev with OpCommit => true | _ => false end.

Definition isRollback (ev : event) : bool :=
  match fst ev with OpRollback => true | _ => false end.

Definition isExecOrPrepare (op : dbOp) : bool :=
  match op with OpExec _ _ | OpPrepare _ => true | _ => false end.

Section Pushes.

Context {encoder : AttributeEncoder} {fallback : ServiceNameFallback}.

(** The rows of a metric accumulator in accumulation order: models in the
    order added, data points in the order held. *)
Definition metricRows {P D : Type} (points : P -> list D)
  (args : string -> string -> string -> model P -> D -> list SqlVal) (s : metrics P)
  : list (list SqlVal) :=
  flat_map
    (fun m =>
       map (args (AttributesToJSON (ResAttr (metadata m)))
                 (AttributesToJSON (scope_Attributes (ScopeInstr (metadata m))))
                 (GetServiceName (ResAttr (metadata m))) m)
           (points (payload m)))
    (models s).

(** The rows of a traces push in tree-walk order. *)
Definition traceRows (td : Traces) : list (list SqlVal) :=
  flat_map
    (fun spans =>
       flat_map
         (fun scopeSpans =>
            map (spanArgs (GetServiceName (rs_ResourceAttributes spans))
                          (AttributesToJSON (rs_ResourceAttributes spans))
                          (scope_Name (ss_Scope scopeSpans))
                          (scope_Version (ss_Scope scopeSpans)))
                (ss_Spans scopeSpans))
         (rs_ScopeSpans spans))
    td.

(** The rows of a logs push in tree-walk order. *)
Definition logRows (ld : Logs) : list (list SqlVal) :=
  flat_map
    (fun logs =>
       flat_map
         (fun scopeLogs =>
            map (logArgs (GetServiceName (rl_ResourceAttributes logs))
                         (rl_SchemaUrl logs)
                         (AttributesToJSON (rl_ResourceAttributes logs))
                         (sl_SchemaUrl scopeLogs)
                         (scope_Name (sl_Scope scopeLogs))
                         (scope_Version (sl_Scope scopeLogs))
                         (AttributesToJSON (scope_Attributes (sl_Scope scopeLogs))))
                (sl_LogRecords scopeLogs))
         (rl_ScopeLogs logs))
    ld.

(** One push of one signal kind. *)
Inductive push : Type :=
| PushTraces (e : tracesExporter) (td : Traces)
| PushLogs (e : logsExporter) (ld : Logs)
| PushSum (s : sumMetrics)
| PushGauge (g : gaugeMetrics)
| PushHistogram (h : histogramMetrics)
| PushExpHistogram (e : expHistogramMetrics)
| PushSummary (s : summaryMetrics).

Definition runPush (p : push) (db : DB) : option error * DB :=
  match p with
  | PushTraces e td => pushTraceData e td db
  | PushLogs e ld => pushLogsData e ld db
  | PushSum s => sumMetrics_insert s db
  | PushGauge g => gaugeMetrics_insert g db
  | PushHistogram h => histogramMetrics_insert h db
  | PushExpHistogram e => expHistogramMetrics_insert e db
  | PushSummary s => summaryMetrics_insert s db
  end.

Definition pushStatement (p : push) : string :=
  match p with
  | PushTraces e _ => traces_insertSQL e
  | PushLogs e _ => logs_insertSQL e
  | PushSum s => insertSQL s
  | PushGauge g => insertSQL g
  | PushHistogram h => insertSQL h
  | PushExpHistogram e => insertSQL e
  | PushSummary s => insertSQL s
  end.

Definition pushRows (p : push) : list (list SqlVal) :=
  match p with
  | PushTraces _ td => traceRows td
  | PushLogs _ ld => logRows ld
  | PushSum s => metricRows sum_DataPoints sumArgs s
  | PushGauge g => metricRows gauge_DataPoints gaugeArgs g
  | PushHistogram h => metricRows histogram_DataPoints histogramArgs h
  | PushExpHistogram e => metricRows exphistogram_DataPoints expHistogramArgs e
  | PushSummary s => metricRows summary_DataPoints summaryArgs s
  end.

End Pushes.

(** The row count of an accumulator agrees with the data points it holds:
    true of the empty accumulator and kept by every [Add]. *)
Definition counted {P D : Type} (points : P -> list D) (s : metrics P) : Prop :=
  count s = Z.of_nat (List.length (flat_map (fun m => points (payload m)) (models s))).

Definition pushCounted (p : push) : Prop :=
  match p with
  | PushTraces _ _ | PushLogs _ _ => True
  | PushSum s => counted sum_DataPoints s
  | PushGauge g => counted gauge_DataPoints g
  | PushHistogram h => counted histogram_DataPoints h
  | PushExpHistogram e => counted exphistogram_DataPoints e
  | PushSummary s => counted summary_DataPoints s
  end.

(** The expected variant of each [Add]: the payload its type assertion
    accepts. *)
Definition asSum (m : any) : option Sum :=
  match m with AnySum x => Some x | _ => None end.
Definition asGauge (m : any) : option Gauge :=
  match m with AnyGauge x => Some x | _ => None end.
Definition asHistogram (m : any) : option Histogram :=
  match m with AnyHistogram x => Some x | _ => None end.
Definition asExponentialHistogram (m : any) : option ExponentialHistogram :=
  match m with AnyExponentialHistogram x => Some x | _ => None end.
Definition asSummary (m : any) : option Summary :=
  match m with AnySummary x => Some x | _ => None end.

(** ** The trace-id time-range view

    The [SELECT] of [createTraceIDTsMaterializedViewSQL], evaluated over a
    block of rows of the spans table: rows with an empty [TraceId] are
    filtered out, the others are grouped by [TraceId] with the least and the
    greatest [Timestamp] of the group.  Groups are listed in the order of
    their first row. *)

Record SpanRow : Type := mkSpanRow { row_TraceId : string; row_Timestamp : Time }.

Record TraceIDTs : Type := mkTraceIDTs { ts_TraceId : string; ts_Start : Time; ts_End : Time }.

Fixpoint groupInsert (t : string) (ts : Time) (groups : list TraceIDTs) : list TraceIDTs :=
  match groups with
  | [] => [mkTraceIDTs t ts ts]
  | g :: r =>
      if String.eqb (ts_TraceId g) t
      then mkTraceIDTs t (Z.min (ts_Start g) ts) (Z.max (ts_End g) ts) :: r
      else g :: groupInsert t ts r
  end.

Definition traceIDTsView (block : list SpanRow) : list TraceIDTs :=
  fold_left
    (fun groups row => groupInsert (row_TraceId row) (row_Timestamp row) groups)
    (filter (fun row => negb (String.eqb (row_TraceId row) "")) block)
    [].

(** The row of the spans table that the arguments of one [ExecContext] call
    of [pushTraceData] store, as the view reads it. *)
Definition spanRowOf (args : list SqlVal) : SpanRow :=
  let stored := named insertTracesSQLTemplate args in
  mkSpanRow
    (match column "TraceId" stored with Some (VString s) => s | _ => "" end)
    (match column "Timestamp" stored with Some (VTime t) => t | _ => 0 end).

(** ** Vocabulary of the statements *)

(** A row executed with success, as the log records it. *)
Definition okExec (statement : string) (args : list SqlVal) : event :=
  (OpExec statement args, None).

(** All seven push routines are this one: a transaction around one
    prepared statement executed once per row. *)
Definition txInsert (wrapPrepare : error -> error) (statement : string)
  (rows : list (list SqlVal)) (db : DB) : option error * DB :=
  doWithTx
    (fun tx =>
       match PrepareContext statement tx with
       | (Some err, tx1) => (Some (wrapPrepare err), tx1)
       | (None, tx1) =>
           let (err, tx2) := forRange (execRow statement) rows tx1 in
           (err, StmtClose statement tx2)
       end)
    db.

(** The five ways a push can go, with the store it leaves. *)
Inductive pushOutcome (wrapPrepare : error -> error) (statement : string)
  (rows : list (list SqlVal)) (db : DB) : option error * DB -> Prop :=
| BeginFailed (e : error) :
    pushOutcome wrapPrepare statement rows db
      (Some (Errorf "db.Begin: " e),
       mkDB (driver db) (committed db) (txRows db) (txDone db)
         (oplog db ++ [(OpBegin, Some e)]))
| PrepareFailed (e : error) (o : option error) :
    pushOutcome wrapPrepare statement rows db
      (Some (wrapPrepare e),
       mkDB (driver db) (committed db) [] true
         (oplog db ++
          [(OpBegin, None); (OpPrepare statement, Some e); (OpRollback, o)]))
| ExecFailed (k : nat) (args : list SqlVal) (e : error) (o1 o2 : option error) :
    nth_error rows k = Some args ->
    pushOutcome wrapPrepare statement rows db
      (Some (Errorf "ExecContext:" e),
       mkDB (driver db) (committed db) [] true
         (oplog db ++
          [(OpBegin, None); (OpPrepare statement, None)] ++
          map (okExec statement) (firstn k rows) ++
          [(OpExec statement args, Some e); (OpStmtClose statement, o1); (OpRollback, o2)]))
| CommitFailed (e : error) (o1 : option error) :
    pushOutcome wrapPrepare statement rows db
      (Some e,
       mkDB (driver db) (committed db) [] true
         (oplog db ++
          [(OpBegin, None); (OpPrepare statement, None)] ++
          map (okExec statement) rows ++
          [(OpStmtClose statement, o1); (OpCommit, Some e)]))
| Committed (o1 : option error) :
    pushOutcome wrapPrepare statement rows db
      (None,
       mkDB (driver db) (committed db ++ map (pair statement) rows) [] true
         (oplog db ++
          [(OpBegin, None); (OpPrepare statement, None)] ++
          map (okExec statement) rows ++
          [(OpStmtClose statement, o1); (OpCommit, None)])).

(** Whether a logged call is a [PrepareContext]. *)
Definition isPrepare (ev : event) : bool :=
  match fst ev with OpPrepare _ => true | _ => false end.

(** What a run that took the store from [db] to [snd res] with result
    [fst res] must satisfy to be a single all-or-nothing transaction over
    [rows], executed in order with [statement]. *)
Definition transactional (statement : string) (rows : list (list SqlVal)) (db : DB)
  (res : option error * DB) : Prop :=
  exists new : list event,
    oplog (snd res) = oplog db ++ new /\
    (List.length (filter isBegin new) <= 1)%nat /\
    (List.length (filter isPrepare new) <= 1)%nat /\
    (exists k : nat, execArgs new = firstn k rows) /\
    (forall q a o, In (OpExec q a, o) new -> q = statement) /\
    (forall op e,
       In (op, Some e) new -> isExecOrPrepare op = true ->
       (exists err, fst res = Some err /\ wraps err e) /\
       committed (snd res) = committed db /\
       existsb isRollback new = true /\
       existsb isCommit new = false) /\
    (existsb isCommit new = true ->
       execArgs new = rows /\
       forall op e, In (op, Some e) new -> isExecOrPrepare op = false) /\
    (fst res = None ->
       committed (snd res) = committed db ++ map (pair statement) rows) /\
    (fst res <> None -> committed (snd res) = committed db).

(** A store whose driver accepts every call. *)
Definition accepting (db : DB) : Prop := forall log op, driver db log op = None.

(** The characters 0-9 and a-f. *)
Definition is_lower_hex (c : ascii) : bool :=
  let n := N_of_ascii c in
  ((48 <=? n)%N && (n <=? 57)%N) || ((97 <=? n)%N && (n <=? 102)%N).

(** The fourteen columns every metric table starts with, and the five
    columns of the nested [Exemplars]. *)
Definition metricColumns : list string :=
  [ "ResourceAttributes"; "ResourceSchemaUrl"; "ScopeName"; "ScopeVersion";
    "ScopeAttributes"; "ScopeDroppedAttrCount"; "ScopeSchemaUrl"; "ServiceName";
    "MetricName"; "MetricDescription"; "MetricUnit"; "Attributes"; "StartTimeUnix";
    "TimeUnix" ].

Definition exemplarColumns : list string :=
  [ "Exemplars.FilteredAttributes"; "Exemplars.TimeUnix"; "Exemplars.Value";
    "Exemplars.SpanId"; "Exemplars.TraceId" ].

(** The columns the scenario speaks of, for one stored row. *)
Definition scenarioRow (value : float64) (stored : list (string * SqlVal)) : Prop :=
  column "ServiceName" stored = Some (VString "api") /\
  column "MetricName" stored = Some (VString "requests_total") /\
  column "Value" stored = Some (VFloat64 value) /\
  column "IsMonotonic" stored = Some (VBool true) /\
  column "AggregationTemporality" stored = Some (VInt32 AggregationTemporalityCumulative) /\
  column "Exemplars.FilteredAttributes" stored = Some (VArray []) /\
  column "Exemplars.TimeUnix" stored = Some (VArray []) /\
  column "Exemplars.Value" stored = Some (VArray []) /\
  column "Exemplars.SpanId" stored = Some (VArray []) /\
  column "Exemplars.TraceId" stored = Some (VArray []).

Section StoredRows.

Context {encoder : AttributeEncoder} {fallback : ServiceNameFallback}.

(** What the first fourteen columns of a metric row hold. *)
Definition metricStored {P : Type} (m : model P) (attributes : Map) (start time : Timestamp)
  : list (string * SqlVal) :=
  [ ("ResourceAttributes", VString (AttributesToJSON (ResAttr (metadata m))));
    ("ResourceSchemaUrl", VString (ResURL (metadata m)));
    ("ScopeName", VString (scope_Name (ScopeInstr (metadata m))));
    ("ScopeVersion", VString (scope_Version (ScopeInstr (metadata m))));
    ("ScopeAttributes", VString (AttributesToJSON (scope_Attributes (ScopeInstr (metadata m)))));
    ("ScopeDroppedAttrCount", VUint32 (scope_DroppedAttributesCount (ScopeInstr (metadata m))));
    ("ScopeSchemaUrl", VString (ScopeURL (metadata m)));
    ("ServiceName", VString (GetServiceName (ResAttr (metadata m))));
    ("MetricName", VString (metricName m));
    ("MetricDescription", VString (metricDescription m));
    ("MetricUnit", VString (metricUnit m));
    ("Attributes", VString (AttributesToJSON attributes));
    ("StartTimeUnix", VTime (AsTime start));
    ("TimeUnix", VTime (AsTime time)) ].

(** What the five exemplar columns hold, given the results of
    [convertExemplars] under the names of its call sites. *)
Definition exemplarStored (attrs times values traceIDs spanIDs : list SqlVal)
  : list (string * SqlVal) :=
  [ ("Exemplars.FilteredAttributes", VArray attrs);
    ("Exemplars.TimeUnix", VArray times);
    ("Exemplars.Value", VArray values);
    ("Exemplars.SpanId", VArray spanIDs);
    ("Exemplars.TraceId", VArray traceIDs) ].

(** The arguments of a metric row as the accumulation loop passes them. *)
Definition rowOf {P D : Type} (args : string -> string -> string -> model P -> D -> list SqlVal)
  (m : model P) (dp : D) : list SqlVal :=
  args (AttributesToJSON (ResAttr (metadata m)))
       (AttributesToJSON (scope_Attributes (ScopeInstr (metadata m))))
       (GetServiceName (ResAttr (metadata m))) m dp.

(** For each signal kind: what the columns of the kind's [INSERT] hold
    after one row of the kind was executed, column by column. *)
Definition storedInColumnOrder (k : signal) : Prop :=
  match k with
  | SumSignal =>
      forall (m : sumModel) (dp : NumberDataPoint),
        let '(attrs, times, values, traceIDs, spanIDs) := convertExemplars (ndp_Exemplars dp) in
        named insertSumTableSQL (rowOf sumArgs m dp) =
        metricStored m (ndp_Attributes dp) (ndp_StartTimestamp dp) (ndp_Timestamp dp) ++
        [ ("Value",
           VFloat64 (getValue (ndp_IntValue dp) (ndp_DoubleValue dp) (ndp_ValueType dp)));
          ("Flags", VUint32 (ndp_Flags dp)) ] ++
        exemplarStored attrs times values traceIDs spanIDs ++
        [ ("AggregationTemporality", VInt32 (sum_AggregationTemporality (payload m)));
          ("IsMonotonic", VBool (sum_IsMonotonic (payload m))) ]
  | GaugeSignal =>
      forall (m : gaugeModel) (dp : NumberDataPoint),
        let '(attrs, times, values, traceIDs, spanIDs) := convertExemplars (ndp_Exemplars dp) in
        named insertGaugeTableSQL (rowOf gaugeArgs m dp) =
        metricStored m (ndp_Attributes dp) (ndp_StartTimestamp dp) (ndp_Timestamp dp) ++
        [ ("Value",
           VFloat64 (getValue (ndp_IntValue dp) (ndp_DoubleValue dp) (ndp_ValueType dp)));
          ("Flags", VUint32 (ndp_Flags dp)) ] ++
        exemplarStored attrs times values traceIDs spanIDs
  | HistogramSignal =>
      forall (m : histogramModel) (dp : HistogramDataPoint),
        let '(attrs, times, values, traceIDs, spanIDs) := convertExemplars (hdp_Exemplars dp) in
        named insertHistogramTableSQL (rowOf histogramArgs m dp) =
        metricStored m (hdp_Attributes dp) (hdp_StartTimestamp dp) (hdp_Timestamp dp) ++
        [ ("Count", VUint64 (hdp_Count dp));
          ("Sum", VFloat64 (hdp_Sum dp));
          ("BucketCounts", VArray (map VUint64 (hdp_BucketCounts dp)));
          ("ExplicitBounds", VArray (map VFloat64 (hdp_ExplicitBounds dp))) ] ++
        exemplarStored attrs times values traceIDs spanIDs ++
        [ ("Flags", VUint32 (hdp_Flags dp));
          ("Min", VFloat64 (hdp_Min dp));
          ("Max", VFloat64 (hdp_Max dp));
          ("AggregationTemporality", VInt32 (histogram_AggregationTemporality (payload m))) ]
  | ExpHistogramSignal =>
      forall (m : expHistogramModel) (dp : ExponentialHistogramDataPoint),
        let '(attrs, times, values, traceIDs, spanIDs) := convertExemplars (ehdp_Exemplars dp) in
        named insertExpHistogramTableSQL (rowOf expHistogramArgs m dp) =
        metricStored m (ehdp_Attributes dp) (ehdp_StartTimestamp dp) (ehdp_Timestamp dp) ++
        [ ("Count", VUint64 (ehdp_Count dp));
          ("Sum", VFloat64 (ehdp_Sum dp));
          ("Scale", VInt32 (ehdp_Scale dp));
          ("ZeroCount", VUint64 (ehdp_ZeroCount dp));
          ("PositiveOffset", VInt32 (buckets_Offset (ehdp_Positive dp)));
          ("PositiveBucketCounts",
           VArray (map VUint64 (buckets_BucketCounts (ehdp_Positive dp))));
          ("NegativeOffset", VInt32 (buckets_Offset (ehdp_Negative dp)));
          ("NegativeBucketCounts",
           VArray (map VUint64 (buckets_BucketCounts (ehdp_Negative dp)))) ] ++
        exemplarStored attrs times values traceIDs spanIDs ++
        [ ("Flags", VUint32 (ehdp_Flags dp));
          ("Min", VFloat64 (ehdp_Min dp));
          ("Max", VFloat64 (ehdp_Max dp));
          ("AggregationTemporality", VInt32 (exphistogram_AggregationTemporality (payload m))) ]
  | SummarySignal =>
      forall (m : summaryModel) (dp : SummaryDataPoint),
        let '(quantiles, values) := convertValueAtQuantile (sdp_QuantileValues dp) in
        named insertSummaryTableSQL (rowOf summaryArgs m dp) =
        metricStored m (sdp_Attributes dp) (sdp_StartTimestamp dp) (sdp_Timestamp dp) ++
        [ ("Count", VUint64 (sdp_Count dp));
          ("Sum", VFloat64 (sdp_Sum dp));
          ("ValueAtQuantiles.Quantile", VArray quantiles);
          ("ValueAtQuantiles.Value", VArray values);
          ("Flags", VUint32 (sdp_Flags dp)) ]
  | SpansSignal =>
      forall (spans : ResourceSpans) (scopeSpans : ScopeSpans) (r : Span),
        let '(eventTimes, eventNames, eventAttrs) := convertEvents (span_Events r) in
        let '(linksTraceIDs, linksSpanIDs, linksTraceStates, linksAttrs) :=
          convertLinks (span_Links r) in
        named insertTracesSQLTemplate
          (spanArgs (GetServiceName (rs_ResourceAttributes spans))
                    (AttributesToJSON (rs_ResourceAttributes spans))
                    (scope_Name (ss_Scope scopeSpans))
                    (scope_Version (ss_Scope scopeSpans)) r) =
        [ ("Timestamp", VTime (AsTime (span_StartTimestamp r)));
          ("TraceId", VString (TraceIDToHexOrEmptyString (span_TraceID r)));
          ("SpanId", VString (SpanIDToHexOrEmptyString (span_SpanID r)));
          ("ParentSpanId", VString (SpanIDToHexOrEmptyString (span_ParentSpanID r)));
          ("TraceState", VString (span_TraceState r));
          ("SpanName", VString (span_Name r));
          ("SpanKind", VString (SpanKind_String (span_Kind r)));
          ("ServiceName", VString (GetServiceName (rs_ResourceAttributes spans)));
          ("ResourceAttributes", VString (AttributesToJSON (rs_ResourceAttributes spans)));
          ("ScopeName", VString (scope_Name (ss_Scope scopeSpans)));
          ("ScopeVersion", VString (scope_Version (ss_Scope scopeSpans)));
          ("SpanAttributes", VString (AttributesToJSON (span_Attributes r)));
          ("Duration",
           VInt64 (Time_Sub (AsTime (span_EndTimestamp r)) (AsTime (span_StartTimestamp r))));
          ("StatusCode", VString (StatusCode_String (status_Code (span_Status r))));
          ("StatusMessage", VString (status_Message (span_Status r)));
          ("Events.Timestamp", VArray (map VTime eventTimes));
          ("Events.Name", VArray (map VString eventNames));
          ("Events.Attributes", VArray (map VString eventAttrs));
          ("Links.TraceId", VArray (map VString linksTraceIDs));
          ("Links.SpanId", VArray (map VString linksSpanIDs));
          ("Links.TraceState", VArray (map VString linksTraceStates));
          ("Links.Attributes", VArray (map VString linksAttrs)) ]
  | LogsSignal =>
      forall (logs : ResourceLogs) (scopeLogs : ScopeLogs) (r : LogRecord),
        named insertLogsSQLTemplate
          (logArgs (GetServiceName (rl_ResourceAttributes logs))
                   (rl_SchemaUrl logs)
                   (AttributesToJSON (rl_ResourceAttributes logs))
                   (sl_SchemaUrl scopeLogs)
                   (scope_Name (sl_Scope scopeLogs))
                   (scope_Version (sl_Scope scopeLogs))
                   (AttributesToJSON (scope_Attributes (sl_Scope scopeLogs))) r) =
        [ ("Timestamp", VTime (AsTime (logTimestamp r)));
          ("TraceId", VString (TraceIDToHexOrEmptyString (log_TraceID r)));
          ("SpanId", VString (SpanIDToHexOrEmptyString (log_SpanID r)));
          ("TraceFlags", VUint32 (log_Flags r));
          ("SeverityText", VString (log_SeverityText r));
          ("SeverityNumber", VInt32 (log_SeverityNumber r));
          ("ServiceName", VString (GetServiceName (rl_ResourceAttributes logs)));
          ("Body", VString (Value_AsString (log_Body r)));
          ("ResourceSchemaUrl", VString (rl_SchemaUrl logs));
          ("ResourceAttributes", VString (AttributesToJSON (rl_ResourceAttributes logs)));
          ("ScopeSchemaUrl", VString (sl_SchemaUrl scopeLogs));
          ("ScopeName", VString (scope_Name (sl_Scope scopeLogs)));
          ("ScopeVersion", VString (scope_Version (sl_Scope scopeLogs)));
          ("ScopeAttributes",
           VString (AttributesToJSON (scope_Attributes (sl_Scope scopeLogs))));
          ("LogAttributes", VString (AttributesToJSON (log_Attributes r))) ]
  end.

(** For each signal kind: every row of the kind has [n] arguments. *)
Definition rowsHaveWidth (k : signal) (n : nat) : Prop :=
  match k with
  | SumSignal => forall (m : sumModel) dp, List.length (rowOf sumArgs m dp) = n
  | GaugeSignal => forall (m : gaugeModel) dp, List.length (rowOf gaugeArgs m dp) = n
  | HistogramSignal =>
      forall (m : histogramModel) dp, List.length (rowOf histogramArgs m dp) = n
  | ExpHistogramSignal =>
      forall (m : expHistogramModel) dp, List.length (rowOf expHistogramArgs m dp) = n
  | SummarySignal => forall (m : summaryModel) dp, List.length (rowOf summaryArgs m dp) = n
  | SpansSignal =>
      forall serviceName resAttr scopeName scopeVersion r,
        List.length (spanArgs serviceName resAttr scopeName scopeVersion r) = n
  | LogsSignal =>
      forall serviceName resURL resAttr scopeURL scopeName scopeVersion scopeAttr r,
        List.length
          (logArgs serviceName resURL resAttr scopeURL scopeName scopeVersion scopeAttr r) = n
  end.


End StoredRows.

(** ** Sample data *)

(** Stand-ins for the collaborators that are not among the sources. *)
Definition sampleEncoder : AttributeEncoder := {| AttributesToJSON := fun _ => "{}" |}.

Definition sampleFallback : ServiceNameFallback := {| unknownServiceName := "unknown_service" |}.

Definition sampleClauses : ConfigClauses := {| clusterString := fun _ => "" |}.

Definition sampleConfig : Config := mkConfig "otel" "otel_traces" "otel_logs".

Definition sampleScope : InstrumentationScope := mkScope "scope" "v1" [] 0.

(** The doubles 1.0 and 2.0. *)
Definition float64_one : float64 := F64bits 0x3FF0000000000000.
Definition float64_two : float64 := F64bits 0x4000000000000000.

(** The sum metric of the end-to-end scenario. *)
Definition samplePoint (v : float64) : NumberDataPoint :=
  mkNumberDataPoint [] 0 1700000000000000000 ValueTypeDouble 0 v 0 [].

Definition sampleSum : Sum :=
  mkSum [samplePoint float64_one; samplePoint float64_two] AggregationTemporalityCumulative true.

Definition sampleResource : Map := [(ServiceNameKey, ValueStr "api")].

Definition sampleSumMetrics : sumMetrics :=
  mkMetrics
    [newModel sampleResource "" sampleScope "" sampleSum "requests_total" "" "1"]
    (Sprintf insertSumTableSQL ["otel_metrics_sum"]) 2.

(** An empty store whose driver accepts every call, and one whose driver
    rejects the second row of a statement. *)
Definition emptyStore : DB := mkDB (fun _ _ => None) [] [] true [].

Definition rejectsSecondRow (log : list event) (op : dbOp) : option error :=
  match op with
  | OpExec _ _ =>
      if Nat.eqb (List.length (execArgs log)) 1 then Some (DriverError "broken pipe") else None
  | _ => None
  end.

Definition failingStore : DB := mkDB rejectsSecondRow [] [] true [].

Definition sampleSpanID : SpanID :=
  [Byte.x00; Byte.x01; Byte.x02; Byte.x03; Byte.xab; Byte.xcd; Byte.xef; Byte.xff].

Definition sampleTraceID : TraceID := sampleSpanID ++ sampleSpanID.

(** The all-zero identifiers: no parent span, no trace. *)
Definition zeroSpanID : SpanID := repeat Byte.x00 8.
Definition zeroTraceID : TraceID := repeat Byte.x00 16.

(** A span that ends five nanoseconds before it starts. *)
Definition backwardsSpan : Span :=
  mkSpan sampleTraceID sampleSpanID zeroSpanID "" "GET /" 2 10 5 [] (mkStatus 0 "") [] [].

Definition backwardsTraces : Traces :=
  [mkResourceSpans sampleResource [mkScopeSpans sampleScope [backwardsSpan]]].

(** A span that lasts five milliseconds and has no parent, event or link. *)
Definition forwardSpan : Span :=
  mkSpan sampleTraceID sampleSpanID zeroSpanID "" "GET /" 2
    1700000000000000000 1700000000005000000 [] (mkStatus 0 "") [] [].

(** A span whose trace id is all zero. *)
Definition zeroTraceSpan : Span :=
  mkSpan zeroTraceID sampleSpanID zeroSpanID "" "orphan" 1 10 20 [] (mkStatus 0 "") [] [].

(** A log record without a timestamp of its own. *)
Definition zeroTimestampRecord : LogRecord :=
  mkLogRecord 0 1700000000000000123 zeroTraceID zeroSpanID 0 "INFO" 9
    (ValueStr "started") [].

(** ** Schema creation (package clickhouseexporter)

    What the schema routines use and the sources do not contain is a
    parameter: the storage engine clause, the TTL clause that
    [generateTTLExpr] yields for the configured TTL and a time column, the
    switch [shouldCreateSchema], the name of the default database, and
    [buildDB], which connects to the store or fails. *)

Class SchemaEnv : Type := {
  tableEngineString : Config -> string;
  generateTTLExpr : Config -> string -> string;
  shouldCreateSchema : Config -> bool;
  defaultDatabase : string;
  buildDB : Config -> option error
}.

(** [db.ExecContext] on the connection itself: a statement without
    arguments, outside any transaction. *)
Definition DB_ExecContext (query : string) (db : DB) : option error * DB :=
  call (OpExec query []) db.

(** The assignment [cfg.Database = name]. *)
Definition set_Database (name : string) (cfg : Config) : Config :=
  mkConfig name (TracesTableName cfg) (LogsTableName cfg).

Section Schema.

Context {clauses : ConfigClauses} {env : SchemaEnv}.

Definition renderCreateTracesTableSQL (cfg : Config) : string :=
  let ttlExpr := generateTTLExpr cfg "toDateTime(Timestamp)" in
  Sprintf createTracesTableSQL
    [TracesTableName cfg; clusterString cfg; tableEngineString cfg; ttlExpr].

Definition renderCreateTraceIDTsTableSQL (cfg : Config) : string :=
  let ttlExpr := generateTTLExpr cfg "toDateTime(Start)" in
  Sprintf createTraceIDTsTableSQL
    [TracesTableName cfg; clusterString cfg; tableEngineString cfg; ttlExpr].

Definition renderCreateLogsTableSQL (cfg : Config) : string :=
  let ttlExpr := generateTTLExpr cfg "TimestampTime" in
  Sprintf createLogsTableSQL
    [LogsTableName cfg; clusterString cfg; tableEngineString cfg; ttlExpr].

Definition createTracesTable (cfg : Config) (db : DB) : option error * DB :=
  match DB_ExecContext (renderCreateTracesTableSQL cfg) db with
  | (Some err, db1) => (Some (Errorf "exec create traces table sql: " err), db1)
  | (None, db1) =>
      match DB_ExecContext (renderCreateTraceIDTsTableSQL cfg) db1 with
      | (Some err, db2) =>
          (Some (Errorf "exec create traceID timestamp table sql: " err), db2)
      | (None, db2) =>
          match DB_ExecContext (renderTraceIDTsMaterializedViewSQL cfg) db2 with
          | (Some err, db3) =>
              (Some (Errorf "exec create traceID timestamp view sql: " err), db3)
          | (None, db3) => (None, db3)
          end
      end
  end.

Definition createLogsTable (cfg : Config) (db : DB) : option error * DB :=
  match DB_ExecContext (renderCreateLogsTableSQL cfg) db with
  | (Some err, db1) => (Some (Errorf "exec create logs table sql: " err), db1)
  | (None, db1) => (None, db1)
  end.

(** [createDatabase]: the configuration is passed by pointer, so the
    routine returns it next to its error.  The connection it builds leads to
    the same store; closing it on the way out issues no statement. *)
Definition createDatabase (cfg : Config) (db : DB) : option error * Config * DB :=
  if String.eqb (Database cfg) defaultDatabase then (None, cfg, db)
  else
    let targetDatabase := Database cfg in
    let cfg1 := set_Database defaultDatabase cfg in
    let err := buildDB cfg1 in
    let cfg2 := set_Database targetDatabase cfg1 in
    match err with
    | Some err => (Some (Errorf "can't connect to clickhouse: " err), cfg2, db)
    | None =>
        let query :=
          Sprintf "CREATE DATABASE IF NOT EXISTS %s %s" [Database cfg2; clusterString cfg2] in
        match DB_ExecContext query db with
        | (Some err, db1) => (Some (Errorf "create database: " err), cfg2, db1)
        | (None, db1) => (None, cfg2, db1)
        end
    end.

(** [tracesExporter.start] and [logsExporter.start]. *)
Definition tracesExporter_start (e : tracesExporter) (db : DB)
  : option error * tracesExporter * DB :=
  if negb (shouldCreateSchema (traces_cfg e)) then (None, e, db)
  else
    match createDatabase (traces_cfg e) db with
    | (Some err, cfg, db1) => (Some err, mkTracesExporter (traces_insertSQL e) cfg, db1)
    | (None, cfg, db1) =>
        let (err, db2) := createTracesTable cfg db1 in
        (err, mkTracesExporter (traces_insertSQL e) cfg, db2)
    end.

Definition logsExporter_start (e : logsExporter) (db : DB)
  : option error * logsExporter * DB :=
  if negb (shouldCreateSchema (logs_cfg e)) then (None, e, db)
  else
    match createDatabase (logs_cfg e) db with
    | (Some err, cfg, db1) => (Some err, mkLogsExporter (logs_insertSQL e) cfg, db1)
    | (None, cfg, db1) =>
        let (err, db2) := createLogsTable cfg db1 in
        (err, mkLogsExporter (logs_insertSQL e) cfg, db2)
    end.

End Schema.

(** ** Further vocabulary *)

(** [Traces.SpanCount] and [Logs.LogRecordCount]. *)
Definition SpanCount (td : Traces) : nat :=
  list_sum
    (map (fun spans => list_sum (map (fun ss => List.length (ss_Spans ss)) (rs_ScopeSpans spans)))
         td).

Definition LogRecordCount (ld : Logs) : nat :=
  list_sum
    (map (fun logs =>
            list_sum (map (fun sl => List.length (sl_LogRecords sl)) (rl_ScopeLogs logs)))
         ld).

(** The number each push routine reports as its records. *)
Definition pushRecords (p : push) : Z :=
  match p with
  | PushTraces _ td => Z.of_nat (SpanCount td)
  | PushLogs _ ld => Z.of_nat (LogRecordCount ld)
  | PushSum s => count s
  | PushGauge g => count g
  | PushHistogram h => count h
  | PushExpHistogram e => count e
  | PushSummary s => count s
  end.

(** The prefix a failing metric insert puts before its error; the traces
    and logs pushes return theirs bare. *)
Definition pushFailMessage (p : push) : option string :=
  match p with
  | PushTraces _ _ | PushLogs _ _ => None
  | PushSum _ => Some "insert sum metrics fail:"
  | PushGauge _ => Some "insert gauge metrics fail:"
  | PushHistogram _ => Some "insert histogram metrics fail:"
  | PushExpHistogram _ => Some "insert exponential histogram metrics fail:"
  | PushSummary _ => Some "insert summary metrics fail:"
  end.

(** How each push wraps a failure of [PrepareContext]. *)
Definition pushWrapPrepare (p : push) (e : error) : error :=
  match p with
  | PushTraces _ _ | PushLogs _ _ => Errorf "PrepareContext:" e
  | _ => e
  end.

(** The phase an error of the transaction comes from, read with the log
    of the calls the push added. *)
Definition phaseError (wrapPrepare : error -> error) (statement : string)
  (new : list event) (err : error) : Prop :=
  (exists e0, err = Errorf "db.Begin: " e0 /\ new = [(OpBegin, Some e0)]) \/
  (exists e0, err = wrapPrepare e0 /\ In (OpPrepare statement, Some e0) new) \/
  (exists e0 args, err = Errorf "ExecContext:" e0 /\ In (OpExec statement args, Some e0) new) \/
  In (OpCommit, Some err) new.

Definition isStmtClose (ev : event) : bool :=
  match fst ev with OpStmtClose _ => true | _ => false end.

Definition succeeded (ev : event) : bool :=
  match snd ev with None => true | Some _ => false end.

(** A table name that the column-list reader can step over. *)
Definition noOpenParen (s : string) : Prop :=
  forallb (fun c => negb (Ascii.eqb c "(")) (list_ascii_of_string s) = true.

(** The text of a format after its first [%s]. *)
Fixpoint afterVerb (format : string) : string :=
  match format with
  | EmptyString => EmptyString
  | String c r =>
      match r with
      | String d r' => if Ascii.eqb c "%" && Ascii.eqb d "s" then r' else afterVerb r
      | EmptyString => EmptyString
      end
  end.

(** Stand-ins for the schema parameters. *)
Definition sampleEnv : SchemaEnv :=
  {| tableEngineString := fun _ => "MergeTree()";
     generateTTLExpr := fun _ _ => "";
     shouldCreateSchema := fun _ => true;
     defaultDatabase := "default";
     buildDB := fun _ => None |}.

(** * Properties *)

(** ** Identifier codec *)

Lemma IsEmpty_all_zero (id : list Byte.byte) :
  IsEmpty id = true <-> Forall (eq Byte.x00) id.
Proof.
  unfold IsEmpty. rewrite forallb_forall, Forall_forall.
  split; intros H b Hb; specialize (H b Hb).
  - destruct b; try discriminate H; reflexivity.
  - subst b. reflexivity.
Qed.

Lemma EncodeToString_length (src : list Byte.byte) :
  String.length (EncodeToString src) = (2 * List.length src)%nat.
Proof.
  induction src as [|v r IH]; simpl; [reflexivity|].
  rewrite IH. lia.
Qed.

Lemma hexdigits_lower (v : Byte.byte) :
  is_lower_hex (hexdigit (N.shiftr (Byte.to_N v) 4)) = true /\
  is_lower_hex (hexdigit (N.land (Byte.to_N v) 15)) = true.
Proof. destruct v; split; reflexivity. Qed.

Lemma EncodeToString_lower (src : list Byte.byte) :
  forallb is_lower_hex (list_ascii_of_string (EncodeToString src)) = true.
Proof.
  induction src as [|v r IH]; [reflexivity|].
  cbn [EncodeToString list_ascii_of_string forallb].
  destruct (hexdigits_lower v) as [-> ->]. exact IH.
Qed.

Lemma Decode_two_digits (v : Byte.byte) (rest : string) :
  DecodeString
    (String (hexdigit (N.shiftr (Byte.to_N v) 4))
       (String (hexdigit (N.land (Byte.to_N v) 15)) rest)) =
  match DecodeString rest with
  | Some bs => Some (v :: bs)
  | None => None
  end.
Proof. destruct v; cbn; destruct (DecodeString rest); reflexivity. Qed.

Lemma Decode_Encode (src : list Byte.byte) :
  DecodeString (EncodeToString src) = Some src.
Proof.
  induction src as [|v r IH]; [reflexivity|].
  cbn [EncodeToString]. rewrite Decode_two_digits, IH. reflexivity.
Qed.

Lemma HexOrEmpty_zero (id : list Byte.byte) :
  Forall (eq Byte.x00) id ->
  SpanIDToHexOrEmptyString id = "" /\ TraceIDToHexOrEmptyString id = "".
Proof.
  intros H. apply IsEmpty_all_zero in H.
  unfold SpanIDToHexOrEmptyString, TraceIDToHexOrEmptyString. rewrite H. auto.
Qed.

Lemma HexOrEmpty_nonzero (id : list Byte.byte) :
  ~ Forall (eq Byte.x00) id ->
  SpanIDToHexOrEmptyString id = EncodeToString id /\
  TraceIDToHexOrEmptyString id = EncodeToString id.
Proof.
  intros H. unfold SpanIDToHexOrEmptyString, TraceIDToHexOrEmptyString.
  destruct (IsEmpty id) eqn:E; [|auto].
  apply IsEmpty_all_zero in E. contradiction.
Qed.

(** C5. For every 8-byte span id and every 16-byte trace id, the two
    encoders return the empty string when every byte is zero; otherwise
    they return the hexadecimal text of the identifier, which has twice as
    many characters as the identifier has bytes (16 and 32), uses only the
    digits 0-9 and the lowercase letters a-f, and decodes back to the
    identifier.  Both are total functions. *)
Theorem identifier_codec (sid : SpanID) (tid : TraceID) :
  wf_SpanID sid -> wf_TraceID tid ->
  (Forall (eq Byte.x00) sid -> SpanIDToHexOrEmptyString sid = "") /\
  (~ Forall (eq Byte.x00) sid ->
     SpanIDToHexOrEmptyString sid = EncodeToString sid /\
     String.length (SpanIDToHexOrEmptyString sid) = 16%nat /\
     forallb is_lower_hex (list_ascii_of_string (SpanIDToHexOrEmptyString sid)) = true /\
     DecodeString (SpanIDToHexOrEmptyString sid) = Some sid) /\
  (Forall (eq Byte.x00) tid -> TraceIDToHexOrEmptyString tid = "") /\
  (~ Forall (eq Byte.x00) tid ->
     TraceIDToHexOrEmptyString tid = EncodeToString tid /\
     String.length (TraceIDToHexOrEmptyString tid) = 32%nat /\
     forallb is_lower_hex (list_ascii_of_string (TraceIDToHexOrEmptyString tid)) = true /\
     DecodeString (TraceIDToHexOrEmptyString tid) = Some tid).
Proof.
  unfold wf_SpanID, wf_TraceID. intros Hs Ht.
  split; [intros H; apply (HexOrEmpty_zero sid H)|].
  split.
  { intros H. destruct (HexOrEmpty_nonzero sid H) as [-> _].
    rewrite EncodeToString_length, Hs, EncodeToString_lower, Decode_Encode. auto. }
  split; [intros H; apply (HexOrEmpty_zero tid H)|].
  intros H. destruct (HexOrEmpty_nonzero tid H) as [_ ->].
  rewrite EncodeToString_length, Ht, EncodeToString_lower, Decode_Encode. auto.
Qed.

Lemma identifier_codec_witness :
  wf_SpanID sampleSpanID /\ wf_TraceID sampleTraceID /\
  SpanIDToHexOrEmptyString sampleSpanID = "00010203abcdefff" /\
  String.length (TraceIDToHexOrEmptyString sampleTraceID) = 32%nat.
Proof.
  assert (Hs : wf_SpanID sampleSpanID) by reflexivity.
  assert (Ht : wf_TraceID sampleTraceID) by reflexivity.
  destruct (identifier_codec sampleSpanID sampleTraceID Hs Ht) as (_ & Hn & _ & Hm).
  split; [exact Hs|]. split; [exact Ht|]. split.
  - assert (Hnz : ~ Forall (eq Byte.x00) sampleSpanID).
    { intros H. inversion H as [|? ? _ H1]; subst. inversion H1 as [|? ? H2 _]; subst.
      discriminate H2. }
    destruct (Hn Hnz) as (He & _). rewrite He. reflexivity.
  - assert (Hnz : ~ Forall (eq Byte.x00) sampleTraceID).
    { intros H. inversion H as [|? ? _ H1]; subst. inversion H1 as [|? ? H2 _]; subst.
      discriminate H2. }
    destruct (Hm Hnz) as (_ & Hl & _). exact Hl.
Defined.

(** ** Event and link arrays *)

Section Arrays.

Context {encoder : AttributeEncoder}.

Lemma convertEvents_from (events : list SpanEvent) (times : list Time) (names attrs : list string) :
  fold_left
    (fun '(times, names, attrs) event =>
       (times ++ [AsTime (event_Timestamp event)],
        names ++ [event_Name event],
        attrs ++ [AttributesToJSON (event_Attributes event)]))
    events (times, names, attrs) =
  (times ++ map (fun ev => AsTime (event_Timestamp ev)) events,
   names ++ map event_Name events,
   attrs ++ map (fun ev => AttributesToJSON (event_Attributes ev)) events).
Proof.
  revert times names attrs.
  induction events as [|ev r IH]; intros times names attrs; cbn [fold_left map].
  - now rewrite !app_nil_r.
  - rewrite IH, <- !app_assoc. reflexivity.
Qed.

Lemma convertLinks_from (links : list SpanLink) (traceIDs spanIDs states attrs : list string) :
  fold_left
    (fun '(traceIDs, spanIDs, states, attrs) link =>
       (traceIDs ++ [TraceIDToHexOrEmptyString (link_TraceID link)],
        spanIDs ++ [SpanIDToHexOrEmptyString (link_SpanID link)],
        states ++ [link_TraceState link],
        attrs ++ [AttributesToJSON (link_Attributes link)]))
    links (traceIDs, spanIDs, states, attrs) =
  (traceIDs ++ map (fun l => TraceIDToHexOrEmptyString (link_TraceID l)) links,
   spanIDs ++ map (fun l => SpanIDToHexOrEmptyString (link_SpanID l)) links,
   states ++ map link_TraceState links,
   attrs ++ map (fun l => AttributesToJSON (link_Attributes l)) links).
Proof.
  revert traceIDs spanIDs states attrs.
  induction links as [|l r IH]; intros traceIDs spanIDs states attrs; cbn [fold_left map].
  - now rewrite !app_nil_r.
  - rewrite IH, <- !app_assoc. reflexivity.
Qed.

Lemma convertEvents_map (events : list SpanEvent) :
  convertEvents events =
  (map (fun ev => AsTime (event_Timestamp ev)) events,
   map event_Name events,
   map (fun ev => AttributesToJSON (event_Attributes ev)) events).
Proof. unfold convertEvents. now rewrite convertEvents_from. Qed.

Lemma convertLinks_map (links : list SpanLink) :
  convertLinks links =
  (map (fun l => TraceIDToHexOrEmptyString (link_TraceID l)) links,
   map (fun l => SpanIDToHexOrEmptyString (link_SpanID l)) links,
   map link_TraceState links,
   map (fun l => AttributesToJSON (link_Attributes l)) links).
Proof. unfold convertLinks. now rewrite convertLinks_from. Qed.

(** C7. [convertEvents] returns three arrays as long as the event list,
    whose i-th elements are the timestamp, the name and the encoded
    attributes of the i-th event; [convertLinks] returns four arrays as long
    as the link list, whose i-th elements are the encoded trace id, the
    encoded span id, the trace state and the encoded attributes of the i-th
    link; for an empty input all arrays are empty. *)
Theorem event_and_link_arrays_aligned :
  (forall events : list SpanEvent,
     let '(times, names, attrs) := convertEvents events in
     List.length times = List.length events /\
     List.length names = List.length events /\
     List.length attrs = List.length events /\
     forall i : nat,
       nth_error times i = option_map (fun ev => AsTime (event_Timestamp ev)) (nth_error events i) /\
       nth_error names i = option_map event_Name (nth_error events i) /\
       nth_error attrs i =
         option_map (fun ev => AttributesToJSON (event_Attributes ev)) (nth_error events i)) /\
  (forall links : list SpanLink,
     let '(traceIDs, spanIDs, states, attrs) := convertLinks links in
     List.length traceIDs = List.length links /\
     List.length spanIDs = List.length links /\
     List.length states = List.length links /\
     List.length attrs = List.length links /\
     forall i : nat,
       nth_error traceIDs i =
         option_map (fun l => TraceIDToHexOrEmptyString (link_TraceID l)) (nth_error links i) /\
       nth_error spanIDs i =
         option_map (fun l => SpanIDToHexOrEmptyString (link_SpanID l)) (nth_error links i) /\
       nth_error states i = option_map link_TraceState (nth_error links i) /\
       nth_error attrs i =
         option_map (fun l => AttributesToJSON (link_Attributes l)) (nth_error links i)) /\
  convertEvents [] = ([], [], []) /\
  convertLinks [] = ([], [], [], []).
Proof.
  split; [|split; [|split; reflexivity]].
  - intros events. rewrite convertEvents_map.
    rewrite !length_map. repeat split; apply nth_error_map.
  - intros links. rewrite convertLinks_map.
    rewrite !length_map. repeat split; apply nth_error_map.
Qed.

End Arrays.

(** ** Column order *)

Lemma insertSum_columns :
  Sql.insert_columns insertSumTableSQL =
  metricColumns ++ ["Value"; "Flags"] ++ exemplarColumns ++
  ["AggregationTemporality"; "IsMonotonic"].
Proof. vm_compute. reflexivity. Qed.

Lemma insertGauge_columns :
  Sql.insert_columns insertGaugeTableSQL =
  metricColumns ++ ["Value"; "Flags"] ++ exemplarColumns.
Proof. vm_compute. reflexivity. Qed.

Lemma insertHistogram_columns :
  Sql.insert_columns insertHistogramTableSQL =
  metricColumns ++ ["Count"; "Sum"; "BucketCounts"; "ExplicitBounds"] ++ exemplarColumns ++
  ["Flags"; "Min"; "Max"; "AggregationTemporality"].
Proof. vm_compute. reflexivity. Qed.

Lemma insertExpHistogram_columns :
  Sql.insert_columns insertExpHistogramTableSQL =
  metricColumns ++
  ["Count"; "Sum"; "Scale"; "ZeroCount"; "PositiveOffset"; "PositiveBucketCounts";
   "NegativeOffset"; "NegativeBucketCounts"] ++ exemplarColumns ++
  ["Flags"; "Min"; "Max"; "AggregationTemporality"].
Proof. vm_compute. reflexivity. Qed.

Lemma insertSummary_columns :
  Sql.insert_columns insertSummaryTableSQL =
  metricColumns ++
  ["Count"; "Sum"; "ValueAtQuantiles.Quantile"; "ValueAtQuantiles.Value"; "Flags"].
Proof. vm_compute. reflexivity. Qed.

Lemma insertTraces_columns :
  Sql.insert_columns insertTracesSQLTemplate =
  [ "Timestamp"; "TraceId"; "SpanId"; "ParentSpanId"; "TraceState"; "SpanName"; "SpanKind";
    "ServiceName"; "ResourceAttributes"; "ScopeName"; "ScopeVersion"; "SpanAttributes";
    "Duration"; "StatusCode"; "StatusMessage"; "Events.Timestamp"; "Events.Name";
    "Events.Attributes"; "Links.TraceId"; "Links.SpanId"; "Links.TraceState";
    "Links.Attributes" ].
Proof. vm_compute. reflexivity. Qed.

Lemma insertLogs_columns :
  Sql.insert_columns insertLogsSQLTemplate =
  [ "Timestamp"; "TraceId"; "SpanId"; "TraceFlags"; "SeverityText"; "SeverityNumber";
    "ServiceName"; "Body"; "ResourceSchemaUrl"; "ResourceAttributes"; "ScopeSchemaUrl";
    "ScopeName"; "ScopeVersion"; "ScopeAttributes"; "LogAttributes" ].
Proof. vm_compute. reflexivity. Qed.

Lemma insert_lists_match (k : signal) :
  Sql.insert_columns (insertTemplate k) = Sql.supplied_columns (createTemplate k) /\
  Sql.insert_placeholders (insertTemplate k) =
    map (fun _ => "?") (Sql.insert_columns (insertTemplate k)) /\
  filter Sql.col_default (Sql.create_columns (createTemplate k)) =
    match k with
    | LogsSignal => [Sql.mkColumn "TimestampTime" true]
    | _ => []
    end.
Proof. destruct k; vm_compute; auto. Qed.

Ltac named_row cols :=
  unfold named; rewrite cols; reflexivity.

Section ColumnOrder.

Context {encoder : AttributeEncoder} {fallback : ServiceNameFallback}.

Lemma sumArgs_width (m : sumModel) (dp : NumberDataPoint) :
  List.length (rowOf sumArgs m dp) = List.length (Sql.insert_columns insertSumTableSQL).
Proof.
  unfold rowOf, sumArgs.
  destruct (convertExemplars (ndp_Exemplars dp)) as [[[[attrs times] values] traceIDs] spanIDs].
  rewrite insertSum_columns. reflexivity.
Qed.

Lemma gaugeArgs_width (m : gaugeModel) (dp : NumberDataPoint) :
  List.length (rowOf gaugeArgs m dp) = List.length (Sql.insert_columns insertGaugeTableSQL).
Proof.
  unfold rowOf, gaugeArgs.
  destruct (convertExemplars (ndp_Exemplars dp)) as [[[[attrs times] values] traceIDs] spanIDs].
  rewrite insertGauge_columns. reflexivity.
Qed.

Lemma histogramArgs_width (m : histogramModel) (dp : HistogramDataPoint) :
  List.length (rowOf histogramArgs m dp) =
  List.length (Sql.insert_columns insertHistogramTableSQL).
Proof.
  unfold rowOf, histogramArgs.
  destruct (convertExemplars (hdp_Exemplars dp)) as [[[[attrs times] values] traceIDs] spanIDs].
  rewrite insertHistogram_columns. reflexivity.
Qed.

Lemma expHistogramArgs_width (m : expHistogramModel) (dp : ExponentialHistogramDataPoint) :
  List.length (rowOf expHistogramArgs m dp) =
  List.length (Sql.insert_columns insertExpHistogramTableSQL).
Proof.
  unfold rowOf, expHistogramArgs.
  destruct (convertExemplars (ehdp_Exemplars dp)) as [[[[attrs times] values] traceIDs] spanIDs].
  rewrite insertExpHistogram_columns. reflexivity.
Qed.

Lemma summaryArgs_width (m : summaryModel) (dp : SummaryDataPoint) :
  List.length (rowOf summaryArgs m dp) =
  List.length (Sql.insert_columns insertSummaryTableSQL).
Proof.
  unfold rowOf, summaryArgs.
  destruct (convertValueAtQuantile (sdp_QuantileValues dp)) as [quantiles values].
  rewrite insertSummary_columns. reflexivity.
Qed.

Lemma spanArgs_width (serviceName resAttr scopeName scopeVersion : string) (r : Span) :
  List.length (spanArgs serviceName resAttr scopeName scopeVersion r) =
  List.length (Sql.insert_columns insertTracesSQLTemplate).
Proof.
  unfold spanArgs.
  destruct (convertEvents (span_Events r)) as [[eventTimes eventNames] eventAttrs].
  destruct (convertLinks (span_Links r)) as [[[lt ls] lst] la].
  rewrite insertTraces_columns. reflexivity.
Qed.

Lemma logArgs_width
  (serviceName resURL resAttr scopeURL scopeName scopeVersion scopeAttr : string)
  (r : LogRecord) :
  List.length (logArgs serviceName resURL resAttr scopeURL scopeName scopeVersion scopeAttr r) =
  List.length (Sql.insert_columns insertLogsSQLTemplate).
Proof. unfold logArgs. rewrite insertLogs_columns. reflexivity. Qed.

Lemma rows_have_the_width_of_the_insert (k : signal) :
  rowsHaveWidth k (List.length (Sql.insert_columns (insertTemplate k))).
Proof.
  destruct k; cbn [rowsHaveWidth insertTemplate].
  - apply spanArgs_width.
  - apply logArgs_width.
  - apply sumArgs_width.
  - apply gaugeArgs_width.
  - apply histogramArgs_width.
  - apply expHistogramArgs_width.
  - apply summaryArgs_width.
Qed.

Lemma rows_stored_in_column_order (k : signal) : storedInColumnOrder k.
Proof.
  destruct k; cbn [storedInColumnOrder].
  - intros spans scopeSpans r. unfold spanArgs.
    destruct (convertEvents (span_Events r)) as [[eventTimes eventNames] eventAttrs].
    destruct (convertLinks (span_Links r)) as [[[lt ls] lst] la].
    named_row insertTraces_columns.
  - intros logs scopeLogs r. unfold logArgs. named_row insertLogs_columns.
  - intros m dp. unfold rowOf, sumArgs.
    destruct (convertExemplars (ndp_Exemplars dp)) as [[[[attrs times] values] traceIDs] spanIDs].
    named_row insertSum_columns.
  - intros m dp. unfold rowOf, gaugeArgs.
    destruct (convertExemplars (ndp_Exemplars dp)) as [[[[attrs times] values] traceIDs] spanIDs].
    named_row insertGauge_columns.
  - intros m dp. unfold rowOf, histogramArgs.
    destruct (convertExemplars (hdp_Exemplars dp)) as [[[[attrs times] values] traceIDs] spanIDs].
    named_row insertHistogram_columns.
  - intros m dp. unfold rowOf, expHistogramArgs.
    destruct (convertExemplars (ehdp_Exemplars dp)) as [[[[attrs times] values] traceIDs] spanIDs].
    named_row insertExpHistogram_columns.
  - intros m dp. unfold rowOf, summaryArgs.
    destruct (convertValueAtQuantile (sdp_QuantileValues dp)) as [quantiles values].
    named_row insertSummary_columns.
Qed.

(** C1, as amended.  For every signal kind the column list of the [INSERT]
    statement is, name for name and position for position, the column list
    of the [CREATE TABLE] statement without the columns that declare a
    [DEFAULT] (only [TimestampTime] of the logs table does); the statement
    has one placeholder per listed column; every row binds as many
    arguments as columns are listed; and the arguments are supplied in
    exactly that order, so each listed column receives the value meant for
    it (for the sum table the 23 arguments land in the 23 columns
    [ResourceAttributes] through [IsMonotonic]). *)
Theorem insert_follows_create (k : signal) :
  Sql.insert_columns (insertTemplate k) = Sql.supplied_columns (createTemplate k) /\
  Sql.insert_placeholders (insertTemplate k) =
    map (fun _ => "?") (Sql.insert_columns (insertTemplate k)) /\
  filter Sql.col_default (Sql.create_columns (createTemplate k)) =
    (match k with
     | LogsSignal => [Sql.mkColumn "TimestampTime" true]
     | _ => []
     end) /\
  rowsHaveWidth k (List.length (Sql.insert_columns (insertTemplate k))) /\
  storedInColumnOrder k /\
  List.length (Sql.insert_columns (insertTemplate SumSignal)) = 23%nat.
Proof.
  destruct (insert_lists_match k) as (H1 & H2 & H3).
  split; [exact H1|]. split; [exact H2|]. split; [exact H3|].
  split; [apply rows_have_the_width_of_the_insert|].
  split; [apply rows_stored_in_column_order|].
  cbn [insertTemplate]. rewrite insertSum_columns. reflexivity.
Qed.

End ColumnOrder.

(** C1 as stated fails for logs: the table declares [TimestampTime] in
    second position, a column the [INSERT] statement does not list. *)
Lemma logs_insert_list_is_not_create_list :
  nth_error (map Sql.col_name (Sql.create_columns (createTemplate LogsSignal))) 1 =
    Some "TimestampTime" /\
  nth_error (Sql.insert_columns (insertTemplate LogsSignal)) 1 = Some "TraceId" /\
  ~ (forall k : signal,
       Sql.insert_columns (insertTemplate k) =
       map Sql.col_name (Sql.create_columns (createTemplate k))).
Proof.
  split; [vm_compute; reflexivity|]. split; [vm_compute; reflexivity|].
  intros H. specialize (H LogsSignal). vm_compute in H. discriminate H.
Qed.

(** ** The transaction discipline *)

Lemma forRange_app {A : Type} (body : A -> DB -> option error * DB) (l1 l2 : list A) (db : DB) :
  forRange body (l1 ++ l2) db =
  match forRange body l1 db with
  | (Some err, db1) => (Some err, db1)
  | (None, db1) => forRange body l2 db1
  end.
Proof.
  revert db. induction l1 as [|x r IH]; intros db; cbn [forRange app]; [reflexivity|].
  destruct (body x db) as [[err|] db1]; [reflexivity|]. apply IH.
Qed.

Lemma forRange_flat_map {A B : Type} (body : B -> DB -> option error * DB)
  (f : A -> list B) (l : list A) (db : DB) :
  forRange (fun x => forRange body (f x)) l db = forRange body (flat_map f l) db.
Proof.
  revert db. induction l as [|x r IH]; intros db; cbn [forRange flat_map]; [reflexivity|].
  rewrite forRange_app.
  destruct (forRange body (f x) db) as [[err|] db1]; [reflexivity|]. apply IH.
Qed.

Lemma forRange_map {A B : Type} (body : B -> DB -> option error * DB)
  (g : A -> B) (l : list A) (db : DB) :
  forRange (fun x => body (g x)) l db = forRange body (map g l) db.
Proof.
  revert db. induction l as [|x r IH]; intros db; cbn [forRange map]; [reflexivity|].
  destruct (body (g x) db) as [[err|] db1]; [reflexivity|]. apply IH.
Qed.

Lemma forRange_ext {A : Type} (body body' : A -> DB -> option error * DB) (l : list A) (db : DB) :
  (forall x d, body x d = body' x d) -> forRange body l db = forRange body' l db.
Proof.
  intros H. revert db. induction l as [|x r IH]; intros db; cbn [forRange]; [reflexivity|].
  rewrite H. destruct (body' x db) as [[err|] db1]; [reflexivity|]. apply IH.
Qed.

Lemma forRange_nested {A B C : Type} (body : C -> DB -> option error * DB)
  (g : A -> B -> C) (f : A -> list B) (l : list A) (db : DB) :
  forRange (fun x => forRange (fun y => body (g x y)) (f x)) l db =
  forRange body (flat_map (fun x => map (g x) (f x)) l) db.
Proof.
  rewrite <- forRange_flat_map. apply forRange_ext. intros x d. apply forRange_map.
Qed.

Lemma doWithTx_ext (fn fn' : DB -> option error * DB) (db : DB) :
  (forall d, fn d = fn' d) -> doWithTx fn db = doWithTx fn' db.
Proof.
  intros H. unfold doWithTx. destruct (Begin db) as [[err|] db1]; [reflexivity|].
  rewrite H. reflexivity.
Qed.

Lemma execRow_step (statement : string) (args : list SqlVal) (db : DB) :
  execRow statement args db =
  match driver db (oplog db) (OpExec statement args) with
  | Some e =>
      (Some (Errorf "ExecContext:" e),
       mkDB (driver db) (committed db) (txRows db) (txDone db)
         (oplog db ++ [(OpExec statement args, Some e)]))
  | None =>
      (None,
       mkDB (driver db) (committed db) (txRows db ++ [(statement, args)]) (txDone db)
         (oplog db ++ [(OpExec statement args, None)]))
  end.
Proof.
  unfold execRow, ExecContext, call.
  destruct (driver db (oplog db) (OpExec statement args)); reflexivity.
Qed.

Lemma execRows_shape (statement : string) (rows : list (list SqlVal)) (db : DB) :
  (forRange (execRow statement) rows db =
     (None,
      mkDB (driver db) (committed db)
        (txRows db ++ map (pair statement) rows) (txDone db)
        (oplog db ++ map (okExec statement) rows))) \/
  (exists (k : nat) (args : list SqlVal) (e : error) (pending : list Row),
     nth_error rows k = Some args /\
     forRange (execRow statement) rows db =
       (Some (Errorf "ExecContext:" e),
        mkDB (driver db) (committed db) pending (txDone db)
          (oplog db ++ map (okExec statement) (firstn k rows) ++
           [(OpExec statement args, Some e)]))).
Proof.
  revert db. induction rows as [|a r IH]; intros db.
  - left. cbn. rewrite !app_nil_r. destruct db; reflexivity.
  - cbn [forRange]. rewrite execRow_step.
    destruct (driver db (oplog db) (OpExec statement a)) as [e|] eqn:E.
    + right. exists 0%nat, a, e, (txRows db). split; [reflexivity|]. reflexivity.
    + match goal with |- context [forRange _ r ?d] => destruct (IH d) as [H|H] end.
      * left. rewrite H. cbn [txRows txDone driver committed oplog map].
        rewrite <- !app_assoc. reflexivity.
      * right. destruct H as (k & args & e & pending & Hk & H).
        exists (S k), args, e, pending. split; [exact Hk|].
        rewrite H. cbn [txRows txDone driver committed oplog map firstn].
        rewrite <- !app_assoc. reflexivity.
Qed.

Ltac run_store :=
  unfold StmtClose, Commit, Rollback, PrepareContext, call, set_tx, set_committed; cbn.

Lemma txInsert_outcome (wrapPrepare : error -> error) (statement : string)
  (rows : list (list SqlVal)) (db : DB) :
  pushOutcome wrapPrepare statement rows db (txInsert wrapPrepare statement rows db).
Proof.
  unfold txInsert, doWithTx, Begin, call.
  destruct (driver db (oplog db) OpBegin) as [e|] eqn:Eb; [apply BeginFailed|].
  run_store.
  match goal with |- context [driver db ?l (OpPrepare statement)] =>
    destruct (driver db l (OpPrepare statement)) as [e|] eqn:Ep end.
  - run_store. rewrite <- ?app_assoc. apply PrepareFailed.
  - match goal with |- context [forRange (execRow statement) rows ?d] =>
      destruct (execRows_shape statement rows d) as [H|H] end.
    + rewrite H. run_store.
      match goal with |- context [driver db ?l OpCommit] =>
        destruct (driver db l OpCommit) as [e|] eqn:Ec end;
        run_store; rewrite <- ?app_assoc; cbn.
      * apply CommitFailed.
      * apply Committed.
    + destruct H as (k & args & e & pending & Hk & H). rewrite H.
      run_store. rewrite <- ?app_assoc. cbn. rewrite <- ?app_assoc. cbn.
      apply (ExecFailed _ _ _ _ k args e); exact Hk.
Qed.

Lemma execArgs_app (l1 l2 : list event) : execArgs (l1 ++ l2) = execArgs l1 ++ execArgs l2.
Proof. apply flat_map_app. Qed.

Lemma execArgs_okExec (statement : string) (rows : list (list SqlVal)) :
  execArgs (map (okExec statement) rows) = rows.
Proof. induction rows as [|a r IH]; cbn; [reflexivity|]. f_equal. exact IH. Qed.

Lemma filter_okExec (f : event -> bool) (statement : string) (rows : list (list SqlVal)) :
  (forall a, f (okExec statement a) = false) ->
  filter f (map (okExec statement) rows) = [].
Proof.
  intros H. induction rows as [|a r IH]; cbn; [reflexivity|].
  rewrite H. exact IH.
Qed.

Lemma existsb_okExec (f : event -> bool) (statement : string) (rows : list (list SqlVal)) :
  (forall a, f (okExec statement a) = false) ->
  existsb f (map (okExec statement) rows) = false.
Proof.
  intros H. induction rows as [|a r IH]; cbn; [reflexivity|].
  rewrite H. exact IH.
Qed.

Lemma In_okExec (statement : string) (rows : list (list SqlVal)) (op : dbOp) (o : option error) :
  In (op, o) (map (okExec statement) rows) ->
  o = None /\ exists a, op = OpExec statement a.
Proof.
  intros H. apply in_map_iff in H. destruct H as (a & Ha & _).
  unfold okExec in Ha. inversion Ha; subst. split; [reflexivity|]. exists a. reflexivity.
Qed.

Lemma wraps_refl (e : error) : wraps e e.
Proof. destruct e; cbn; auto. Qed.

Lemma wraps_Errorf (prefix : string) (err e : error) : wraps err e -> wraps (Errorf prefix err) e.
Proof. intros H. cbn. right. exact H. Qed.

Lemma firstn_prefix_exists {A : Type} (k : nat) (l : list A) (x : A) :
  nth_error l k = Some x -> firstn k l ++ [x] = firstn (S k) l.
Proof.
  revert l. induction k as [|k IH]; intros [|y l] H; try discriminate H.
  - cbn in H. inversion H; subst. reflexivity.
  - cbn in H. change (y :: (firstn k l ++ [x]) = y :: firstn (S k) l).
    f_equal. apply IH. exact H.
Qed.

Ltac pair_eq :=
  repeat match goal with
  | H : (_, _) = (_, _) |- _ => inversion H; subst; clear H
  | H : False |- _ => destruct H
  end.

Ltac in_events H :=
  rewrite ?in_app_iff in H; cbn [In] in H;
  repeat match type of H with
  | _ \/ _ => destruct H as [H|H]
  end.

Ltac count_events :=
  rewrite ?filter_app, ?existsb_app, ?execArgs_app, ?execArgs_okExec;
  rewrite ?filter_okExec by reflexivity;
  rewrite ?existsb_okExec by reflexivity;
  cbn.

(** Case analysis of an event known to be in the new part of the log. *)
Ltac which_event H :=
  in_events H; pair_eq; try discriminate;
  try (apply In_okExec in H;
       let Hn := fresh "Hn" in let a := fresh "a" in let Ha := fresh "Ha" in
       destruct H as (Hn & a & Ha); try discriminate Hn; inversion Ha; subst).

Lemma outcome_transactional (wrapPrepare : error -> error) (statement : string)
  (rows : list (list SqlVal)) (db : DB) (res : option error * DB) :
  (forall e, wraps (wrapPrepare e) e) ->
  pushOutcome wrapPrepare statement rows db res ->
  transactional statement rows db res.
Proof.
  intros Hw H. destruct H as [e|e o|k args e o1 o2 Hk|e o1|o1];
    (eexists; split; [cbn [snd oplog]; reflexivity|]); count_events.
  - split; [lia|]. split; [lia|]. split; [exists 0%nat; reflexivity|].
    split; [intros q a o H; which_event H|].
    split; [intros op e' H; which_event H|].
    split; [discriminate|]. split; [discriminate|]. reflexivity.
  - split; [lia|]. split; [lia|]. split; [exists 0%nat; reflexivity|].
    split; [intros q a o' H; which_event H|].
    split.
    { intros op e' H He. which_event H; try discriminate He.
      split; [eexists; split; [reflexivity|apply Hw]|]. auto. }
    split; [discriminate|]. split; [discriminate|]. reflexivity.
  - split; [lia|]. split; [lia|].
    split; [exists (S k); apply firstn_prefix_exists; exact Hk|].
    split; [intros q a o' H; which_event H; reflexivity|].
    split.
    { intros op e' H He. which_event H; try discriminate He.
      split; [eexists; split; [reflexivity|apply wraps_Errorf, wraps_refl]|]. auto. }
    split; [discriminate|]. split; [discriminate|]. reflexivity.
  - split; [lia|]. split; [lia|].
    split; [exists (List.length rows); rewrite firstn_all; apply app_nil_r|].
    split; [intros q a o' H; which_event H; reflexivity|].
    split; [intros op e' H He; which_event H; discriminate He|].
    split.
    { intros _. split; [apply app_nil_r|]. intros op e' H. which_event H; reflexivity. }
    split; [discriminate|]. reflexivity.
  - split; [lia|]. split; [lia|].
    split; [exists (List.length rows); rewrite firstn_all; apply app_nil_r|].
    split; [intros q a o' H; which_event H; reflexivity|].
    split; [intros op e' H He; which_event H; discriminate He|].
    split.
    { intros _. split; [apply app_nil_r|]. intros op e' H. which_event H; reflexivity. }
    split; [reflexivity|]. intros H; contradiction.
Qed.



Lemma counted_zero {P D : Type} (points : P -> list D)
  (args : string -> string -> string -> model P -> D -> list SqlVal)
  {encoder : AttributeEncoder} {fallback : ServiceNameFallback} (s : metrics P) :
  counted points s -> count s = 0 -> metricRows points args s = [].
Proof.
  unfold counted, metricRows. intros Hc H0. rewrite H0 in Hc.
  induction (models s) as [|m r IH]; [reflexivity|].
  cbn [flat_map] in *. rewrite length_app in Hc.
  destruct (points (payload m)) as [|dp dps]; [|cbn in Hc; lia].
  cbn [map app]. apply IH. exact Hc.
Qed.

Section Transactions.

Context {encoder : AttributeEncoder} {fallback : ServiceNameFallback}.

Lemma metricTxBody_rows {P D : Type} (statement : string) (s : metrics P)
  (points : P -> list D) (args : string -> string -> string -> model P -> D -> list SqlVal)
  (db : DB) :
  doWithTx (metricTxBody statement s points args) db =
  txInsert (fun err => err) statement (metricRows points args s) db.
Proof.
  unfold txInsert. apply doWithTx_ext. intros d. unfold metricTxBody.
  destruct (PrepareContext statement d) as [[err|] tx1]; [reflexivity|].
  unfold metricRows.
  rewrite (forRange_nested (execRow statement)
             (fun m => args (AttributesToJSON (ResAttr (metadata m)))
                            (AttributesToJSON (scope_Attributes (ScopeInstr (metadata m))))
                            (GetServiceName (ResAttr (metadata m))) m)).
  reflexivity.
Qed.

Lemma pushTraceData_rows (e : tracesExporter) (td : Traces) (db : DB) :
  pushTraceData e td db =
  txInsert (Errorf "PrepareContext:") (traces_insertSQL e) (traceRows td) db.
Proof.
  unfold pushTraceData, txInsert. apply doWithTx_ext. intros d.
  destruct (PrepareContext (traces_insertSQL e) d) as [[err|] tx1]; [reflexivity|].
  cbv zeta. unfold traceRows.
  rewrite <- (forRange_flat_map (execRow (traces_insertSQL e))).
  erewrite forRange_ext; [reflexivity|].
  intros spans tx.
  apply (forRange_nested (execRow (traces_insertSQL e))
           (fun scopeSpans =>
              spanArgs (GetServiceName (rs_ResourceAttributes spans))
                       (AttributesToJSON (rs_ResourceAttributes spans))
                       (scope_Name (ss_Scope scopeSpans))
                       (scope_Version (ss_Scope scopeSpans)))).
Qed.

Lemma pushLogsData_rows (e : logsExporter) (ld : Logs) (db : DB) :
  pushLogsData e ld db =
  txInsert (Errorf "PrepareContext:") (logs_insertSQL e) (logRows ld) db.
Proof.
  unfold pushLogsData, txInsert. apply doWithTx_ext. intros d.
  destruct (PrepareContext (logs_insertSQL e) d) as [[err|] tx1]; [reflexivity|].
  cbv zeta. unfold logRows.
  rewrite <- (forRange_flat_map (execRow (logs_insertSQL e))).
  erewrite forRange_ext; [reflexivity|].
  intros logs tx.
  apply (forRange_nested (execRow (logs_insertSQL e))
           (fun scopeLogs =>
              logArgs (GetServiceName (rl_ResourceAttributes logs))
                      (rl_SchemaUrl logs)
                      (AttributesToJSON (rl_ResourceAttributes logs))
                      (sl_SchemaUrl scopeLogs)
                      (scope_Name (sl_Scope scopeLogs))
                      (scope_Version (sl_Scope scopeLogs))
                      (AttributesToJSON (scope_Attributes (sl_Scope scopeLogs))))).
Qed.



End Transactions.

Lemma execRows_accepting (statement : string) (rows : list (list SqlVal)) (db : DB) :
  accepting db ->
  forRange (execRow statement) rows db =
  (None,
   mkDB (driver db) (committed db) (txRows db ++ map (pair statement) rows) (txDone db)
     (oplog db ++ map (okExec statement) rows)).
Proof.
  revert db. induction rows as [|a r IH]; intros db Hacc.
  - cbn. rewrite !app_nil_r. destruct db; reflexivity.
  - cbn [forRange]. rewrite execRow_step, Hacc. rewrite IH by exact Hacc.
    cbn. rewrite <- !app_assoc. reflexivity.
Qed.

Lemma txInsert_accepting (wrapPrepare : error -> error) (statement : string)
  (rows : list (list SqlVal)) (db : DB) :
  accepting db ->
  txInsert wrapPrepare statement rows db =
  (None,
   mkDB (driver db) (committed db ++ map (pair statement) rows) [] true
     (oplog db ++
      [(OpBegin, None); (OpPrepare statement, None)] ++
      map (okExec statement) rows ++
      [(OpStmtClose statement, None); (OpCommit, None)])).
Proof.
  intros Hacc. unfold txInsert, doWithTx, Begin, call. rewrite Hacc. run_store.
  rewrite Hacc. rewrite execRows_accepting by exact Hacc.
  run_store. rewrite !Hacc. run_store. rewrite <- ?app_assoc. reflexivity.
Qed.

Section Atomicity.

Context {encoder : AttributeEncoder} {fallback : ServiceNameFallback}.


End Atomicity.


(** ** Accumulators *)

Section Accumulators.

Context {encoder : AttributeEncoder} {fallback : ServiceNameFallback}.


(** The row count stays in step with the data points held: the empty
    accumulator is counted, and every [Add] keeps it so. *)
Lemma counted_empty {P D : Type} (points : P -> list D) (statement : string) :
  counted points (mkMetrics [] statement 0).
Proof. reflexivity. Qed.

Lemma counted_appendModel {P D : Type} (points : P -> list D) (s : metrics P) (m : model P) :
  counted points s ->
  counted points (appendModel s (List.length (points (payload m))) m).
Proof.
  unfold counted, appendModel. cbn [count models]. intros H.
  rewrite flat_map_app, length_app. cbn [flat_map]. rewrite app_nil_r. lia.
Qed.

Lemma Add_keeps_counted (resAttr : Map) (resURL : string) (scopeInstr : InstrumentationScope)
  (scopeURL : string) (m : any) (name description unit : string) :
  (forall s, counted sum_DataPoints s ->
     counted sum_DataPoints
       (snd (sumMetrics_Add s resAttr resURL scopeInstr scopeURL m name description unit))) /\
  (forall s, counted gauge_DataPoints s ->
     counted gauge_DataPoints
       (snd (gaugeMetrics_Add s resAttr resURL scopeInstr scopeURL m name description unit))) /\
  (forall s, counted histogram_DataPoints s ->
     counted histogram_DataPoints
       (snd (histogramMetrics_Add s resAttr resURL scopeInstr scopeURL m name description
               unit))) /\
  (forall s, counted exphistogram_DataPoints s ->
     counted exphistogram_DataPoints
       (snd (expHistogramMetrics_Add s resAttr resURL scopeInstr scopeURL m name description
               unit))) /\
  (forall s, counted summary_DataPoints s ->
     counted summary_DataPoints
       (snd (summaryMetrics_Add s resAttr resURL scopeInstr scopeURL m name description unit))).
Proof.
  repeat split; intros s H; destruct m; cbn [snd sumMetrics_Add gaugeMetrics_Add
    histogramMetrics_Add expHistogramMetrics_Add summaryMetrics_Add]; try exact H;
    match goal with
    | |- counted ?points (appendModel _ _ (newModel _ _ _ _ ?p _ _ _)) =>
        exact (counted_appendModel points s (newModel resAttr resURL scopeInstr scopeURL p
                                               name description unit) H)
    end.
Qed.

(** C9. For each of the five metrics groups, [insert] on an accumulator
    whose row count is zero returns success at once and leaves the store as
    it was: no transaction is opened, no statement prepared, nothing
    executed, and the log of calls does not grow. *)
Theorem empty_group_insert_touches_nothing (db : DB) :
  (forall s : sumMetrics, count s = 0 -> sumMetrics_insert s db = (None, db)) /\
  (forall g : gaugeMetrics, count g = 0 -> gaugeMetrics_insert g db = (None, db)) /\
  (forall h : histogramMetrics, count h = 0 -> histogramMetrics_insert h db = (None, db)) /\
  (forall e : expHistogramMetrics, count e = 0 ->
     expHistogramMetrics_insert e db = (None, db)) /\
  (forall s : summaryMetrics, count s = 0 -> summaryMetrics_insert s db = (None, db)).
Proof.
  repeat split; intros s H;
    unfold sumMetrics_insert, gaugeMetrics_insert, histogramMetrics_insert,
      expHistogramMetrics_insert, summaryMetrics_insert;
    rewrite H; reflexivity.
Qed.

End Accumulators.

Lemma empty_group_insert_touches_nothing_witness :
  count (mkMetrics (P := Sum) [] (Sprintf insertSumTableSQL ["otel_metrics_sum"]) 0) = 0 /\
  @sumMetrics_insert sampleEncoder sampleFallback
    (mkMetrics [] (Sprintf insertSumTableSQL ["otel_metrics_sum"]) 0) failingStore =
  (None, failingStore).
Proof.
  split; [reflexivity|].
  apply (@empty_group_insert_touches_nothing sampleEncoder sampleFallback failingStore).
  reflexivity.
Defined.

(** ** End-to-end scenarios *)

Lemma convertExemplars_nil {encoder : AttributeEncoder} :
  convertExemplars [] = ([], [], [], [], []).
Proof. reflexivity. Qed.

Section SumScenario.

Context {encoder : AttributeEncoder} {fallback : ServiceNameFallback}.

Lemma scenario_row_columns (m : sumModel) (dp : NumberDataPoint) (value : float64) :
  Map_Get (ResAttr (metadata m)) ServiceNameKey = Some (ValueStr "api") ->
  metricName m = "requests_total" ->
  sum_IsMonotonic (payload m) = true ->
  sum_AggregationTemporality (payload m) = AggregationTemporalityCumulative ->
  ndp_Exemplars dp = [] ->
  ndp_ValueType dp = ValueTypeDouble ->
  ndp_DoubleValue dp = value ->
  scenarioRow value (named insertSumTableSQL (rowOf sumArgs m dp)).
Proof.
  intros Hsvc Hname Hmono Htemp Hex Hty Hval.
  unfold named, rowOf, sumArgs, metricPrefix, GetServiceName.
  rewrite insertSum_columns, Hex, convertExemplars_nil, Hsvc, Hname, Hmono, Htemp, Hty, Hval.
  repeat split.
Qed.

(** C3. One resource whose service-name attribute is "api", one scope, one
    Sum metric named "requests_total", monotonic and cumulative, with two
    data points of values 1.0 and 2.0 and no exemplars: added to an empty sum
    accumulator and inserted into a store that accepts every call, the push
    executes exactly two rows with the sum insert statement and commits
    them; each row carries ServiceName "api", MetricName "requests_total",
    IsMonotonic true, AggregationTemporality 2 (the cumulative ordinal) and
    five empty exemplar arrays, the first the value 1.0 and the second the
    value 2.0. *)
Theorem sum_scenario (table : string) (db : DB) (resAttr : Map)
  (resURL scopeURL description unit : string) (scopeInstr : InstrumentationScope)
  (dp1 dp2 : NumberDataPoint) :
  accepting db ->
  Map_Get resAttr ServiceNameKey = Some (ValueStr "api") ->
  ndp_ValueType dp1 = ValueTypeDouble -> ndp_DoubleValue dp1 = float64_one ->
  ndp_ValueType dp2 = ValueTypeDouble -> ndp_DoubleValue dp2 = float64_two ->
  ndp_Exemplars dp1 = [] -> ndp_Exemplars dp2 = [] ->
  let statement := Sprintf insertSumTableSQL [table] in
  exists (s : sumMetrics) (row1 row2 : list SqlVal) (new : list event),
    sumMetrics_Add (mkMetrics [] statement 0) resAttr resURL scopeInstr scopeURL
      (AnySum (mkSum [dp1; dp2] AggregationTemporalityCumulative true))
      "requests_total" description unit = (None, s) /\
    fst (sumMetrics_insert s db) = None /\
    oplog (snd (sumMetrics_insert s db)) = oplog db ++ new /\
    execArgs new = [row1; row2] /\
    (forall q a o, In (OpExec q a, o) new -> q = statement /\ o = None) /\
    committed (snd (sumMetrics_insert s db)) =
      committed db ++ [(statement, row1); (statement, row2)] /\
    scenarioRow float64_one (named insertSumTableSQL row1) /\
    scenarioRow float64_two (named insertSumTableSQL row2) /\
    AggregationTemporalityCumulative = 2.
Proof.
  intros Hacc Hsvc Hty1 Hv1 Hty2 Hv2 Hex1 Hex2 statement.
  set (sum := mkSum [dp1; dp2] AggregationTemporalityCumulative true).
  set (m := newModel resAttr resURL scopeInstr scopeURL sum "requests_total" description unit).
  exists (mkMetrics [m] statement 2), (rowOf sumArgs m dp1), (rowOf sumArgs m dp2).
  eexists. split; [reflexivity|].
  unfold sumMetrics_insert. cbn [count Z.eqb insertSQL].
  rewrite metricTxBody_rows, (txInsert_accepting _ _ _ _ Hacc).
  cbn [wrapFail fst snd oplog committed].
  split; [reflexivity|]. split; [reflexivity|].
  change (metricRows sum_DataPoints sumArgs (mkMetrics [m] statement 2))
    with [rowOf sumArgs m dp1; rowOf sumArgs m dp2].
  split; [rewrite !execArgs_app, execArgs_okExec; reflexivity|].
  split.
  { intros q a o H. rewrite !in_app_iff in H. destruct H as [H|[H|H]].
    - cbn [In] in H. destruct H as [H|[H|[]]]; discriminate H.
    - apply In_okExec in H. destruct H as (Ho & a' & Ha).
      injection Ha as Hq _. split; assumption.
    - cbn [In] in H. destruct H as [H|[H|[]]]; discriminate H. }
  split; [reflexivity|].
  split; [apply scenario_row_columns;
          [exact Hsvc|reflexivity|reflexivity|reflexivity|exact Hex1|exact Hty1|exact Hv1]|].
  split; [apply scenario_row_columns;
          [exact Hsvc|reflexivity|reflexivity|reflexivity|exact Hex2|exact Hty2|exact Hv2]|].
  reflexivity.
Qed.

End SumScenario.

Lemma sum_scenario_witness :
  accepting emptyStore /\
  exists row1 row2 : list SqlVal,
    committed
      (snd (@sumMetrics_insert sampleEncoder sampleFallback sampleSumMetrics emptyStore)) =
    [(Sprintf insertSumTableSQL ["otel_metrics_sum"], row1);
     (Sprintf insertSumTableSQL ["otel_metrics_sum"], row2)] /\
    scenarioRow float64_one (named insertSumTableSQL row1) /\
    scenarioRow float64_two (named insertSumTableSQL row2).
Proof.
  assert (Hacc : accepting emptyStore) by (intros log op; reflexivity).
  split; [exact Hacc|].
  destruct (@sum_scenario sampleEncoder sampleFallback "otel_metrics_sum" emptyStore
              sampleResource "" "" "" "1" sampleScope
              (samplePoint float64_one) (samplePoint float64_two)
              Hacc eq_refl eq_refl eq_refl eq_refl eq_refl eq_refl eq_refl)
    as (s & row1 & row2 & new & Hadd & _ & _ & _ & _ & Hcommit & Hrow1 & Hrow2 & _).
  inversion Hadd; subst s.
  exists row1, row2. split; [exact Hcommit|]. split; [exact Hrow1|exact Hrow2].
Defined.

(** ** Span duration and log timestamp *)

Lemma to_int64_small (x : Z) : 0 <= x < 2 ^ 63 -> to_int64 x = x.
Proof.
  intros H. unfold to_int64. rewrite Z.mod_small; lia.
Qed.

Lemma Time_Sub_range (t u : Time) : int64_min <= Time_Sub t u <= int64_max.
Proof.
  unfold Time_Sub, int64_min, int64_max.
  destruct (Z.ltb_spec (t - u) (- 2 ^ 63)); [lia|].
  destruct (Z.ltb_spec (2 ^ 63 - 1) (t - u)); lia.
Qed.

Lemma Time_Sub_exact (t u : Z) :
  0 <= t < 2 ^ 63 -> 0 <= u < 2 ^ 63 -> Time_Sub (AsTime t) (AsTime u) = t - u.
Proof.
  intros Ht Hu. unfold AsTime. rewrite !to_int64_small by assumption.
  unfold Time_Sub, int64_min, int64_max.
  destruct (Z.ltb_spec (t - u) (- 2 ^ 63)); [lia|].
  destruct (Z.ltb_spec (2 ^ 63 - 1) (t - u)); lia.
Qed.

Section DurationAndTimestamp.

Context {encoder : AttributeEncoder} {fallback : ServiceNameFallback}.

(** C4, as amended.  For every span, the Duration argument bound by
    [pushTraceData] is the result of [Time.Sub] on the end and start times,
    a signed 64-bit number of nanoseconds.  It equals end minus start and is
    not negative when the start does not come after the end; it equals end
    minus start and is negative when the end precedes the start (timestamps
    below 2^63).  The exporter does not inspect it: on a store that accepts
    every call the push succeeds and commits the row of every span. *)
Theorem span_duration_is_signed_difference
  (spans : ResourceSpans) (scopeSpans : ScopeSpans) (r : Span) :
  let stored :=
    named insertTracesSQLTemplate
      (spanArgs (GetServiceName (rs_ResourceAttributes spans))
                (AttributesToJSON (rs_ResourceAttributes spans))
                (scope_Name (ss_Scope scopeSpans))
                (scope_Version (ss_Scope scopeSpans)) r) in
  let d := Time_Sub (AsTime (span_EndTimestamp r)) (AsTime (span_StartTimestamp r)) in
  column "Duration" stored = Some (VInt64 d) /\
  int64_min <= d <= int64_max /\
  (0 <= span_StartTimestamp r <= span_EndTimestamp r -> span_EndTimestamp r < 2 ^ 63 ->
   d = span_EndTimestamp r - span_StartTimestamp r /\ 0 <= d) /\
  (0 <= span_EndTimestamp r < span_StartTimestamp r -> span_StartTimestamp r < 2 ^ 63 ->
   d = span_EndTimestamp r - span_StartTimestamp r /\ d < 0) /\
  (forall (e : tracesExporter) (td : Traces) (db : DB),
     accepting db ->
     fst (pushTraceData e td db) = None /\
     committed (snd (pushTraceData e td db)) =
     committed db ++ map (pair (traces_insertSQL e)) (traceRows td)).
Proof.
  intros stored d.
  split.
  { pose proof (rows_stored_in_column_order SpansSignal spans scopeSpans r) as H.
    cbn beta in H.
    destruct (convertEvents (span_Events r)) as [[eventTimes eventNames] eventAttrs].
    destruct (convertLinks (span_Links r)) as [[[lt ls] lst] la].
    subst stored. rewrite H. reflexivity. }
  split; [apply Time_Sub_range|].
  split.
  { intros H1 H2. subst d. rewrite Time_Sub_exact by lia. lia. }
  split.
  { intros H1 H2. subst d. rewrite Time_Sub_exact by lia. lia. }
  intros e td db Hacc.
  rewrite pushTraceData_rows, (txInsert_accepting _ _ _ _ Hacc). split; reflexivity.
Qed.

(** C6.  For every log record, the Timestamp column of the row bound by
    [pushLogsData] is the record's own timestamp when that is not zero and
    the observed timestamp when it is zero, whatever the observed timestamp
    is: when both are zero the column holds the zero time.  On a store that
    accepts every call these rows are the ones committed. *)
Theorem log_timestamp_fallback (logs : ResourceLogs) (scopeLogs : ScopeLogs) (r : LogRecord) :
  let stored :=
    named insertLogsSQLTemplate
      (logArgs (GetServiceName (rl_ResourceAttributes logs))
               (rl_SchemaUrl logs)
               (AttributesToJSON (rl_ResourceAttributes logs))
               (sl_SchemaUrl scopeLogs)
               (scope_Name (sl_Scope scopeLogs))
               (scope_Version (sl_Scope scopeLogs))
               (AttributesToJSON (scope_Attributes (sl_Scope scopeLogs))) r) in
  (log_Timestamp r <> 0 ->
   column "Timestamp" stored = Some (VTime (AsTime (log_Timestamp r)))) /\
  (log_Timestamp r = 0 ->
   column "Timestamp" stored = Some (VTime (AsTime (log_ObservedTimestamp r)))) /\
  (log_Timestamp r = 0 -> log_ObservedTimestamp r = 0 ->
   column "Timestamp" stored = Some (VTime 0)) /\
  (forall (e : logsExporter) (ld : Logs) (db : DB),
     accepting db ->
     fst (pushLogsData e ld db) = None /\
     committed (snd (pushLogsData e ld db)) =
     committed db ++ map (pair (logs_insertSQL e)) (logRows ld)).
Proof.
  intros stored.
  assert (H : column "Timestamp" stored = Some (VTime (AsTime (logTimestamp r)))).
  { subst stored. rewrite (rows_stored_in_column_order LogsSignal logs scopeLogs r).
    reflexivity. }
  unfold logTimestamp in H.
  split.
  { intros Hnz. rewrite H. destruct (Z.eqb_spec (log_Timestamp r) 0); [contradiction|].
    reflexivity. }
  split.
  { intros Hz. rewrite H, Hz. reflexivity. }
  split.
  { intros Hz Ho. rewrite H, Hz, Ho. reflexivity. }
  intros e ld db Hacc.
  rewrite pushLogsData_rows, (txInsert_accepting _ _ _ _ Hacc). split; reflexivity.
Qed.

End DurationAndTimestamp.

(** C4 as stated fails: the push of a span whose end precedes its start
    succeeds, and the row it commits has a negative Duration. *)
Lemma negative_duration_is_stored :
  span_EndTimestamp backwardsSpan < span_StartTimestamp backwardsSpan /\
  exists row : list SqlVal,
    @pushTraceData sampleEncoder sampleFallback (newTracesExporter sampleConfig)
      backwardsTraces emptyStore =
    (None,
     mkDB (driver emptyStore) [(renderInsertTracesSQL sampleConfig, row)] [] true
       [(OpBegin, None);
        (OpPrepare (renderInsertTracesSQL sampleConfig), None);
        (OpExec (renderInsertTracesSQL sampleConfig) row, None);
        (OpStmtClose (renderInsertTracesSQL sampleConfig), None);
        (OpCommit, None)]) /\
    column "Duration" (named insertTracesSQLTemplate row) = Some (VInt64 (-5)).
Proof.
  split; [reflexivity|].
  eexists. split; [vm_compute; reflexivity|]. vm_compute. reflexivity.
Qed.

Lemma span_duration_is_signed_difference_witness :
  column "Duration"
    (named insertTracesSQLTemplate
       (@spanArgs sampleEncoder "api" "{}" "scope" "v1" forwardSpan)) =
  Some (VInt64 5000000) /\
  column "ParentSpanId"
    (named insertTracesSQLTemplate
       (@spanArgs sampleEncoder "api" "{}" "scope" "v1" forwardSpan)) =
  Some (VString "") /\
  accepting emptyStore /\
  fst (@pushTraceData sampleEncoder sampleFallback (newTracesExporter sampleConfig)
         backwardsTraces emptyStore) = None.
Proof.
  destruct (@span_duration_is_signed_difference sampleEncoder sampleFallback
              (mkResourceSpans sampleResource []) (mkScopeSpans sampleScope []) forwardSpan)
    as (Hcol & _ & Hfwd & _ & Hpush).
  assert (Hacc : accepting emptyStore) by (intros log op; reflexivity).
  assert (H1 : 0 <= span_StartTimestamp forwardSpan <= span_EndTimestamp forwardSpan)
    by (cbn; lia).
  assert (H2 : span_EndTimestamp forwardSpan < 2 ^ 63) by reflexivity.
  destruct (Hfwd H1 H2) as [Hd _].
  split.
  { refine (eq_trans Hcol _). apply (f_equal (fun z => Some (VInt64 z))). exact Hd. }
  split; [reflexivity|]. split; [exact Hacc|].
  apply (Hpush (newTracesExporter sampleConfig) backwardsTraces emptyStore Hacc).
Defined.

Lemma log_timestamp_fallback_witness :
  log_Timestamp zeroTimestampRecord = 0 /\
  column "Timestamp"
    (named insertLogsSQLTemplate
       (@logArgs sampleEncoder "api" "" "{}" "" "scope" "v1" "{}" zeroTimestampRecord)) =
  Some (VTime 1700000000000000123).
Proof.
  split; [reflexivity|].
  destruct (@log_timestamp_fallback sampleEncoder sampleFallback
              (mkResourceLogs sampleResource "" []) (mkScopeLogs sampleScope "" [])
              zeroTimestampRecord) as (_ & Hz & _).
  exact (Hz eq_refl).
Defined.

(** ** The trace-id time-range view *)

Lemma groupInsert_ids (t : string) (ts : Time) (groups : list TraceIDTs) (g : TraceIDTs) :
  In g (groupInsert t ts groups) ->
  ts_TraceId g = t \/ In g groups.
Proof.
  induction groups as [|g0 r IH]; cbn [groupInsert].
  - intros [<-|[]]. left. reflexivity.
  - destruct (String.eqb (ts_TraceId g0) t).
    + intros [<-|H]; [left; reflexivity|right; right; exact H].
    + intros [<-|H]; [right; left; reflexivity|].
      destruct (IH H) as [H'|H']; [left; exact H'|right; right; exact H'].
Qed.

Lemma view_fold_ids (rows : list SpanRow) (groups : list TraceIDTs) (g : TraceIDTs) :
  In g (fold_left
          (fun groups row => groupInsert (row_TraceId row) (row_Timestamp row) groups)
          rows groups) ->
  In g groups \/ exists row, In row rows /\ ts_TraceId g = row_TraceId row.
Proof.
  revert groups. induction rows as [|row r IH]; intros groups; cbn [fold_left].
  - intros H. left. exact H.
  - intros H. destruct (IH _ H) as [H'|(row' & Hin & Hid)].
    + destruct (groupInsert_ids _ _ _ _ H') as [Hid|Hg].
      * right. exists row. split; [left; reflexivity|exact Hid].
      * left. exact Hg.
    + right. exists row'. split; [right; exact Hin|exact Hid].
Qed.

Lemma view_ids_not_empty (block : list SpanRow) :
  Forall (fun g => ts_TraceId g <> "") (traceIDTsView block).
Proof.
  apply Forall_forall. intros g H. unfold traceIDTsView in H.
  apply view_fold_ids in H. destruct H as [[]|(row & Hin & Hid)].
  apply filter_In in Hin. destruct Hin as (_ & Hne).
  rewrite Hid. intros He. rewrite He in Hne. discriminate Hne.
Qed.

Lemma view_ignores_empty_id (block1 block2 : list SpanRow) (row : SpanRow) :
  row_TraceId row = "" ->
  traceIDTsView (block1 ++ row :: block2) = traceIDTsView (block1 ++ block2).
Proof.
  intros H. unfold traceIDTsView. rewrite !filter_app. cbn [filter].
  rewrite H. reflexivity.
Qed.

Lemma groupInsert_covers (t : string) (ts : Time) (groups : list TraceIDTs) :
  exists g, In g (groupInsert t ts groups) /\
            ts_TraceId g = t /\ ts_Start g <= ts <= ts_End g.
Proof.
  induction groups as [|g0 r IH]; cbn [groupInsert].
  - eexists. split; [left; reflexivity|]. cbn. split; [reflexivity|lia].
  - destruct (String.eqb (ts_TraceId g0) t).
    + eexists. split; [left; reflexivity|]. cbn. split; [reflexivity|lia].
    + destruct IH as (g & Hin & Hg). exists g. split; [right; exact Hin|exact Hg].
Qed.

Lemma groupInsert_keeps (t : string) (ts : Time) (groups : list TraceIDTs) (g : TraceIDTs) :
  In g groups ->
  exists g', In g' (groupInsert t ts groups) /\
             ts_TraceId g' = ts_TraceId g /\
             ts_Start g' <= ts_Start g /\ ts_End g <= ts_End g'.
Proof.
  induction groups as [|g0 r IH]; [intros []|]. cbn [groupInsert].
  intros [<-|H].
  - destruct (String.eqb_spec (ts_TraceId g0) t) as [E|E].
    + eexists. split; [left; reflexivity|]. cbn. split; [symmetry; exact E|lia].
    + exists g0. split; [left; reflexivity|]. split; [reflexivity|lia].
  - destruct (String.eqb (ts_TraceId g0) t).
    + exists g. split; [right; exact H|]. split; [reflexivity|lia].
    + destruct (IH H) as (g' & Hin & Hg). exists g'. split; [right; exact Hin|exact Hg].
Qed.

Lemma view_fold_keeps (rows : list SpanRow) (groups : list TraceIDTs) (g : TraceIDTs) :
  In g groups ->
  exists g', In g' (fold_left
                      (fun groups row =>
                         groupInsert (row_TraceId row) (row_Timestamp row) groups)
                      rows groups) /\
             ts_TraceId g' = ts_TraceId g /\
             ts_Start g' <= ts_Start g /\ ts_End g <= ts_End g'.
Proof.
  revert groups g. induction rows as [|row r IH]; intros groups g H; cbn [fold_left].
  - exists g. split; [exact H|]. split; [reflexivity|lia].
  - destruct (groupInsert_keeps (row_TraceId row) (row_Timestamp row) groups g H)
      as (g1 & Hin1 & Hid1 & Hs1 & He1).
    destruct (IH _ g1 Hin1) as (g2 & Hin2 & Hid2 & Hs2 & He2).
    exists g2. split; [exact Hin2|]. split; [congruence|lia].
Qed.

Lemma view_fold_covers (rows : list SpanRow) (groups : list TraceIDTs) (row : SpanRow) :
  In row rows ->
  exists g, In g (fold_left
                    (fun groups row =>
                       groupInsert (row_TraceId row) (row_Timestamp row) groups)
                    rows groups) /\
            ts_TraceId g = row_TraceId row /\
            ts_Start g <= row_Timestamp row <= ts_End g.
Proof.
  revert groups. induction rows as [|row0 r IH]; intros groups; [intros []|].
  cbn [fold_left]. intros [->|H].
  - destruct (groupInsert_covers (row_TraceId row) (row_Timestamp row) groups)
      as (g1 & Hin1 & Hid1 & Hb1).
    destruct (view_fold_keeps r _ g1 Hin1) as (g2 & Hin2 & Hid2 & Hs2 & He2).
    exists g2. split; [exact Hin2|]. split; [congruence|lia].
  - apply IH. exact H.
Qed.

Lemma view_covers_nonempty_id (block : list SpanRow) (row : SpanRow) :
  In row block -> row_TraceId row <> "" ->
  exists g, In g (traceIDTsView block) /\
            ts_TraceId g = row_TraceId row /\
            ts_Start g <= row_Timestamp row <= ts_End g.
Proof.
  intros Hin Hne. unfold traceIDTsView. apply view_fold_covers.
  apply filter_In. split; [exact Hin|].
  destruct (String.eqb_spec (row_TraceId row) ""); [contradiction|reflexivity].
Qed.

Section TraceIdView.

Context {encoder : AttributeEncoder} {clauses : ConfigClauses}.

Lemma zero_trace_id_row (serviceName resAttr scopeName scopeVersion : string) (r : Span) :
  Forall (eq Byte.x00) (span_TraceID r) ->
  row_TraceId (spanRowOf (spanArgs serviceName resAttr scopeName scopeVersion r)) = "".
Proof.
  intros H. apply HexOrEmpty_zero in H. destruct H as [_ H].
  unfold spanRowOf, named, spanArgs.
  destruct (convertEvents (span_Events r)) as [[eventTimes eventNames] eventAttrs].
  destruct (convertLinks (span_Links r)) as [[[lt ls] lst] la].
  rewrite insertTraces_columns, H. reflexivity.
Qed.

(** C10.  For every configuration the rendered DDL of the materialized view
    selects [TraceId], [min(Timestamp)] and [max(Timestamp)] from the spans
    table [WHERE TraceId != ''], grouped by [TraceId], into the companion
    table.  Evaluated over any block of span rows, that query yields no
    group with an empty trace id, is unchanged by adding or removing a row
    whose trace id is empty, and yields for every row with a non-empty trace
    id a group of that id whose range contains the row's time.  The row of
    a span whose trace id is all zero has the empty [TraceId], so such a
    span is never represented in the companion table. *)
Theorem trace_id_view_skips_empty_trace_ids :
  (forall cfg : Config,
     renderTraceIDTsMaterializedViewSQL cfg =
     "
CREATE MATERIALIZED VIEW IF NOT EXISTS " +++ TracesTableName cfg +++
    "_trace_id_ts_mv " +++ clusterString cfg +++
    "
TO " +++ Database cfg +++
    "." +++ TracesTableName cfg +++
    "_trace_id_ts
AS SELECT
	TraceId,
	min(Timestamp) as Start,
	max(Timestamp) as End
FROM
" +++ Database cfg +++
    "." +++ TracesTableName cfg +++
    "
WHERE TraceId != ''
GROUP BY TraceId;
") /\
  (forall block : list SpanRow,
     Forall (fun g => ts_TraceId g <> "") (traceIDTsView block)) /\
  (forall (block1 block2 : list SpanRow) (row : SpanRow),
     row_TraceId row = "" ->
     traceIDTsView (block1 ++ row :: block2) = traceIDTsView (block1 ++ block2)) /\
  (forall (block : list SpanRow) (row : SpanRow),
     In row block -> row_TraceId row <> "" ->
     exists g, In g (traceIDTsView block) /\
               ts_TraceId g = row_TraceId row /\
               ts_Start g <= row_Timestamp row <= ts_End g) /\
  (forall (serviceName resAttr scopeName scopeVersion : string) (r : Span)
          (rows1 rows2 : list (list SqlVal)),
     Forall (eq Byte.x00) (span_TraceID r) ->
     column "TraceId"
       (named insertTracesSQLTemplate
          (spanArgs serviceName resAttr scopeName scopeVersion r)) = Some (VString "") /\
     traceIDTsView
       (map spanRowOf
          (rows1 ++ spanArgs serviceName resAttr scopeName scopeVersion r :: rows2)) =
     traceIDTsView (map spanRowOf (rows1 ++ rows2))).
Proof.
  split; [intros cfg; reflexivity|].
  split; [exact view_ids_not_empty|].
  split; [exact view_ignores_empty_id|].
  split; [exact view_covers_nonempty_id|].
  intros serviceName resAttr scopeName scopeVersion r rows1 rows2 H.
  split.
  - apply HexOrEmpty_zero in H. destruct H as [_ H].
    unfold named, spanArgs.
    destruct (convertEvents (span_Events r)) as [[eventTimes eventNames] eventAttrs].
    destruct (convertLinks (span_Links r)) as [[[lt ls] lst] la].
    rewrite insertTraces_columns, H. reflexivity.
  - rewrite !map_app. cbn [map]. apply view_ignores_empty_id.
    apply zero_trace_id_row. exact H.
Qed.

End TraceIdView.

Lemma trace_id_view_skips_empty_trace_ids_witness :
  Forall (eq Byte.x00) (span_TraceID zeroTraceSpan) /\
  traceIDTsView
    (map spanRowOf
       [@spanArgs sampleEncoder "api" "{}" "scope" "v1" forwardSpan;
        @spanArgs sampleEncoder "api" "{}" "scope" "v1" zeroTraceSpan]) =
  [mkTraceIDTs "00010203abcdefff00010203abcdefff" 1700000000000000000 1700000000000000000].
Proof.
  assert (Hz : Forall (eq Byte.x00) (span_TraceID zeroTraceSpan)).
  { cbn. repeat constructor. }
  split; [exact Hz|].
  destruct (@trace_id_view_skips_empty_trace_ids sampleEncoder sampleClauses)
    as (_ & _ & _ & _ & Hspan).
  destruct (Hspan "api" "{}" "scope" "v1" zeroTraceSpan
              [@spanArgs sampleEncoder "api" "{}" "scope" "v1" forwardSpan] [] Hz)
    as (_ & Hview).
  cbn [app] in Hview. rewrite Hview. vm_compute. reflexivity.
Defined.

(** * Further properties of the exporter *)

(** ** Identifiers keep their identity *)

Lemma all_zero_equal (a b : list Byte.byte) :
  Forall (eq Byte.x00) a -> Forall (eq Byte.x00) b -> List.length a = List.length b -> a = b.
Proof.
  revert b. induction a as [|x a IH]; intros [|y b] Ha Hb Hl; try discriminate Hl.
  - reflexivity.
  - inversion Ha; inversion Hb; subst. f_equal. apply IH; auto.
Qed.

Lemma HexOrEmpty_injective (a b : list Byte.byte) :
  List.length a = List.length b -> (0 < List.length a)%nat ->
  TraceIDToHexOrEmptyString a = TraceIDToHexOrEmptyString b -> a = b.
Proof.
  intros Hl Hpos. unfold TraceIDToHexOrEmptyString.
  destruct (IsEmpty a) eqn:Ea, (IsEmpty b) eqn:Eb; intros H.
  - apply all_zero_equal; [apply IsEmpty_all_zero, Ea|apply IsEmpty_all_zero, Eb|exact Hl].
  - apply (f_equal String.length) in H. rewrite EncodeToString_length in H.
    cbn in H. lia.
  - apply (f_equal String.length) in H. rewrite EncodeToString_length in H.
    cbn in H. lia.
  - apply (f_equal DecodeString) in H. rewrite !Decode_Encode in H.
    injection H as H. exact H.
Qed.

(** X1. Two trace ids of 16 bytes with the same encoding are the same
    trace id, and so for span ids of 8 bytes: the all-zero identifier is the
    only one encoded as the empty string, and no two identifiers share their
    hexadecimal text. *)
Theorem identifier_encoding_is_injective (t1 t2 : TraceID) (s1 s2 : SpanID) :
  wf_TraceID t1 -> wf_TraceID t2 -> wf_SpanID s1 -> wf_SpanID s2 ->
  (TraceIDToHexOrEmptyString t1 = TraceIDToHexOrEmptyString t2 -> t1 = t2) /\
  (SpanIDToHexOrEmptyString s1 = SpanIDToHexOrEmptyString s2 -> s1 = s2) /\
  (TraceIDToHexOrEmptyString t1 = "" -> t1 = zeroTraceID) /\
  (SpanIDToHexOrEmptyString s1 = "" -> s1 = zeroSpanID).
Proof.
  unfold wf_TraceID, wf_SpanID. intros Ht1 Ht2 Hs1 Hs2.
  split; [apply HexOrEmpty_injective; lia|].
  split; [apply (HexOrEmpty_injective s1 s2); lia|].
  split.
  - intros H. apply (HexOrEmpty_injective t1 zeroTraceID); [rewrite Ht1; reflexivity|lia|].
    rewrite H. reflexivity.
  - intros H. apply (HexOrEmpty_injective s1 zeroSpanID); [rewrite Hs1; reflexivity|lia|].
    change (SpanIDToHexOrEmptyString s1 = SpanIDToHexOrEmptyString zeroSpanID).
    rewrite H. reflexivity.
Qed.

Lemma identifier_encoding_is_injective_witness :
  wf_TraceID sampleTraceID /\ wf_TraceID zeroTraceID /\
  wf_SpanID zeroSpanID /\ wf_SpanID sampleSpanID /\
  SpanIDToHexOrEmptyString zeroSpanID = "" /\
  (TraceIDToHexOrEmptyString sampleTraceID = TraceIDToHexOrEmptyString zeroTraceID ->
   sampleTraceID = zeroTraceID).
Proof.
  assert (H1 : wf_TraceID sampleTraceID) by reflexivity.
  assert (H2 : wf_TraceID zeroTraceID) by reflexivity.
  assert (H3 : wf_SpanID zeroSpanID) by reflexivity.
  assert (H4 : wf_SpanID sampleSpanID) by reflexivity.
  destruct (identifier_encoding_is_injective sampleTraceID zeroTraceID zeroSpanID sampleSpanID
              H1 H2 H3 H4) as (Hinj & _).
  repeat (split; [assumption|]). split; [reflexivity|exact Hinj].
Defined.

(** ** Nested columns of a span row *)

Section NestedColumns.

Context {encoder : AttributeEncoder}.

(** X2. In every row that [pushTraceData] binds, the three [Events.*]
    columns are arrays with one element per event of the span and the four
    [Links.*] columns are arrays with one element per link, so the arrays of
    each nested column have equal lengths whatever the span holds. *)
Theorem span_nested_columns_have_equal_lengths
  (serviceName resAttr scopeName scopeVersion : string) (r : Span) :
  let stored :=
    named insertTracesSQLTemplate (spanArgs serviceName resAttr scopeName scopeVersion r) in
  exists et en ea lt ls lst la : list SqlVal,
    column "Events.Timestamp" stored = Some (VArray et) /\
    column "Events.Name" stored = Some (VArray en) /\
    column "Events.Attributes" stored = Some (VArray ea) /\
    column "Links.TraceId" stored = Some (VArray lt) /\
    column "Links.SpanId" stored = Some (VArray ls) /\
    column "Links.TraceState" stored = Some (VArray lst) /\
    column "Links.Attributes" stored = Some (VArray la) /\
    List.length et = List.length (span_Events r) /\
    List.length en = List.length (span_Events r) /\
    List.length ea = List.length (span_Events r) /\
    List.length lt = List.length (span_Links r) /\
    List.length ls = List.length (span_Links r) /\
    List.length lst = List.length (span_Links r) /\
    List.length la = List.length (span_Links r).
Proof.
  intros stored. subst stored. unfold named, spanArgs.
  rewrite convertEvents_map, convertLinks_map, insertTraces_columns.
  do 7 eexists.
  repeat (split; [reflexivity|]).
  rewrite !length_map. repeat split.
Qed.

End NestedColumns.

(** ** The rendered insert statements *)

Lemma after_open_skip (p rest : string) :
  noOpenParen p -> Text.after_open (p +++ rest) = Text.after_open rest.
Proof.
  unfold noOpenParen. induction p as [|c p IH]; intros H; [reflexivity|].
  cbn in H. apply andb_prop in H. destruct H as [Hc Hp].
  cbn [String.append Text.after_open].
  destruct (Ascii.eqb c "("); [discriminate Hc|]. apply IH. exact Hp.
Qed.

Lemma columns_by_after_open (a b : string) :
  Text.after_open a = Text.after_open b ->
  Sql.insert_columns a = Sql.insert_columns b /\
  Sql.insert_placeholders a = Sql.insert_placeholders b.
Proof.
  intros H.
  unfold Sql.insert_columns, Sql.insert_placeholders, Text.group_body, Text.group_rest.
  rewrite H. split; reflexivity.
Qed.

Definition noPercent (s : string) : Prop :=
  forallb (fun c => negb (Ascii.eqb c "%")) (list_ascii_of_string s) = true.

Lemma Sprintf_plain_prefix (p rest : string) (args : list string) :
  noPercent p -> Sprintf (p +++ rest) args = p +++ Sprintf rest args.
Proof.
  unfold noPercent. induction p as [|c p IH]; intros H; [reflexivity|].
  cbn in H. apply andb_prop in H. destruct H as [Hc Hp].
  change (String c p +++ rest) with (String c (p +++ rest)).
  change (String c p +++ Sprintf rest args) with (String c (p +++ Sprintf rest args)).
  rewrite <- (IH Hp). cbn [Sprintf].
  destruct (Ascii.eqb c "%"); [discriminate Hc|].
  destruct (p +++ rest); reflexivity.
Qed.

Lemma Sprintf_verb (rest a : string) (args : list string) :
  Sprintf (String "%" (String "s" rest)) (a :: args) = a +++ Sprintf rest args.
Proof. reflexivity. Qed.

Lemma insert_template_shape (t : string) :
  t = "INSERT INTO " +++ String "%" (String "s" (afterVerb t)) ->
  forall table, Sprintf t [table] = "INSERT INTO " +++ table +++ Sprintf (afterVerb t) [].
Proof.
  intros E table. rewrite E at 1.
  rewrite Sprintf_plain_prefix by reflexivity. rewrite Sprintf_verb. reflexivity.
Qed.

Lemma render_traces_text (table : string) :
  Sprintf (ReplaceAll insertTracesSQLTemplate "'" backquote) [table] =
  "INSERT INTO " +++ table +++ Sprintf (afterVerb insertTracesSQLTemplate) [].
Proof.
  assert (R : ReplaceAll insertTracesSQLTemplate "'" backquote = insertTracesSQLTemplate)
    by (vm_compute; reflexivity).
  rewrite R. apply insert_template_shape. vm_compute. reflexivity.
Qed.

Lemma render_logs_text (table : string) :
  Sprintf insertLogsSQLTemplate [table] =
  "INSERT INTO " +++ table +++ Sprintf (afterVerb insertLogsSQLTemplate) [].
Proof. apply insert_template_shape. vm_compute. reflexivity. Qed.

(** X3. For every configuration whose table names contain no opening
    parenthesis, the insert statements that the exporters prepare are
    [INSERT INTO] the configured table followed by the text of the template,
    and they list the same columns and placeholders as the templates: the
    substitution of the table name and the replacement of quotes leave the
    column list untouched. *)
Theorem rendered_insert_keeps_columns (cfg : Config) :
  noOpenParen (TracesTableName cfg) -> noOpenParen (LogsTableName cfg) ->
  renderInsertTracesSQL cfg =
    "INSERT INTO " +++ TracesTableName cfg +++ Sprintf (afterVerb insertTracesSQLTemplate) [] /\
  renderInsertLogsSQL cfg =
    "INSERT INTO " +++ LogsTableName cfg +++ Sprintf (afterVerb insertLogsSQLTemplate) [] /\
  Sql.insert_columns (traces_insertSQL (newTracesExporter cfg)) =
    Sql.insert_columns insertTracesSQLTemplate /\
  Sql.insert_placeholders (traces_insertSQL (newTracesExporter cfg)) =
    Sql.insert_placeholders insertTracesSQLTemplate /\
  Sql.insert_columns (logs_insertSQL (newLogsExporter cfg)) =
    Sql.insert_columns insertLogsSQLTemplate /\
  Sql.insert_placeholders (logs_insertSQL (newLogsExporter cfg)) =
    Sql.insert_placeholders insertLogsSQLTemplate.
Proof.
  intros Ht Hl.
  split; [apply render_traces_text|]. split; [apply render_logs_text|].
  assert (A : Text.after_open (renderInsertTracesSQL cfg) =
              Text.after_open insertTracesSQLTemplate).
  { unfold renderInsertTracesSQL. rewrite render_traces_text.
    rewrite (after_open_skip "INSERT INTO ") by reflexivity.
    rewrite (after_open_skip (TracesTableName cfg)) by exact Ht.
    vm_compute. reflexivity. }
  assert (B : Text.after_open (renderInsertLogsSQL cfg) =
              Text.after_open insertLogsSQLTemplate).
  { unfold renderInsertLogsSQL. rewrite render_logs_text.
    rewrite (after_open_skip "INSERT INTO ") by reflexivity.
    rewrite (after_open_skip (LogsTableName cfg)) by exact Hl.
    vm_compute. reflexivity. }
  cbn [newTracesExporter newLogsExporter traces_insertSQL logs_insertSQL].
  destruct (columns_by_after_open _ _ A) as [A1 A2].
  destruct (columns_by_after_open _ _ B) as [B1 B2].
  repeat split; assumption.
Qed.

Lemma rendered_insert_keeps_columns_witness :
  noOpenParen (TracesTableName sampleConfig) /\ noOpenParen (LogsTableName sampleConfig) /\
  Sql.insert_columns (traces_insertSQL (newTracesExporter sampleConfig)) =
    Sql.insert_columns insertTracesSQLTemplate.
Proof.
  assert (H1 : noOpenParen (TracesTableName sampleConfig)) by reflexivity.
  assert (H2 : noOpenParen (LogsTableName sampleConfig)) by reflexivity.
  destruct (rendered_insert_keeps_columns sampleConfig H1 H2) as (_ & _ & H & _).
  split; [exact H1|]. split; [exact H2|exact H].
Defined.

(** ** Every push, phase by phase *)

Lemma length_flat_map_sum {A B : Type} (f : A -> list B) (l : list A) :
  List.length (flat_map f l) = list_sum (map (fun x => List.length (f x)) l).
Proof.
  induction l as [|x r IH]; [reflexivity|].
  cbn [flat_map map list_sum]. rewrite length_app, IH. reflexivity.
Qed.

Section PushPhases.

Context {encoder : AttributeEncoder} {fallback : ServiceNameFallback}.

Lemma traceRows_length (td : Traces) : List.length (traceRows td) = SpanCount td.
Proof.
  unfold traceRows, SpanCount. rewrite length_flat_map_sum. f_equal.
  apply map_ext. intros spans. rewrite length_flat_map_sum. f_equal.
  apply map_ext. intros ss. apply length_map.
Qed.

Lemma logRows_length (ld : Logs) : List.length (logRows ld) = LogRecordCount ld.
Proof.
  unfold logRows, LogRecordCount. rewrite length_flat_map_sum. f_equal.
  apply map_ext. intros logs. rewrite length_flat_map_sum. f_equal.
  apply map_ext. intros sl. apply length_map.
Qed.

Lemma metricRows_length {P D : Type} (points : P -> list D)
  (args : string -> string -> string -> model P -> D -> list SqlVal) (s : metrics P) :
  List.length (metricRows points args s) =
  List.length (flat_map (fun m => points (payload m)) (models s)).
Proof.
  unfold metricRows. rewrite !length_flat_map_sum. f_equal.
  apply map_ext. intros m. apply length_map.
Qed.

Lemma pushRows_length (p : push) :
  pushCounted p -> Z.of_nat (List.length (pushRows p)) = pushRecords p.
Proof.
  destruct p; cbn [pushCounted pushRows pushRecords]; intros H;
    try (unfold counted in H; rewrite H; f_equal; apply metricRows_length).
  - f_equal. apply traceRows_length.
  - f_equal. apply logRows_length.
Qed.

Lemma metric_insert_outcome {P D : Type} (message : string) (s : metrics P)
  (points : P -> list D) (args : string -> string -> string -> model P -> D -> list SqlVal)
  (db : DB) :
  let res :=
    if count s =? 0 then (None, db)
    else wrapFail message (doWithTx (metricTxBody (insertSQL s) s points args) db) in
  (count s = 0 /\ res = (None, db)) \/
  (exists res0,
     pushOutcome (fun err => err) (insertSQL s) (metricRows points args s) db res0 /\
     res = wrapFail message res0).
Proof.
  cbv zeta. destruct (Z.eqb_spec (count s) 0) as [H0|_]; [left; auto|].
  right. rewrite metricTxBody_rows. eexists. split; [apply txInsert_outcome|reflexivity].
Qed.

Lemma runPush_outcome (p : push) (db : DB) :
  (pushFailMessage p <> None /\ pushRecords p = 0 /\ runPush p db = (None, db)) \/
  (exists res0,
     pushOutcome (pushWrapPrepare p) (pushStatement p) (pushRows p) db res0 /\
     runPush p db =
       match pushFailMessage p with
       | None => res0
       | Some message => wrapFail message res0
       end).
Proof.
  destruct p as [e td|e ld|s|g|h|e|s];
    cbn [pushFailMessage pushRecords pushWrapPrepare pushStatement pushRows runPush].
  - right. rewrite pushTraceData_rows. eexists. split; [apply txInsert_outcome|reflexivity].
  - right. rewrite pushLogsData_rows. eexists. split; [apply txInsert_outcome|reflexivity].
  - destruct (metric_insert_outcome "insert sum metrics fail:" s sum_DataPoints sumArgs db)
      as [[H0 H]|(res0 & H1 & H2)];
      [left; split; [discriminate|split; [exact H0|exact H]]|right; exists res0; split; assumption].
  - destruct (metric_insert_outcome "insert gauge metrics fail:" g gauge_DataPoints gaugeArgs db)
      as [[H0 H]|(res0 & H1 & H2)];
      [left; split; [discriminate|split; [exact H0|exact H]]|right; exists res0; split; assumption].
  - destruct (metric_insert_outcome "insert histogram metrics fail:" h histogram_DataPoints
                histogramArgs db)
      as [[H0 H]|(res0 & H1 & H2)];
      [left; split; [discriminate|split; [exact H0|exact H]]|right; exists res0; split; assumption].
  - destruct (metric_insert_outcome "insert exponential histogram metrics fail:" e
                exphistogram_DataPoints expHistogramArgs db)
      as [[H0 H]|(res0 & H1 & H2)];
      [left; split; [discriminate|split; [exact H0|exact H]]|right; exists res0; split; assumption].
  - destruct (metric_insert_outcome "insert summary metrics fail:" s summary_DataPoints
                summaryArgs db)
      as [[H0 H]|(res0 & H1 & H2)];
      [left; split; [discriminate|split; [exact H0|exact H]]|right; exists res0; split; assumption].
Qed.

Lemma wrapped_store (message : option string) (res0 : option error * DB) :
  snd (match message with
       | None => res0
       | Some m => wrapFail m res0
       end) = snd res0.
Proof. destruct message, res0 as [[err|] d]; reflexivity. Qed.

(** X4. Whatever the driver does, every push releases what it acquired:
    the prepared statement is closed exactly when its preparation succeeded,
    and a transaction whose [Begin] succeeded is ended by exactly one commit
    or rollback, which is the last call of the push and follows the closing
    of the statement; afterwards the transaction is done and holds no pending
    row.  When [Begin] did not succeed the transaction state is as before. *)
Theorem push_releases_statement_and_transaction (p : push) (db : DB) :
  exists new : list event,
    oplog (snd (runPush p db)) = oplog db ++ new /\
    List.length (filter isStmtClose new) =
      List.length (filter (fun ev => isPrepare ev && succeeded ev) new) /\
    (List.length (filter isCommit new) + List.length (filter isRollback new))%nat =
      List.length (filter (fun ev => isBegin ev && succeeded ev) new) /\
    if existsb (fun ev => isBegin ev && succeeded ev) new
    then txDone (snd (runPush p db)) = true /\
         txRows (snd (runPush p db)) = [] /\
         exists (before : list event) (last : event),
           new = before ++ [last] /\ isCommit last || isRollback last = true
    else txDone (snd (runPush p db)) = txDone db /\
         txRows (snd (runPush p db)) = txRows db /\
         committed (snd (runPush p db)) = committed db.
Proof.
  destruct (runPush_outcome p db) as [(_ & _ & H)|(res0 & Hout & H)]; rewrite H.
  - exists []. cbn. rewrite app_nil_r. repeat split.
  - rewrite wrapped_store.
    destruct Hout as [e|e o|k args e o1 o2 Hk|e o1|o1];
      (eexists; split; [cbn [snd oplog]; reflexivity|]); count_events.
    + repeat split.
    + split; [reflexivity|]. split; [reflexivity|]. split; [reflexivity|].
      split; [reflexivity|].
      exists [(OpBegin, None); (OpPrepare (pushStatement p), Some e)], (OpRollback, o).
      split; reflexivity.
    + split; [reflexivity|]. split; [reflexivity|]. split; [reflexivity|].
      split; [reflexivity|]. eexists _, (OpRollback, o2). split; [|reflexivity].
      change [(OpExec (pushStatement p) args, Some e);
              (OpStmtClose (pushStatement p), o1); (OpRollback, o2)]
        with ([(OpExec (pushStatement p) args, Some e);
               (OpStmtClose (pushStatement p), o1)] ++ [(OpRollback, o2)]).
      rewrite !app_comm_cons, !app_assoc. reflexivity.
    + split; [reflexivity|]. split; [reflexivity|]. split; [reflexivity|].
      split; [reflexivity|]. eexists _, (OpCommit, Some e). split; [|reflexivity].
      change [(OpStmtClose (pushStatement p), o1); (OpCommit, Some e)]
        with ([(OpStmtClose (pushStatement p), o1)] ++ [(OpCommit, Some e)]).
      rewrite !app_comm_cons, !app_assoc. reflexivity.
    + split; [reflexivity|]. split; [reflexivity|]. split; [reflexivity|].
      split; [reflexivity|]. eexists _, (OpCommit, None). split; [|reflexivity].
      change [(OpStmtClose (pushStatement p), o1); (OpCommit, None)]
        with ([(OpStmtClose (pushStatement p), o1)] ++ [(OpCommit, None)]).
      rewrite !app_comm_cons, !app_assoc. reflexivity.
Qed.

End PushPhases.

Section PushResults.

Context {encoder : AttributeEncoder} {fallback : ServiceNameFallback}.

Lemma outcome_phase (wrapPrepare : error -> error) (statement : string)
  (rows : list (list SqlVal)) (db : DB) (res0 : option error * DB) :
  pushOutcome wrapPrepare statement rows db res0 ->
  exists new : list event,
    oplog (snd res0) = oplog db ++ new /\
    match fst res0 with
    | None => In (OpCommit, None) new
    | Some err =>
        existsb (fun ev => isCommit ev && succeeded ev) new = false /\
        committed (snd res0) = committed db /\
        phaseError wrapPrepare statement new err
    end.
Proof.
  intros H. destruct H as [e|e o|k args e o1 o2 Hk|e o1|o1];
    (eexists; split; [cbn [snd oplog]; reflexivity|]); cbn [fst snd committed].
  - split; [reflexivity|]. split; [reflexivity|]. left. exists e. auto.
  - split; [reflexivity|]. split; [reflexivity|]. right. left. exists e.
    split; [reflexivity|]. cbn. auto.
  - split; [count_events; reflexivity|]. split; [reflexivity|]. right. right. left.
    exists e, args. split; [reflexivity|].
    rewrite !in_app_iff. right. right. left. reflexivity.
  - split; [count_events; reflexivity|]. split; [reflexivity|]. right. right. right.
    rewrite !in_app_iff. right. right. right. left. reflexivity.
  - rewrite !in_app_iff. right. right. right. left. reflexivity.
Qed.

(** X5. The error of a push tells the phase that failed.  A push returns
    nil only after a commit that succeeded (or, for a metrics group, when the
    group holds no row and nothing was called).  Otherwise no commit
    succeeded, the visible rows are unchanged, and the error is the driver's
    error of the failed call: from [Begin] behind the prefix "db.Begin: ",
    from [PrepareContext] behind "PrepareContext:" for traces and logs and
    bare for metrics, from [ExecContext] behind "ExecContext:", from
    [Commit] bare; a metrics group puts its own "insert ... metrics fail:"
    before all of them. *)
Theorem push_error_names_the_phase (p : push) (db : DB) :
  exists new : list event,
    oplog (snd (runPush p db)) = oplog db ++ new /\
    match fst (runPush p db), pushFailMessage p with
    | None, None => In (OpCommit, None) new
    | None, Some _ => (pushRecords p = 0 /\ new = []) \/ In (OpCommit, None) new
    | Some err, None =>
        existsb (fun ev => isCommit ev && succeeded ev) new = false /\
        committed (snd (runPush p db)) = committed db /\
        phaseError (pushWrapPrepare p) (pushStatement p) new err
    | Some err, Some message =>
        existsb (fun ev => isCommit ev && succeeded ev) new = false /\
        committed (snd (runPush p db)) = committed db /\
        exists inner,
          err = Errorf message inner /\
          phaseError (pushWrapPrepare p) (pushStatement p) new inner
    end.
Proof.
  destruct (runPush_outcome p db) as [(Hm & H0 & H)|(res0 & Hout & H)]; rewrite H.
  - exists []. rewrite app_nil_r. split; [reflexivity|]. cbn [fst].
    destruct (pushFailMessage p); [left; auto|contradiction].
  - destruct (outcome_phase _ _ _ _ _ Hout) as (new & Hlog & Hphase).
    exists new. rewrite wrapped_store. split; [exact Hlog|].
    destruct res0 as [[err|] d]; cbn [fst snd] in *;
      destruct (pushFailMessage p) as [message|]; cbn [wrapFail fst snd].
    + destruct Hphase as (Hc & Hk & Hp). split; [exact Hc|]. split; [exact Hk|].
      exists err. split; [reflexivity|exact Hp].
    + exact Hphase.
    + right. exact Hphase.
    + exact Hphase.
Qed.

(** X6. A traces or logs push is not skipped when the batch is empty:
    with no span (no log record) it executes no row, but it still calls
    [Begin], and on a store that accepts every call it prepares the
    statement, closes it and commits an empty transaction, leaving the
    visible rows as they were. *)
Theorem empty_traces_and_logs_push_still_runs_a_transaction
  (te : tracesExporter) (td : Traces) (le : logsExporter) (ld : Logs) (db : DB) :
  SpanCount td = 0%nat -> LogRecordCount ld = 0%nat ->
  (exists o rest,
     oplog (snd (pushTraceData te td db)) = oplog db ++ (OpBegin, o) :: rest /\
     execArgs rest = [] /\
     committed (snd (pushTraceData te td db)) = committed db) /\
  (exists o rest,
     oplog (snd (pushLogsData le ld db)) = oplog db ++ (OpBegin, o) :: rest /\
     execArgs rest = [] /\
     committed (snd (pushLogsData le ld db)) = committed db) /\
  (accepting db ->
   pushTraceData te td db =
     (None,
      mkDB (driver db) (committed db) [] true
        (oplog db ++
         [(OpBegin, None); (OpPrepare (traces_insertSQL te), None);
          (OpStmtClose (traces_insertSQL te), None); (OpCommit, None)])) /\
   pushLogsData le ld db =
     (None,
      mkDB (driver db) (committed db) [] true
        (oplog db ++
         [(OpBegin, None); (OpPrepare (logs_insertSQL le), None);
          (OpStmtClose (logs_insertSQL le), None); (OpCommit, None)]))).
Proof.
  intros Ht Hl.
  assert (Rt : traceRows td = []).
  { apply length_zero_iff_nil. rewrite traceRows_length. exact Ht. }
  assert (Rl : logRows ld = []).
  { apply length_zero_iff_nil. rewrite logRows_length. exact Hl. }
  assert (G : forall w st,
            exists o rest,
              oplog (snd (txInsert w st [] db)) = oplog db ++ (OpBegin, o) :: rest /\
              execArgs rest = [] /\
              committed (snd (txInsert w st [] db)) = committed db).
  { intros w st. pose proof (txInsert_outcome w st [] db) as H.
    inversion H as [e E|e o E|k args e o1 o2 Hk E|e o1 E|o1 E];
      cbn [snd oplog committed map app].
    - exists (Some e), []. repeat split.
    - eexists _, _. repeat split.
    - destruct k; discriminate Hk.
    - eexists _, _. repeat split.
    - eexists _, _. split; [reflexivity|]. split; [reflexivity|]. apply app_nil_r. }
  rewrite pushTraceData_rows, pushLogsData_rows, Rt, Rl.
  split; [apply G|]. split; [apply G|].
  intros Hacc. rewrite !(txInsert_accepting _ _ _ _ Hacc).
  cbn [map app]. rewrite !app_nil_r. split; reflexivity.
Qed.

Lemma metric_insert_accepting {P D : Type} (message : string) (s : metrics P)
  (points : P -> list D) (args : string -> string -> string -> model P -> D -> list SqlVal)
  (db : DB) :
  accepting db -> counted points s ->
  let res :=
    if count s =? 0 then (None, db)
    else wrapFail message (doWithTx (metricTxBody (insertSQL s) s points args) db) in
  fst res = None /\
  committed (snd res) = committed db ++ map (pair (insertSQL s)) (metricRows points args s).
Proof.
  intros Hacc Hc. cbv zeta. destruct (Z.eqb_spec (count s) 0) as [H0|_].
  - rewrite (counted_zero points args s Hc H0). cbn. rewrite app_nil_r. auto.
  - rewrite metricTxBody_rows, (txInsert_accepting _ _ _ _ Hacc). split; reflexivity.
Qed.

(** X7. On a store that accepts every call, a push succeeds and the
    visible rows grow by exactly the number the routine reports as its
    records: the span count, the log record count, or the row count of the
    metrics group (which agrees with the data points it holds). *)
Theorem accepted_push_stores_the_reported_records (p : push) (db : DB) :
  accepting db -> pushCounted p ->
  fst (runPush p db) = None /\
  committed (snd (runPush p db)) =
    committed db ++ map (pair (pushStatement p)) (pushRows p) /\
  Z.of_nat (List.length (committed (snd (runPush p db)))) =
    Z.of_nat (List.length (committed db)) + pushRecords p.
Proof.
  intros Hacc Hc.
  assert (H : fst (runPush p db) = None /\
              committed (snd (runPush p db)) =
              committed db ++ map (pair (pushStatement p)) (pushRows p)).
  { destruct p as [e td|e ld|s|g|h|e|s];
      cbn [pushCounted pushStatement pushRows runPush] in *.
    - rewrite pushTraceData_rows, (txInsert_accepting _ _ _ _ Hacc). split; reflexivity.
    - rewrite pushLogsData_rows, (txInsert_accepting _ _ _ _ Hacc). split; reflexivity.
    - apply metric_insert_accepting; assumption.
    - apply metric_insert_accepting; assumption.
    - apply metric_insert_accepting; assumption.
    - apply metric_insert_accepting; assumption.
    - apply metric_insert_accepting; assumption. }
  destruct H as [H1 H2]. split; [exact H1|]. split; [exact H2|].
  rewrite H2, length_app, length_map, Nat2Z.inj_add, (pushRows_length p Hc). reflexivity.
Qed.

End PushResults.

Definition noSpans : Traces := [mkResourceSpans sampleResource [mkScopeSpans sampleScope []]].

Definition noLogs : Logs := [mkResourceLogs sampleResource "" [mkScopeLogs sampleScope "" []]].

Lemma empty_traces_and_logs_push_still_runs_a_transaction_witness :
  SpanCount noSpans = 0%nat /\ LogRecordCount noLogs = 0%nat /\ accepting emptyStore /\
  oplog (snd (@pushTraceData sampleEncoder sampleFallback (newTracesExporter sampleConfig)
                noSpans emptyStore)) =
  [(OpBegin, None); (OpPrepare (renderInsertTracesSQL sampleConfig), None);
   (OpStmtClose (renderInsertTracesSQL sampleConfig), None); (OpCommit, None)].
Proof.
  assert (H1 : SpanCount noSpans = 0%nat) by reflexivity.
  assert (H2 : LogRecordCount noLogs = 0%nat) by reflexivity.
  assert (Hacc : accepting emptyStore) by (intros log op; reflexivity).
  destruct (@empty_traces_and_logs_push_still_runs_a_transaction sampleEncoder sampleFallback
              (newTracesExporter sampleConfig) noSpans (newLogsExporter sampleConfig) noLogs
              emptyStore H1 H2) as (_ & _ & H).
  destruct (H Hacc) as [Ht _].
  split; [exact H1|]. split; [exact H2|]. split; [exact Hacc|].
  rewrite Ht. reflexivity.
Defined.

Lemma accepted_push_stores_the_reported_records_witness :
  accepting emptyStore /\ pushCounted (PushSum sampleSumMetrics) /\
  Z.of_nat
    (List.length
       (committed (snd (@runPush sampleEncoder sampleFallback (PushSum sampleSumMetrics)
                          emptyStore)))) = 2.
Proof.
  assert (Hacc : accepting emptyStore) by (intros log op; reflexivity).
  assert (Hc : pushCounted (PushSum sampleSumMetrics)) by reflexivity.
  destruct (@accepted_push_stores_the_reported_records sampleEncoder sampleFallback
              (PushSum sampleSumMetrics) emptyStore Hacc Hc) as (_ & _ & H).
  split; [exact Hacc|]. split; [exact Hc|]. rewrite H. reflexivity.
Defined.

(** ** Accumulating several metrics *)

Section Accumulation.

Context {encoder : AttributeEncoder} {fallback : ServiceNameFallback}.

(** What [Add] of one metrics group does to the rows the group will
    insert: the rows already accumulated stay first and in order, the rows
    of the added metric follow, one per data point; a rejected argument adds
    none.  The insert statement is kept. *)
Definition AddAppendsRows {P D : Type}
  (Add : metrics P -> Map -> string -> InstrumentationScope -> string -> any ->
         string -> string -> string -> option error * metrics P)
  (expected : any -> option P) (points : P -> list D)
  (args : string -> string -> string -> model P -> D -> list SqlVal) : Prop :=
  forall s resAttr resURL scopeInstr scopeURL m name description unit,
    metricRows points args
      (snd (Add s resAttr resURL scopeInstr scopeURL m name description unit)) =
    metricRows points args s ++
    match expected m with
    | Some p =>
        map (rowOf args
               (mkModel name description unit
                  (mkMetricsMetaData resAttr resURL scopeURL scopeInstr) p))
            (points p)
    | None => []
    end /\
    insertSQL (snd (Add s resAttr resURL scopeInstr scopeURL m name description unit)) =
    insertSQL s.

Lemma appendModel_rows {P D : Type} (points : P -> list D)
  (args : string -> string -> string -> model P -> D -> list SqlVal)
  (s : metrics P) (n : nat) (m : model P) :
  metricRows points args (appendModel s n m) =
  metricRows points args s ++ map (rowOf args m) (points (payload m)).
Proof.
  unfold metricRows, appendModel, rowOf. cbn [models].
  rewrite flat_map_app. cbn [flat_map]. rewrite app_nil_r. reflexivity.
Qed.

(** X8. In each of the five metrics groups, [Add] appends: the rows the
    group will insert after an [Add] are the rows it would have inserted
    before, in the same order, followed by one row per data point of the
    added metric in the order of its data points; an [Add] that rejects its
    argument changes no row.  The insert statement of the group is never
    changed by [Add]. *)
Theorem Add_appends_rows_in_order :
  AddAppendsRows sumMetrics_Add asSum sum_DataPoints sumArgs /\
  AddAppendsRows gaugeMetrics_Add asGauge gauge_DataPoints gaugeArgs /\
  AddAppendsRows histogramMetrics_Add asHistogram histogram_DataPoints histogramArgs /\
  AddAppendsRows expHistogramMetrics_Add asExponentialHistogram exphistogram_DataPoints
    expHistogramArgs /\
  AddAppendsRows summaryMetrics_Add asSummary summary_DataPoints summaryArgs.
Proof.
  repeat split; destruct m;
    cbn [snd sumMetrics_Add gaugeMetrics_Add histogramMetrics_Add expHistogramMetrics_Add
         summaryMetrics_Add asSum asGauge asHistogram asExponentialHistogram asSummary];
    try (rewrite app_nil_r; reflexivity); try reflexivity;
    rewrite appendModel_rows; reflexivity.
Qed.

End Accumulation.

(** ** Schema creation *)

Lemma set_Database_restore (cfg : Config) (name : string) :
  set_Database (Database cfg) (set_Database name cfg) = cfg.
Proof. destruct cfg; reflexivity. Qed.

Section SchemaProperties.

Context {clauses : ConfigClauses} {env : SchemaEnv}.

(** X9. [createTracesTable] issues its statements one after the other on
    the connection, outside any transaction: the spans table, the trace-id
    time-range table, the materialized view.  It stops at the first
    statement the driver rejects and returns that error behind the message
    of the statement; it returns nil exactly when all three were accepted.
    [createLogsTable] issues its single statement in the same way.  Neither
    touches the rows of the store. *)
Theorem schema_statements_run_in_order_until_one_fails (cfg : Config) (db : DB) :
  let q1 := renderCreateTracesTableSQL cfg in
  let q2 := renderCreateTraceIDTsTableSQL cfg in
  let q3 := renderTraceIDTsMaterializedViewSQL cfg in
  let ql := renderCreateLogsTableSQL cfg in
  (exists new : list event,
     snd (createTracesTable cfg db) =
       mkDB (driver db) (committed db) (txRows db) (txDone db) (oplog db ++ new) /\
     (exists k : nat, map fst new = firstn (S k) [OpExec q1 []; OpExec q2 []; OpExec q3 []]) /\
     match fst (createTracesTable cfg db) with
     | None => map snd new = [None; None; None]
     | Some err =>
         exists (before : list event) (e0 : error),
           forallb succeeded before = true /\
           ((new = before ++ [(OpExec q1 [], Some e0)] /\ before = [] /\
             err = Errorf "exec create traces table sql: " e0) \/
            (new = before ++ [(OpExec q2 [], Some e0)] /\ List.length before = 1%nat /\
             err = Errorf "exec create traceID timestamp table sql: " e0) \/
            (new = before ++ [(OpExec q3 [], Some e0)] /\ List.length before = 2%nat /\
             err = Errorf "exec create traceID timestamp view sql: " e0))
     end) /\
  (exists o : option error,
     snd (createLogsTable cfg db) =
       mkDB (driver db) (committed db) (txRows db) (txDone db)
         (oplog db ++ [(OpExec ql [], o)]) /\
     fst (createLogsTable cfg db) = option_map (Errorf "exec create logs table sql: ") o).
Proof.
  intros q1 q2 q3 ql. split.
  - unfold createTracesTable, DB_ExecContext, call. fold q1 q2 q3.
    destruct (driver db (oplog db) (OpExec q1 [])) as [e1|] eqn:E1.
    { exists [(OpExec q1 [], Some e1)]. cbn [fst snd]. split; [reflexivity|].
      split; [exists 0%nat; reflexivity|].
      exists [], e1. split; [reflexivity|]. left. auto. }
    cbn [driver committed txRows txDone oplog].
    destruct (driver db (oplog db ++ [(OpExec q1 [], None)]) (OpExec q2 [])) as [e2|] eqn:E2.
    { exists [(OpExec q1 [], None); (OpExec q2 [], Some e2)]. cbn [fst snd].
      split; [rewrite <- app_assoc; reflexivity|].
      split; [exists 1%nat; reflexivity|].
      exists [(OpExec q1 [], None)], e2. split; [reflexivity|]. right. left. auto. }
    cbn [driver committed txRows txDone oplog].
    destruct (driver db ((oplog db ++ [(OpExec q1 [], None)]) ++ [(OpExec q2 [], None)])
                (OpExec q3 [])) as [e3|] eqn:E3.
    { exists [(OpExec q1 [], None); (OpExec q2 [], None); (OpExec q3 [], Some e3)].
      cbn [fst snd]. split; [rewrite <- !app_assoc; reflexivity|].
      split; [exists 2%nat; reflexivity|].
      exists [(OpExec q1 [], None); (OpExec q2 [], None)], e3.
      split; [reflexivity|]. right. right. auto. }
    exists [(OpExec q1 [], None); (OpExec q2 [], None); (OpExec q3 [], None)].
    cbn [fst snd]. split; [rewrite <- !app_assoc; reflexivity|].
    split; [exists 2%nat; reflexivity|reflexivity].
  - unfold createLogsTable, DB_ExecContext, call. fold ql.
    exists (driver db (oplog db) (OpExec ql [])).
    destruct (driver db (oplog db) (OpExec ql [])); split; reflexivity.
Qed.

(** X10. [createDatabase] hands the configuration back as it received it
    on every path, although it connects with the database name set to the
    default database.  It does nothing when the configured database is the
    default one; when the connection cannot be built it returns that error
    behind "can't connect to clickhouse: " without calling the store;
    otherwise it issues exactly one statement, [CREATE DATABASE IF NOT
    EXISTS] of the configured database (not the default one) with the cluster
    clause, and returns the driver's error, if any, behind
    "create database: ". *)
Theorem createDatabase_keeps_the_configuration (cfg : Config) (db : DB) :
  let '(err, cfg', db') := createDatabase cfg db in
  cfg' = cfg /\
  if String.eqb (Database cfg) defaultDatabase then err = None /\ db' = db
  else
    match buildDB (mkConfig defaultDatabase (TracesTableName cfg) (LogsTableName cfg)) with
    | Some e0 => err = Some (Errorf "can't connect to clickhouse: " e0) /\ db' = db
    | None =>
        exists o : option error,
          db' =
            mkDB (driver db) (committed db) (txRows db) (txDone db)
              (oplog db ++
               [(OpExec ("CREATE DATABASE IF NOT EXISTS " +++ Database cfg +++ " " +++
                         clusterString cfg) [], o)]) /\
          err = option_map (Errorf "create database: ") o
    end.
Proof.
  unfold createDatabase.
  destruct (String.eqb (Database cfg) defaultDatabase); [auto|].
  cbv zeta. rewrite set_Database_restore. unfold set_Database at 1.
  destruct (buildDB (mkConfig defaultDatabase (TracesTableName cfg) (LogsTableName cfg)))
    as [e0|]; [auto|].
  unfold DB_ExecContext, call.
  change (Sprintf "CREATE DATABASE IF NOT EXISTS %s %s" [Database cfg; clusterString cfg])
    with ("CREATE DATABASE IF NOT EXISTS " +++ Database cfg +++ " " +++ clusterString cfg
          +++ "").
  assert (E : forall a : string, a +++ "" = a).
  { induction a as [|c a IH]; [reflexivity|]. cbn. rewrite IH. reflexivity. }
  rewrite E.
  match goal with |- context [driver db (oplog db) ?op] =>
    destruct (driver db (oplog db) op) as [e1|] eqn:E1 end.
  - split; [reflexivity|]. exists (Some e1). split; reflexivity.
  - split; [reflexivity|]. exists None. split; reflexivity.
Qed.

Lemma createDatabase_config (cfg : Config) (db : DB) :
  snd (fst (createDatabase cfg db)) = cfg.
Proof.
  unfold createDatabase.
  destruct (String.eqb (Database cfg) defaultDatabase); [reflexivity|].
  cbv zeta. rewrite set_Database_restore.
  destruct (buildDB (set_Database defaultDatabase cfg)); [reflexivity|].
  destruct (DB_ExecContext _ db) as [[e|] d]; reflexivity.
Qed.

(** X11. [start] of the traces and of the logs exporter leaves the
    exporter and its configuration as they were.  When schema creation is
    switched off it calls nothing.  When it is on, the database is created
    first and the tables only after that succeeded, with the configuration
    as it was before [createDatabase]: a failure of [createDatabase] is
    returned as it is and no table statement is issued. *)
Theorem start_creates_the_schema_in_order (te : tracesExporter) (le : logsExporter) (db : DB) :
  snd (fst (tracesExporter_start te db)) = te /\
  snd (fst (logsExporter_start le db)) = le /\
  (if shouldCreateSchema (traces_cfg te)
   then match fst (fst (createDatabase (traces_cfg te) db)) with
        | Some err =>
            fst (fst (tracesExporter_start te db)) = Some err /\
            snd (tracesExporter_start te db) = snd (createDatabase (traces_cfg te) db)
        | None =>
            (fst (fst (tracesExporter_start te db)), snd (tracesExporter_start te db)) =
            createTracesTable (traces_cfg te) (snd (createDatabase (traces_cfg te) db))
        end
   else fst (fst (tracesExporter_start te db)) = None /\
        snd (tracesExporter_start te db) = db) /\
  (if shouldCreateSchema (logs_cfg le)
   then match fst (fst (createDatabase (logs_cfg le) db)) with
        | Some err =>
            fst (fst (logsExporter_start le db)) = Some err /\
            snd (logsExporter_start le db) = snd (createDatabase (logs_cfg le) db)
        | None =>
            (fst (fst (logsExporter_start le db)), snd (logsExporter_start le db)) =
            createLogsTable (logs_cfg le) (snd (createDatabase (logs_cfg le) db))
        end
   else fst (fst (logsExporter_start le db)) = None /\
        snd (logsExporter_start le db) = db).
Proof.
  unfold tracesExporter_start, logsExporter_start.
  pose proof (createDatabase_config (traces_cfg te) db) as Ht.
  pose proof (createDatabase_config (logs_cfg le) db) as Hl.
  destruct (shouldCreateSchema (traces_cfg te)), (shouldCreateSchema (logs_cfg le));
    cbn [negb];
    destruct (createDatabase (traces_cfg te) db) as [[[et|] ct] dt];
    destruct (createDatabase (logs_cfg le) db) as [[[el|] cl] dl];
    cbn [fst snd] in *; subst;
    try destruct (createTracesTable (traces_cfg te) dt) as [rt dt'];
    try destruct (createLogsTable (logs_cfg le) dl) as [rl dl'];
    cbn [fst snd]; destruct te, le; repeat split.
Qed.

End SchemaProperties.

(** ** Rows keep to their own resource and scope *)

Lemma In_firstn {A : Type} (k : nat) (l : list A) (x : A) : In x (firstn k l) -> In x l.
Proof.
  revert l. induction k as [|k IH]; intros [|y l] H; try destruct H.
  - left. assumption.
  - right. apply IH. assumption.
Qed.

Section Attribution.

Context {encoder : AttributeEncoder} {fallback : ServiceNameFallback}.

Lemma executed_rows_are_push_rows (p : push) (db : DB) (new : list event) (args : list SqlVal) :
  oplog (snd (runPush p db)) = oplog db ++ new ->
  In args (execArgs new) -> In args (pushRows p).
Proof.
  intros Hlog Hin.
  destruct (runPush_outcome p db) as [(_ & _ & H)|(res0 & Hout & H)]; rewrite H in Hlog.
  - cbn [snd] in Hlog. rewrite <- (app_nil_r (oplog db)) in Hlog at 1.
    apply app_inv_head in Hlog. subst new. destruct Hin.
  - rewrite wrapped_store in Hlog.
    destruct (outcome_transactional (pushWrapPrepare p) (pushStatement p) (pushRows p) db res0)
      as (new' & Hlog' & _ & _ & (k & Hk) & _); [|exact Hout|].
    { intros e. destruct p; cbn [pushWrapPrepare];
        try apply wraps_refl; apply wraps_Errorf, wraps_refl. }
    rewrite Hlog' in Hlog. apply app_inv_head in Hlog. subst new'.
    rewrite Hk in Hin. apply In_firstn in Hin. exact Hin.
Qed.

(** X12. Every row that [pushTraceData] executes belongs to a span of the
    batch and carries the service name and attributes of the resource that
    holds the span and the name and version of the scope that holds it;
    every row that [pushLogsData] executes likewise belongs to a log record
    and carries the schema URLs, service name and attributes of its own
    resource and scope.  No row mixes one resource's context with another's
    record. *)
Theorem rows_carry_their_own_resource_and_scope
  (te : tracesExporter) (td : Traces) (le : logsExporter) (ld : Logs) (db : DB)
  (newT newL : list event) :
  oplog (snd (pushTraceData te td db)) = oplog db ++ newT ->
  oplog (snd (pushLogsData le ld db)) = oplog db ++ newL ->
  (forall args, In args (execArgs newT) ->
     exists spans scopeSpans r,
       In spans td /\ In scopeSpans (rs_ScopeSpans spans) /\ In r (ss_Spans scopeSpans) /\
       args = spanArgs (GetServiceName (rs_ResourceAttributes spans))
                       (AttributesToJSON (rs_ResourceAttributes spans))
                       (scope_Name (ss_Scope scopeSpans))
                       (scope_Version (ss_Scope scopeSpans)) r) /\
  (forall args, In args (execArgs newL) ->
     exists logs scopeLogs r,
       In logs ld /\ In scopeLogs (rl_ScopeLogs logs) /\ In r (sl_LogRecords scopeLogs) /\
       args = logArgs (GetServiceName (rl_ResourceAttributes logs))
                      (rl_SchemaUrl logs)
                      (AttributesToJSON (rl_ResourceAttributes logs))
                      (sl_SchemaUrl scopeLogs)
                      (scope_Name (sl_Scope scopeLogs))
                      (scope_Version (sl_Scope scopeLogs))
                      (AttributesToJSON (scope_Attributes (sl_Scope scopeLogs))) r).
Proof.
  intros HT HL. split.
  - intros args Hin.
    apply (executed_rows_are_push_rows (PushTraces te td) db newT args HT) in Hin.
    cbn [pushRows] in Hin. unfold traceRows in Hin.
    apply in_flat_map in Hin. destruct Hin as (spans & Hs & Hin).
    apply in_flat_map in Hin. destruct Hin as (scopeSpans & Hss & Hin).
    apply in_map_iff in Hin. destruct Hin as (r & Hr & Hin).
    exists spans, scopeSpans, r. auto.
  - intros args Hin.
    apply (executed_rows_are_push_rows (PushLogs le ld) db newL args HL) in Hin.
    cbn [pushRows] in Hin. unfold logRows in Hin.
    apply in_flat_map in Hin. destruct Hin as (logs & Hs & Hin).
    apply in_flat_map in Hin. destruct Hin as (scopeLogs & Hss & Hin).
    apply in_map_iff in Hin. destruct Hin as (r & Hr & Hin).
    exists logs, scopeLogs, r. auto.
Qed.

End Attribution.

Lemma rows_carry_their_own_resource_and_scope_witness :
  exists newT newL : list event,
    oplog (snd (@pushTraceData sampleEncoder sampleFallback (newTracesExporter sampleConfig)
                  backwardsTraces emptyStore)) = oplog emptyStore ++ newT /\
    oplog (snd (@pushLogsData sampleEncoder sampleFallback (newLogsExporter sampleConfig)
                  noLogs emptyStore)) = oplog emptyStore ++ newL /\
    In (@spanArgs sampleEncoder "api" "{}" "scope" "v1" backwardsSpan) (execArgs newT) /\
    exists spans, In spans backwardsTraces.
Proof.
  eexists. eexists.
  assert (HT : oplog (snd (@pushTraceData sampleEncoder sampleFallback
                             (newTracesExporter sampleConfig) backwardsTraces emptyStore)) =
               oplog emptyStore ++
               [(OpBegin, None);
                (OpPrepare (renderInsertTracesSQL sampleConfig), None);
                (OpExec (renderInsertTracesSQL sampleConfig)
                   (@spanArgs sampleEncoder "api" "{}" "scope" "v1" backwardsSpan), None);
                (OpStmtClose (renderInsertTracesSQL sampleConfig), None);
                (OpCommit, None)]) by (vm_compute; reflexivity).
  assert (HL : oplog (snd (@pushLogsData sampleEncoder sampleFallback
                             (newLogsExporter sampleConfig) noLogs emptyStore)) =
               oplog emptyStore ++
               [(OpBegin, None);
                (OpPrepare (renderInsertLogsSQL sampleConfig), None);
                (OpStmtClose (renderInsertLogsSQL sampleConfig), None);
                (OpCommit, None)]) by (vm_compute; reflexivity).
  split; [exact HT|]. split; [exact HL|].
  assert (Hin : In (@spanArgs sampleEncoder "api" "{}" "scope" "v1" backwardsSpan)
                   (execArgs
                      [(OpBegin, None);
                       (OpPrepare (renderInsertTracesSQL sampleConfig), None);
                       (OpExec (renderInsertTracesSQL sampleConfig)
                          (@spanArgs sampleEncoder "api" "{}" "scope" "v1" backwardsSpan),
                        None);
                       (OpStmtClose (renderInsertTracesSQL sampleConfig), None);
                       (OpCommit, None)])) by (left; reflexivity).
  split; [exact Hin|].
  destruct (@rows_carry_their_own_resource_and_scope sampleEncoder sampleFallback
              _ _ _ _ _ _ _ HT HL) as [H _].
  destruct (H _ Hin) as (spans & _ & _ & Hs & _). exists spans. exact Hs.
Defined.
